(** * msplink: the host side of the Multi-Wii Serial Protocol

    A shallow embedding of the C sources of the msplink module
    (checksums.c, serial.c, send.c, parse.c and the transaction layer of
    msplink.c), with the properties of its framing, parsing and
    device-handle logic.

    Conventions.  A byte ([uint8_t]) is a [Z] in [0, 256); a [uint16_t] is a
    [Z] in [0, 65536); an [int] return code is a [Z].  Where C narrows a value
    into a smaller type the truncation is written out ([u8], [u16]).  The
    operating system is an explicit [world] that every system call threads
    through; the device handle and the world travel together in a [state]. *)

From Stdlib Require Import String Ascii ZArith Bool List Lia.
Import ListNotations.
Open Scope Z_scope.

Set Implicit Arguments.

(** ** Machine integers and characters *)

Definition u8 (x : Z) : Z := x mod 256.
Definition u16 (x : Z) : Z := x mod 65536.

Definition is_u8 (x : Z) : Prop := 0 <= x < 256.
Definition is_u16 (x : Z) : Prop := 0 <= x < 65536.

Definition chr (c : ascii) : Z := Z.of_nat (nat_of_ascii c).

(** [htole16] followed by a byte-wise view of the union, and its inverse. *)
Definition le16_lo (v : Z) : Z := v mod 256.
Definition le16_hi (v : Z) : Z := (v / 256) mod 256.
Definition le16toh (lo hi : Z) : Z := lo + 256 * hi.

(** ** msplink.h *)

Definition READ_BUFFER_SIZE : Z := 1024.
Definition MSP_RETRY_DEFAULT : Z := 3.

Definition MSP_OK : Z := 0.
Definition MSP_SYSCALL_FAIL : Z := -1.
Definition MSP_LIB_INTERNAL_ERROR : Z := -2.
Definition MSP_TX_FAIL : Z := -3.
Definition MSP_RX_FAIL : Z := -4.
Definition MSP_RX_SYNC_NOT_FOUND : Z := -5.
Definition MSP_RX_CHECKSUM_MISMATCH : Z := -6.
Definition MSP_OUT_OF_MEMORY : Z := -7.
Definition MSP_RX_CLIENT_NACK : Z := -8.

Record mspdev_t : Type := Mspdev {
  fd : Z;
  devname : option string;
  read_retries : Z;
  buf : list Z;
  mspversion : Z;
  device_open : Z;
  errornum : Z
}.

(** ** parse.h *)

Definition MSP_V1 : Z := Eval cbv in chr "M".
Definition MSP_V2 : Z := Eval cbv in chr "X".
Definition MSP_DIR_TOCLIENT : Z := Eval cbv in chr "<".
Definition MSP_DIR_TOHOST : Z := Eval cbv in chr ">".
Definition MSP_DIR_ERROR : Z := Eval cbv in chr "!".
Definition SYNC : Z := Eval cbv in chr "$".

(** [payload] is a pointer: either never assigned, or aliasing the device's
    receive buffer [mdev->buf]. *)
Inductive payload_ptr : Type := PtrUnset | PtrDevBuf.

Record mspPacket_t : Type := MspPacket {
  version : Z;
  direction : Z;
  flag : Z;
  function : Z;
  payload_size : Z;
  payload : payload_ptr;
  checksum : Z
}.

(** ** checksums.c *)

Module Checksums.

Definition CRC8_DVB_S2_LUT : list Z := [
  0x00; 0xd5; 0x7f; 0xaa; 0xfe; 0x2b; 0x81; 0x54;
  0x29; 0xfc; 0x56; 0x83; 0xd7; 0x02; 0xa8; 0x7d;
  0x52; 0x87; 0x2d; 0xf8; 0xac; 0x79; 0xd3; 0x06;
  0x7b; 0xae; 0x04; 0xd1; 0x85; 0x50; 0xfa; 0x2f;
  0xa4; 0x71; 0xdb; 0x0e; 0x5a; 0x8f; 0x25; 0xf0;
  0x8d; 0x58; 0xf2; 0x27; 0x73; 0xa6; 0x0c; 0xd9;
  0xf6; 0x23; 0x89; 0x5c; 0x08; 0xdd; 0x77; 0xa2;
  0xdf; 0x0a; 0xa0; 0x75; 0x21; 0xf4; 0x5e; 0x8b;
  0x9d; 0x48; 0xe2; 0x37; 0x63; 0xb6; 0x1c; 0xc9;
  0xb4; 0x61; 0xcb; 0x1e; 0x4a; 0x9f; 0x35; 0xe0;
  0xcf; 0x1a; 0xb0; 0x65; 0x31; 0xe4; 0x4e; 0x9b;
  0xe6; 0x33; 0x99; 0x4c; 0x18; 0xcd; 0x67; 0xb2;
  0x39; 0xec; 0x46; 0x93; 0xc7; 0x12; 0xb8; 0x6d;
  0x10; 0xc5; 0x6f; 0xba; 0xee; 0x3b; 0x91; 0x44;
  0x6b; 0xbe; 0x14; 0xc1; 0x95; 0x40; 0xea; 0x3f;
  0x42; 0x97; 0x3d; 0xe8; 0xbc; 0x69; 0xc3; 0x16;
  0xef; 0x3a; 0x90; 0x45; 0x11; 0xc4; 0x6e; 0xbb;
  0xc6; 0x13; 0xb9; 0x6c; 0x38; 0xed; 0x47; 0x92;
  0xbd; 0x68; 0xc2; 0x17; 0x43; 0x96; 0x3c; 0xe9;
  0x94; 0x41; 0xeb; 0x3e; 0x6a; 0xbf; 0x15; 0xc0;
  0x4b; 0x9e; 0x34; 0xe1; 0xb5; 0x60; 0xca; 0x1f;
  0x62; 0xb7; 0x1d; 0xc8; 0x9c; 0x49; 0xe3; 0x36;
  0x19; 0xcc; 0x66; 0xb3; 0xe7; 0x32; 0x98; 0x4d;
  0x30; 0xe5; 0x4f; 0x9a; 0xce; 0x1b; 0xb1; 0x64;
  0x72; 0xa7; 0x0d; 0xd8; 0x8c; 0x59; 0xf3; 0x26;
  0x5b; 0x8e; 0x24; 0xf1; 0xa5; 0x70; 0xda; 0x0f;
  0x20; 0xf5; 0x5f; 0x8a; 0xde; 0x0b; 0xa1; 0x74;
  0x09; 0xdc; 0x76; 0xa3; 0xf7; 0x22; 0x88; 0x5d;
  0xd6; 0x03; 0xa9; 0x7c; 0x28; 0xfd; 0x57; 0x82;
  0xff; 0x2a; 0x80; 0x55; 0x01; 0xd4; 0x7e; 0xab;
  0x84; 0x51; 0xfb; 0x2e; 0x7a; 0xaf; 0x05; 0xd0;
  0xad; 0x78; 0xd2; 0x07; 0x53; 0x86; 0x2c; 0xf9].

(** [while (pos < end) crc = CRC8_DVB_S2_LUT[crc ^ *(pos++)];] *)
Fixpoint checksum_crc8_dvb_s2 (data : list Z) (size : nat) (crc : Z) : Z :=
  match size, data with
  | S n, b :: rest =>
      checksum_crc8_dvb_s2 rest n (nth (Z.to_nat (Z.lxor crc b)) CRC8_DVB_S2_LUT 0)
  | _, _ => crc
  end.

(** [for (i = 0; i < size; i++) checksum ^= *(pos++);] *)
Fixpoint checksum_xor (data : list Z) (size : nat) (checksum : Z) : Z :=
  match size, data with
  | S n, b :: rest => checksum_xor rest n (Z.lxor checksum b)
  | _, _ => checksum
  end.

End Checksums.
Import Checksums.

(** ** The operating system

    The serial line as the code sees it through its system calls.  [rxq] is
    the input queue of the terminal.  Each [read] consumes one entry of
    [reads]: the bytes that reach the queue before that call returns (the
    line is configured with VMIN=0, VTIME=1, so a call returns after 0.1 s
    with whatever is there, possibly nothing), or a failure with its errno.
    [writes] and [ctls] schedule the outcomes of [write] and of the other
    calls in the same way.  An exhausted schedule means: nothing more
    arrives, and every call succeeds. *)

Inductive read_event : Type := RdArrive (bs : list Z) | RdFault (e : Z).
Inductive write_event : Type := WrAccept (k : Z) | WrFault (e : Z).
Inductive ctl_event : Type := CtlOk (v : Z) | CtlFail (e : Z).

Record world : Type := World {
  rxq : list Z;
  reads : list read_event;
  writes : list write_event;
  ctls : list ctl_event;
  txlog : list Z;
  errno : Z
}.

Record state : Type := State { mdev : mspdev_t; os : world }.

Module Sys.

(** [read(fd, buf, count)]: return value, bytes stored, new world. *)
Definition read (w : world) (count : Z) : Z * list Z * world :=
  let n := Z.to_nat count in
  match reads w with
  | RdFault e :: r =>
      (-1, [], World (rxq w) r (writes w) (ctls w) (txlog w) e)
  | RdArrive bs :: r =>
      let q := rxq w ++ bs in
      (Z.of_nat (length (firstn n q)), firstn n q,
       World (skipn n q) r (writes w) (ctls w) (txlog w) (errno w))
  | [] =>
      let q := rxq w in
      (Z.of_nat (length (firstn n q)), firstn n q,
       World (skipn n q) [] (writes w) (ctls w) (txlog w) (errno w))
  end.

(** [write(fd, data, len)]: return value, new world. *)
Definition write (w : world) (data : list Z) (len : Z) : Z * world :=
  let n := Z.to_nat len in
  match writes w with
  | WrFault e :: r =>
      (-1, World (rxq w) (reads w) r (ctls w) (txlog w) e)
  | WrAccept k :: r =>
      let sent := firstn (Z.to_nat k) (firstn n data) in
      (Z.of_nat (length sent),
       World (rxq w) (reads w) r (ctls w) (txlog w ++ sent) (errno w))
  | [] =>
      let sent := firstn n data in
      (Z.of_nat (length sent),
       World (rxq w) (reads w) [] (ctls w) (txlog w ++ sent) (errno w))
  end.

(** Any other call ([open], [close], [tcgetattr], [tcdrain], ...): its
    return value, -1 with errno set on failure. *)
Definition call (w : world) : Z * world :=
  match ctls w with
  | CtlFail e :: r => (-1, World (rxq w) (reads w) (writes w) r (txlog w) e)
  | CtlOk v :: r => (v, World (rxq w) (reads w) (writes w) r (txlog w) (errno w))
  | [] => (0, w)
  end.

(** [tcflush(fd, TCIOFLUSH)] also discards the queued input. *)
Definition tcflush (w : world) : Z * world :=
  let '(r, w1) := call w in
  if r =? 0
  then (r, World [] (reads w1) (writes w1) (ctls w1) (txlog w1) (errno w1))
  else (r, w1).

End Sys.

(** State plumbing. *)
Definition with_os (s : state) (w : world) : state := State (mdev s) w.
Definition with_dev (s : state) (d : mspdev_t) : state := State d (os s).

Definition set_errornum (d : mspdev_t) (e : Z) : mspdev_t :=
  Mspdev (fd d) (devname d) (read_retries d) (buf d) (mspversion d) (device_open d) e.
Definition set_fd (d : mspdev_t) (f : Z) : mspdev_t :=
  Mspdev f (devname d) (read_retries d) (buf d) (mspversion d) (device_open d) (errornum d).
Definition set_buf (d : mspdev_t) (b : list Z) : mspdev_t :=
  Mspdev (fd d) (devname d) (read_retries d) b (mspversion d) (device_open d) (errornum d).
Definition set_devname (d : mspdev_t) (n : option string) : mspdev_t :=
  Mspdev (fd d) n (read_retries d) (buf d) (mspversion d) (device_open d) (errornum d).
Definition set_read_retries (d : mspdev_t) (r : Z) : mspdev_t :=
  Mspdev (fd d) (devname d) r (buf d) (mspversion d) (device_open d) (errornum d).
Definition set_mspversion (d : mspdev_t) (v : Z) : mspdev_t :=
  Mspdev (fd d) (devname d) (read_retries d) (buf d) v (device_open d) (errornum d).
Definition set_device_open (d : mspdev_t) (o : Z) : mspdev_t :=
  Mspdev (fd d) (devname d) (read_retries d) (buf d) (mspversion d) o (errornum d).

(** [mdev->errornum = errno;] *)
Definition save_errno (s : state) : state :=
  with_dev s (set_errornum (mdev s) (errno (os s))).

(** Bytes written through a pointer to the start of [mdev->buf]. *)
Definition store_buf (data : list Z) (s : state) : state :=
  with_dev s (set_buf (mdev s) (data ++ skipn (length data) (buf (mdev s)))).

(** ** serial.c *)

Module Serial.

Definition set_interface_attribs (s : state) : Z * state :=
  let '(r, w) := Sys.call (os s) in                 (* tcgetattr *)
  if negb (r =? 0) then (MSP_SYSCALL_FAIL, save_errno (with_os s w)) else
  let '(r, w) := Sys.call w in                      (* cfsetospeed *)
  if negb (r =? 0) then (MSP_SYSCALL_FAIL, save_errno (with_os s w)) else
  let '(r, w) := Sys.call w in                      (* cfsetispeed *)
  if negb (r =? 0) then (MSP_SYSCALL_FAIL, save_errno (with_os s w)) else
  let '(r, w) := Sys.call w in                      (* tcsetattr *)
  if negb (r =? 0) then (MSP_SYSCALL_FAIL, save_errno (with_os s w)) else
  (MSP_OK, with_os s w).

Definition msplink_open (s : state) : Z * state :=
  let '(f, w) := Sys.call (os s) in                 (* open *)
  let s1 := State (set_fd (mdev s) f) w in
  if f <? 0 then (MSP_SYSCALL_FAIL, save_errno s1) else
  let '(r, s2) := set_interface_attribs s1 in
  if negb (r =? 0) then (MSP_SYSCALL_FAIL, save_errno s2) else
  (MSP_OK, s2).

Definition msplink_close (s : state) : Z * state :=
  let '(f, w) := Sys.call (os s) in                 (* close *)
  let s1 := State (set_fd (mdev s) f) w in
  if f <? 0 then (MSP_SYSCALL_FAIL, save_errno s1) else (MSP_OK, s1).

Definition msplink_write (s : state) (data : list Z) (len : Z) : Z * state :=
  let '(ret, w) := Sys.write (os s) data len in
  let s1 := with_os s w in
  if ret <? 0 then (MSP_SYSCALL_FAIL, save_errno s1) else
  if negb (ret =? len) then (MSP_TX_FAIL, s1) else
  (MSP_OK, s1).

(** The retry loop of [msplink_read]: [i] iterations left, [acc] the bytes
    stored so far ([buf] has advanced past them). *)
Fixpoint read_loop (i : nat) (len remaining_cnt : Z) (acc : list Z) (s : state)
  : Z * list Z * state :=
  match i with
  | O => (MSP_RX_FAIL, acc, s)
  | S i' =>
      let '(ret, got, w) := Sys.read (os s) remaining_cnt in
      let s1 := with_os s w in
      if ret <? 0 then (MSP_SYSCALL_FAIL, acc, save_errno s1) else
      if remaining_cnt =? 0 then (len, acc ++ got, s1) else
      read_loop i' len (remaining_cnt - ret) (acc ++ got) s1
  end.

(** Returns the code, the bytes stored at [buf] and the new state. *)
Definition msplink_read (s : state) (len : Z) : Z * list Z * state :=
  read_loop (Z.to_nat (read_retries (mdev s))) len len [] s.

Definition msplink_waituntilsent (s : state) : Z * state :=
  let '(r, w) := Sys.call (os s) in                 (* tcdrain *)
  if negb (r =? 0) then (MSP_SYSCALL_FAIL, save_errno (with_os s w))
  else (MSP_OK, with_os s w).

Definition msplink_clearRxBuffer (s : state) : Z * state :=
  let '(r, w) := Sys.tcflush (os s) in
  if negb (r =? 0) then (MSP_SYSCALL_FAIL, save_errno (with_os s w))
  else (MSP_OK, with_os s w).

End Serial.
Import Serial.

(** ** send.c *)

Module Send.

(** The part of [send_V1] after the optional JUMBO length: payload, then the
    checksum byte. *)
Definition send_V1_tail (s : state) (payload : list Z) (payload_len : Z)
    (checksum : Z) : Z * state :=
  let '(ret, s1) := msplink_write s payload payload_len in
  if ret <? 0 then (ret, s1) else
  let checksum := checksum_xor payload (Z.to_nat payload_len) checksum in
  let '(ret, s2) := msplink_write s1 [checksum] 1 in
  if ret <? 0 then (ret, s2) else
  (MSP_OK, s2).

Definition send_V1 (s : state) (cmd : Z) (payload : list Z) (payload_len : Z)
  : Z * state :=
  let buf :=
    [SYNC; chr "M"; chr "<";
     if payload_len >? 254 then 255 else payload_len;
     cmd] in
  let checksum := u8 (Z.lxor payload_len cmd) in
  let '(ret, s1) := msplink_write s buf 5 in
  if ret <? 0 then (ret, s1) else
  if payload_len >? 254 then
    let bytes := [le16_lo payload_len; le16_hi payload_len] in
    let '(ret, s2) := msplink_write s1 bytes 2 in
    if ret <? 0 then (ret, s2) else
    let checksum := Z.lxor checksum (nth 0 bytes 0) in
    let checksum := Z.lxor checksum (nth 1 bytes 0) in
    send_V1_tail s2 payload payload_len checksum
  else
    send_V1_tail s1 payload payload_len checksum.

Definition send_V2 (s : state) (flag cmd : Z) (payload : list Z) (payload_len : Z)
  : Z * state :=
  let buf :=
    [SYNC; chr "X"; chr "<"; flag;
     le16_lo cmd; le16_hi cmd;
     le16_lo payload_len; le16_hi payload_len] in
  let '(ret, s1) := msplink_write s buf 8 in
  if ret <? 0 then (ret, s1) else
  let '(ret, s2) := msplink_write s1 payload payload_len in
  if ret <? 0 then (ret, s2) else
  let checksum := checksum_crc8_dvb_s2 (skipn 3 buf) 5 0 in
  let checksum := checksum_crc8_dvb_s2 payload (Z.to_nat payload_len) checksum in
  let '(ret, s3) := msplink_write s2 [checksum] 1 in
  if ret <? 0 then (ret, s3) else
  (MSP_OK, s3).

End Send.
Import Send.

(** ** parse.c

    The local [checksum] of the parsers is called [calc] here, the name being
    taken by the packet field. *)

Module Parse.

Definition MAX_SYNC_SEARCH_BYTES : nat := 50.

Definition set_version (p : mspPacket_t) (v : Z) : mspPacket_t :=
  MspPacket v (direction p) (flag p) (function p) (payload_size p) (payload p) (checksum p).
Definition set_direction (p : mspPacket_t) (v : Z) : mspPacket_t :=
  MspPacket (version p) v (flag p) (function p) (payload_size p) (payload p) (checksum p).
Definition set_flag (p : mspPacket_t) (v : Z) : mspPacket_t :=
  MspPacket (version p) (direction p) v (function p) (payload_size p) (payload p) (checksum p).
Definition set_function (p : mspPacket_t) (v : Z) : mspPacket_t :=
  MspPacket (version p) (direction p) (flag p) v (payload_size p) (payload p) (checksum p).
Definition set_payload_size (p : mspPacket_t) (v : Z) : mspPacket_t :=
  MspPacket (version p) (direction p) (flag p) (function p) v (payload p) (checksum p).
Definition set_payload (p : mspPacket_t) (v : payload_ptr) : mspPacket_t :=
  MspPacket (version p) (direction p) (flag p) (function p) (payload_size p) v (checksum p).
Definition set_checksum (p : mspPacket_t) (v : Z) : mspPacket_t :=
  MspPacket (version p) (direction p) (flag p) (function p) (payload_size p) (payload p) v.

(** The [for] loop of [get_sync], [i] iterations left. *)
Fixpoint get_sync_loop (i : nat) (s : state) : Z * state :=
  match i with
  | O => (MSP_RX_SYNC_NOT_FOUND, s)
  | S i' =>
      let '(ret, b, s1) := msplink_read s 1 in
      if ret =? MSP_RX_FAIL then (MSP_RX_SYNC_NOT_FOUND, s1) else
      if ret <? 0 then (ret, s1) else
      if nth 0 b 0 =? SYNC then (MSP_OK, s1) else
      get_sync_loop i' s1
  end.

Definition get_sync (s : state) : Z * state :=
  get_sync_loop MAX_SYNC_SEARCH_BYTES s.

Definition parse_V2 (s : state) (pkt : mspPacket_t) : Z * state * mspPacket_t :=
  let '(ret, bytes, s1) := msplink_read s 5 in
  if ret <? 0 then (ret, s1, pkt) else
  let calc := checksum_crc8_dvb_s2 bytes 5 0 in
  let pkt := set_flag pkt (nth 0 bytes 0) in
  let pkt := set_function pkt (le16toh (nth 1 bytes 0) (nth 2 bytes 0)) in
  let pkt := set_payload_size pkt (le16toh (nth 3 bytes 0) (nth 4 bytes 0)) in
  if payload_size pkt >? READ_BUFFER_SIZE - 1 then (MSP_OUT_OF_MEMORY, s1, pkt) else
  let '(ret, got, s2) := msplink_read s1 (payload_size pkt + 1) in
  let s2 := store_buf got s2 in
  if ret <? 0 then (ret, s2, pkt) else
  let pkt := set_payload pkt PtrDevBuf in
  let pkt := set_checksum pkt (nth (Z.to_nat (payload_size pkt)) (buf (mdev s2)) 0) in
  let calc :=
    checksum_crc8_dvb_s2 (buf (mdev s2)) (Z.to_nat (payload_size pkt)) calc in
  if negb (checksum pkt =? calc)
  then (MSP_RX_CHECKSUM_MISMATCH, s2, pkt)
  else (MSP_OK, s2, pkt).

(** The part of [parse_V1] after the optional JUMBO length. *)
Definition parse_V1_tail (s : state) (pkt : mspPacket_t) (calc : Z)
  : Z * state * mspPacket_t :=
  if function pkt =? 255 then
    let '(ret, s1, pkt) := parse_V2 s pkt in
    if ret <? 0 then (ret, s1, pkt) else (MSP_OK, s1, pkt)
  else
  if payload_size pkt >? READ_BUFFER_SIZE - 1 then (MSP_OUT_OF_MEMORY, s, pkt) else
  let '(ret, got, s1) := msplink_read s (payload_size pkt + 1) in
  let s1 := store_buf got s1 in
  if ret <? 0 then (ret, s1, pkt) else
  let pkt := set_payload pkt PtrDevBuf in
  let pkt := set_checksum pkt (nth (Z.to_nat (payload_size pkt)) (buf (mdev s1)) 0) in
  let calc :=
    checksum_xor (buf (mdev s1)) (Z.to_nat (payload_size pkt)) calc in
  if negb (checksum pkt =? calc)
  then (MSP_RX_CHECKSUM_MISMATCH, s1, pkt)
  else (MSP_OK, s1, pkt).

Definition parse_V1 (s : state) (pkt : mspPacket_t) : Z * state * mspPacket_t :=
  let pkt := set_flag pkt 0 in
  let '(ret, b, s1) := msplink_read s 2 in
  if ret <? 0 then (ret, s1, pkt) else
  let calc := checksum_xor b 2 0 in
  let pkt := set_payload_size pkt (nth 0 b 0) in
  let pkt := set_function pkt (nth 1 b 0) in
  if payload_size pkt =? 255 then
    let '(ret, len_le, s2) := msplink_read s1 2 in
    if ret <? 0 then (ret, s2, pkt) else
    let calc := checksum_xor len_le 2 calc in
    let pkt := set_payload_size pkt (le16toh (nth 0 len_le 0) (nth 1 len_le 0)) in
    parse_V1_tail s2 pkt calc
  else
    parse_V1_tail s1 pkt calc.

Definition parse_packet (s : state) (response : mspPacket_t)
  : Z * state * mspPacket_t :=
  let '(ret, s1) := msplink_waituntilsent s in
  if ret <? 0 then (ret, s1, response) else
  let '(ret, s2) := get_sync s1 in
  if ret <? 0 then (ret, s2, response) else
  let '(ret, headbytes, s3) := msplink_read s2 2 in
  if ret <? 0 then (ret, s3, response) else
  let response := set_version response (nth 0 headbytes 0) in
  let response := set_direction response (nth 1 headbytes 0) in
  let '(ret, s4, response) :=
    if version response =? MSP_V1 then parse_V1 s3 response
    else if version response =? MSP_V2 then parse_V2 s3 response
    else (MSP_LIB_INTERNAL_ERROR, s3, response) in
  if ret <? 0 then (ret, s4, response) else
  if direction response =? MSP_DIR_ERROR then (MSP_RX_CLIENT_NACK, s4, response) else
  (MSP_OK, s4, response).

End Parse.
Import Parse.

(** ** msplink.c: the Python-facing transaction layer

    The instance mutex and the interpreter lock are taken and released on
    every path of the four entry points; this sequential model runs one
    entry point at a time and leaves them out.  Allocation of Python objects
    is taken to succeed. *)

Module Msplink.

(** The [MspPacketType] struct sequence handed to Python. *)
Record MspPacketType : Type := PyPacket {
  py_version : Z;
  py_direction : Z;
  py_flag : option Z;
  py_command : Z;
  py_payload : list Z;
  py_checksum : Z
}.

Inductive exc_type : Type :=
| PyExc_OSError | PyExc_MemoryError | PyExc_ValueError | PyExc_BufferError
| PyExc_ArgumentError            (* raised by PyArg_ParseTupleAndKeywords *)
| MspExc_Exception | MspExc_NoResponse | MspExc_NACK | MspExc_BadChecksum.

(** The value of the Python error indicator.  [ErrDecode b] is the
    UnicodeDecodeError of [PyUnicode_FromStringAndSize] for the byte [b],
    which is no UTF-8 character on its own. *)
Inductive py_error : Type :=
| ErrString (ty : exc_type) (msg : string) (args : list Z)
| ErrErrno (ty : exc_type) (e : Z)
| ErrObject (ty : exc_type) (obj : MspPacketType)
| ErrDecode (byte : Z).

(** What an entry point returns to the interpreter.  [Py_Undefined] stands
    for a path on which the C code has no defined behaviour. *)
Inductive py_result : Type :=
| Py_None
| Py_Packet (p : MspPacketType)
| Py_NULL (err : option py_error)
| Py_Undefined.

(** Bytes the packet's payload pointer designates. *)
Definition payload_bytes (d : mspdev_t) (rx : mspPacket_t) : list Z :=
  match payload rx with
  | PtrDevBuf => firstn (Z.to_nat (payload_size rx)) (buf d)
  | PtrUnset => []
  end.

(** [PyUnicode_FromStringAndSize(temp, 1)] decodes one byte as UTF-8: it
    succeeds for the bytes below 0x80 and raises UnicodeDecodeError for the
    others. *)
Definition utf8_char (b : Z) : bool := b <? 128.

(** The packet, or the exception with which [packResponse] returns NULL:
    the version character is built first, then the direction character. *)
Definition packResponse (d : mspdev_t) (rx : mspPacket_t)
  : MspPacketType + py_error :=
  if negb (utf8_char (version rx)) then inr (ErrDecode (version rx)) else
  if negb (utf8_char (direction rx)) then inr (ErrDecode (direction rx)) else
  inl (PyPacket (version rx) (direction rx)
         (if version rx =? chr "X" then Some (flag rx) else None)
         (function rx)
         (payload_bytes d rx)
         (checksum rx)).

Definition throwError (d : mspdev_t) (returncode : Z) : option py_error :=
  if returncode =? MSP_OK then None
  else if returncode =? MSP_SYSCALL_FAIL then
    Some (ErrErrno PyExc_OSError (errornum d))
  else if returncode =? MSP_TX_FAIL then
    Some (ErrString MspExc_Exception
            "Failed to write all bytes into transmit buffer" [])
  else if returncode =? MSP_RX_FAIL then
    Some (ErrString MspExc_NoResponse
            "Failed to read expected number of bytes from input" [])
  else if returncode =? MSP_RX_SYNC_NOT_FOUND then
    Some (ErrString MspExc_NoResponse "Could not find sync byte" [])
  else if returncode =? MSP_LIB_INTERNAL_ERROR then
    Some (ErrString MspExc_Exception
            "You found an msplink bug. Please consider reporting it with example code on github!" [])
  else if returncode =? MSP_OUT_OF_MEMORY then
    Some (ErrString PyExc_MemoryError
            "Payload data does not fit in allocated buffer" [])
  else
    Some (ErrString MspExc_Exception
            "An unknown error occurred (%i). Please consider reporting it with example code on github!"
            [returncode]).

Definition throwPacketError (d : mspdev_t) (returncode : Z) (rxPkt : mspPacket_t)
  : option py_error :=
  if returncode =? MSP_OK then None
  else if returncode =? MSP_RX_CHECKSUM_MISMATCH then
    match packResponse d rxPkt with
    | inr e => Some e                  (* errorResponse == NULL *)
    | inl errorResponse => Some (ErrObject MspExc_BadChecksum errorResponse)
    end
  else if returncode =? MSP_RX_CLIENT_NACK then
    match packResponse d rxPkt with
    | inr e => Some e
    | inl errorResponse => Some (ErrObject MspExc_NACK errorResponse)
    end
  else throwError d returncode.

(** [return packResponse(&mspResponse);] *)
Definition return_packet (d : mspdev_t) (rx : mspPacket_t) : py_result :=
  match packResponse d rx with
  | inl p => Py_Packet p
  | inr e => Py_NULL (Some e)
  end.

(** An argument as [PyArg_ParseTupleAndKeywords] meets it: not passed,
    passed and converted, or passed and rejected by the conversion. *)
Inductive arg (A : Type) : Type := Absent | Given (a : A) | Rejected.
Arguments Absent {A}.
Arguments Given {A} a.
Arguments Rejected {A}.

Record open_args : Type := OpenArgs {
  serial_device : arg string;
  arg_read_retries : arg Z;
  arg_msp_version : arg Z
}.

(** Format [O&|$ii]: the path is required; each converted value is stored
    through its pointer as it is parsed, so a later failure leaves the earlier
    stores in place. *)
Definition parse_open_args (d : mspdev_t) (a : open_args)
  : option string * mspdev_t :=
  match serial_device a with
  | Given path =>
      match arg_read_retries a with
      | Rejected => (None, d)
      | r =>
          let d1 := match r with Given v => set_read_retries d v | _ => d end in
          match arg_msp_version a with
          | Rejected => (None, d1)
          | Given v => (Some path, set_mspversion d1 v)
          | Absent => (Some path, d1)
          end
      end
  | _ => (None, d)
  end.

Definition pyMsplinkOpen (s : state) (a : open_args) (malloc_ok : bool)
  : py_result * state :=
  if negb (device_open (mdev s) =? 0) then
    (Py_NULL (Some (ErrString MspExc_Exception
                      "An msplink connection is already open" [])), s)
  else
  match parse_open_args (mdev s) a with
  | (None, d1) =>
      (Py_NULL (Some (ErrString PyExc_ArgumentError "open" [])), with_dev s d1)
  | (Some path, d1) =>
      if negb malloc_ok then
        (Py_NULL (Some (ErrString PyExc_MemoryError
                          "Unable to allocate space for device name string" [])),
         with_dev s (set_devname d1 None))
      else
      let d2 := set_devname d1 (Some path) in
      if negb (mspversion d2 =? 1) && negb (mspversion d2 =? 2) then
        (Py_NULL (Some (ErrString PyExc_ValueError
                          "msp_version must be 1 or 2 (got %i)" [mspversion d2])),
         with_dev s d2)
      else
      if read_retries d2 <=? 0 then
        (Py_NULL (Some (ErrString PyExc_ValueError
                          "read_retries must be a positive number (got %i, default is %i)"
                          [read_retries d2; MSP_RETRY_DEFAULT])),
         with_dev s d2)
      else
      let '(ret, s3) := msplink_open (with_dev s d2) in
      if ret <? 0 then (Py_NULL (throwError (mdev s3) ret), s3) else
      (Py_None, with_dev s3 (set_device_open (mdev s3) 1))
  end.

(** Returns also whether the [ResourceWarning] was issued. *)
Definition pyMsplinkClose (s : state) : py_result * bool * state :=
  let warned := device_open (mdev s) =? 0 in
  let d1 := set_device_open (set_devname (mdev s) None) 0 in
  let '(ret, s2) := msplink_close (with_dev s d1) in
  if ret <? 0 then (Py_NULL (throwError (mdev s2) ret), warned, s2) else
  (Py_None, warned, s2).

Record set_args : Type := SetArgs {
  set_cmd : Z;             (* as stored in the [uint16_t cmd] *)
  set_payload_view : list Z;
  set_contiguous : bool;
  set_flag_arg : Z;
  wait_for_ack : bool
}.

(** A call of [set] as [PyArg_ParseTupleAndKeywords] leaves it: the
    arguments converted, or the conversion failed.  On failure the code
    jumps to [release_buffer_and_mutex_handler] and calls [PyBuffer_Release]
    on [payload]: when the failure came after the payload was converted
    (on flag or wait_for_ack) the parser has released the buffer and the
    second release does nothing; when it came before (arguments missing, or
    a command or payload that does not convert) [payload] is an
    uninitialised local. *)
Inductive set_call : Type :=
| SetCall (a : set_args)
| SetBadArgs (payload_filled : bool).

Definition pyMsplinkSet (s : state) (mspResponse : mspPacket_t)
    (c : set_call) : py_result * state * mspPacket_t :=
  if device_open (mdev s) =? 0 then
    (Py_NULL (Some (ErrString MspExc_Exception
                      "You must call msplink.open successfully first" [])),
     s, mspResponse)
  else
  match c with
  | SetBadArgs true =>
      (Py_NULL (Some (ErrString PyExc_ArgumentError "set" [])), s, mspResponse)
  | SetBadArgs false => (Py_Undefined, s, mspResponse)
  | SetCall a =>
      if negb (set_contiguous a) then
        (Py_NULL (Some (ErrString PyExc_BufferError
                          "Input data must be a bytes-like object with contiguous layout" [])),
         s, mspResponse)
      else
      let '(retval, s1) := msplink_clearRxBuffer s in
      if retval <? 0 then (Py_NULL (throwError (mdev s1) retval), s1, mspResponse) else
      let cmd := set_cmd a in
      let len := u16 (Z.of_nat (length (set_payload_view a))) in
      let sent :=
        if mspversion (mdev s1) =? 1 then
          if cmd >? 255 then
            inl (Py_NULL (Some (ErrString PyExc_ValueError
                                  "Command can't be greater than 255 when using MSP v1" [])),
                 s1)
          else
            let '(retval, s2) := send_V1 s1 (u8 cmd) (set_payload_view a) len in
            if retval <? 0 then inl (Py_NULL (throwError (mdev s2) retval), s2)
            else inr s2
        else if mspversion (mdev s1) =? 2 then
          let '(retval, s2) := send_V2 s1 (set_flag_arg a) cmd (set_payload_view a) len in
          if retval <? 0 then inl (Py_NULL (throwError (mdev s2) retval), s2)
          else inr s2
        else
          inl (Py_NULL (Some (ErrString MspExc_Exception
                                "You found an msplink bug in pyMsplinkSet(). Please consider reporting it with example code on github!" [])),
               s1) in
      match sent with
      | inl (r, s2) => (r, s2, mspResponse)
      | inr s2 =>
          if wait_for_ack a then
            let '(retval, s3, resp) := parse_packet s2 mspResponse in
            if retval <? 0
            then (Py_NULL (throwPacketError (mdev s3) retval resp), s3, resp)
            else (return_packet (mdev s3) resp, s3, resp)
          else (Py_None, s2, mspResponse)
      end
  end.

Record get_args : Type := GetArgs {
  get_cmd : Z;             (* as stored in the [uint16_t cmd] *)
  get_flag_arg : Z
}.

Definition pyMsplinkGet (s : state) (mspResponse : mspPacket_t)
    (a : option get_args) : py_result * state * mspPacket_t :=
  if device_open (mdev s) =? 0 then
    (Py_NULL (Some (ErrString MspExc_Exception
                      "You must call msplink.open successfully first" [])),
     s, mspResponse)
  else
  match a with
  | None => (Py_NULL (Some (ErrString PyExc_ArgumentError "get" [])), s, mspResponse)
  | Some a =>
      let '(retval, s1) := msplink_clearRxBuffer s in
      if retval <? 0 then (Py_NULL (throwError (mdev s1) retval), s1, mspResponse) else
      let cmd := get_cmd a in
      let sent :=
        if mspversion (mdev s1) =? 1 then
          if cmd >? 255 then
            inl (Py_NULL (Some (ErrString PyExc_ValueError
                                  "Command can't be greater than 255 when using MSP v1" [])),
                 s1)
          else
            let '(retval, s2) := send_V1 s1 (u8 cmd) [] 0 in
            if retval <? 0 then inl (Py_NULL (throwError (mdev s2) retval), s2)
            else inr s2
        else if mspversion (mdev s1) =? 2 then
          let '(retval, s2) := send_V2 s1 (get_flag_arg a) cmd [] 0 in
          if retval <? 0 then inl (Py_NULL (throwError (mdev s2) retval), s2)
          else inr s2
        else
          inl (Py_NULL (Some (ErrString MspExc_Exception
                                "You found an msplink bug in pyMsplinkGet(). Please consider reporting it with example code on github!" [])),
               s1) in
      match sent with
      | inl (r, s2) => (r, s2, mspResponse)
      | inr s2 =>
          let '(retval, s3, resp) := parse_packet s2 mspResponse in
          if retval <? 0
          then (Py_NULL (throwPacketError (mdev s3) retval resp), s3, resp)
          else (return_packet (mdev s3) resp, s3, resp)
      end
  end.

(** The device as [PyInit_msplink] leaves it; [buf] has static storage. *)
Definition PyInit_msplink : mspdev_t :=
  Mspdev 0 None MSP_RETRY_DEFAULT
         (repeat 0 (Z.to_nat READ_BUFFER_SIZE)) 1 0 0.

End Msplink.
Import Msplink.

(** * Vocabulary of the statements *)

(** ** Lines and what travels on them

    [feed s q]: the state [s] with exactly the bytes [q] waiting in the input
    queue, nothing more arriving, and no system call failing. *)

Definition feed (s : state) (q : list Z) : state :=
  State (mdev s)
        (World q [] [] [] (txlog (os s)) (errno (os s))).

(** [logged s bytes]: the state after [bytes] went out on the line. *)

Definition logged (s : state) (bytes : list Z) : state :=
  State (mdev s)
        (World (rxq (os s)) (reads (os s)) (writes (os s)) (ctls (os s))
               (txlog (os s) ++ bytes) (errno (os s))).

(** The bytes a call put on the line. *)
Definition emitted (before : state) (r : Z * state) : list Z :=
  skipn (length (txlog (os before))) (txlog (os (snd r))).

(** The input bytes a parse left in the queue. *)
Definition left_in_queue (r : Z * state * mspPacket_t) : list Z :=
  rxq (os (snd (fst r))).

(** [s] with the input queue replaced by [q], nothing else changed. *)
Definition with_rxq (s : state) (q : list Z) : state :=
  State (mdev s)
        (World q (reads (os s)) (writes (os s)) (ctls (os s))
               (txlog (os s)) (errno (os s))).

Definition quiet_world : world := World [] [] [] [] [] 0.

(** The module after [PyInit_msplink], on a quiet line. *)
Definition initial_state : state := State PyInit_msplink quiet_world.

(** [mspResponse] has static storage: all fields zero, the pointer null. *)
Definition blank_packet : mspPacket_t := MspPacket 0 0 0 0 0 PtrUnset 0.

(** ** Encode, then decode *)

(** The version switch of [pyMsplinkSet] and [pyMsplinkGet], on the codes. *)
Definition send_version (v : Z) (s : state) (f c : Z) (p : list Z) : Z * state :=
  if v =? 1 then send_V1 s c p (Z.of_nat (length p))
  else if v =? 2 then send_V2 s f c p (Z.of_nat (length p))
  else (MSP_LIB_INTERNAL_ERROR, s).

Definition version_char (v : Z) : Z := if v =? 1 then MSP_V1 else MSP_V2.

(** The checksum the parsers compute over a frame of the encoders that
    carries the fields of [r] and the payload [p]. *)
Definition parser_checksum (r : mspPacket_t) (p : list Z) : Z :=
  if version r =? MSP_V2 then
    checksum_crc8_dvb_s2 p (length p)
      (checksum_crc8_dvb_s2
         [flag r; le16_lo (function r); le16_hi (function r);
          le16_lo (payload_size r); le16_hi (payload_size r)] 5 0)
  else if payload_size r >? 254 then
    checksum_xor p (length p)
      (checksum_xor [le16_lo (payload_size r); le16_hi (payload_size r)] 2
         (checksum_xor [255; function r] 2 0))
  else
    checksum_xor p (length p) (checksum_xor [payload_size r; function r] 2 0).

(** Encode on [tx], feed the emitted bytes to the parser on [rx]. *)
Definition round_trip (tx rx : state) (v f c : Z) (p : list Z) : Prop :=
  let sent := send_version v (feed tx []) f c p in
  fst sent = MSP_OK /\
  forall pkt,
    let '(ret, s', r) := parse_packet (feed rx (emitted (feed tx []) sent)) pkt in
    ret = MSP_OK
    /\ version r = version_char v
    /\ direction r = MSP_DIR_TOCLIENT
    /\ flag r = (if v =? 2 then f else 0)
    /\ function r = c
    /\ payload_size r = Z.of_nat (length p)
    /\ payload_bytes (mdev s') r = p
    /\ checksum r = parser_checksum r p.

(** ** Stages of [parse_packet] *)

(** What [parse_packet] does once the sync search is over. *)
Definition after_sync (s : state) (response : mspPacket_t)
  : Z * state * mspPacket_t :=
  let '(ret, headbytes, s3) := msplink_read s 2 in
  if ret <? 0 then (ret, s3, response) else
  let response := set_version response (nth 0 headbytes 0) in
  let response := set_direction response (nth 1 headbytes 0) in
  let '(ret, s4, response) :=
    if version response =? MSP_V1 then parse_V1 s3 response
    else if version response =? MSP_V2 then parse_V2 s3 response
    else (MSP_LIB_INTERNAL_ERROR, s3, response) in
  if ret <? 0 then (ret, s4, response) else
  if direction response =? MSP_DIR_ERROR then (MSP_RX_CLIENT_NACK, s4, response) else
  (MSP_OK, s4, response).

(** The result of the version parser, as [parse_packet] returns it. *)
Definition verdict (r : Z * state * mspPacket_t) : Z * state * mspPacket_t :=
  let '(ret, s, pkt) := r in
  if ret <? 0 then (ret, s, pkt) else
  if direction pkt =? MSP_DIR_ERROR then (MSP_RX_CLIENT_NACK, s, pkt) else
  (MSP_OK, s, pkt).

(** ** The device handle *)

(** The fields of the handle the invariant speaks of. *)
Definition cfg (d : mspdev_t) : Z * Z * Z :=
  (device_open d, mspversion d, read_retries d).

Definition handle_invariant (d : mspdev_t) : Prop :=
  device_open d = 1 ->
  (mspversion d = 1 \/ mspversion d = 2) /\ 1 <= read_retries d.

(** The exceptions of the [default:] branches of the version switches. *)
Definition bug_in_get : py_result :=
  Py_NULL (Some (ErrString MspExc_Exception
    "You found an msplink bug in pyMsplinkGet(). Please consider reporting it with example code on github!" [])).
Definition bug_in_set : py_result :=
  Py_NULL (Some (ErrString MspExc_Exception
    "You found an msplink bug in pyMsplinkSet(). Please consider reporting it with example code on github!" [])).

Definition already_open : py_result :=
  Py_NULL (Some (ErrString MspExc_Exception
                   "An msplink connection is already open" [])).

Definition rejected (r : py_result) : Prop :=
  match r with Py_NULL _ => True | _ => False end.

(** ** The reference CRC *)

(** A reference definition, not a function of the sources: the CRC-8 that
    gives [CRC8_DVB_S2_LUT] its name, of generator polynomial 0xD5
    (x^8 + x^7 + x^6 + x^4 + x^2 + 1), most significant bit first, initial
    value and final XOR zero, computed bit by bit.  The table and the
    function that walks it are compared with it. *)
Definition crc8_shift (c : Z) : Z :=
  if Z.testbit c 7 then Z.lxor (u8 (Z.shiftl c 1)) 0xD5 else u8 (Z.shiftl c 1).

Definition crc8_byte (c : Z) : Z :=
  crc8_shift (crc8_shift (crc8_shift (crc8_shift
    (crc8_shift (crc8_shift (crc8_shift (crc8_shift c))))))).

Fixpoint crc8_dvb_s2_bitwise (data : list Z) (crc : Z) : Z :=
  match data with
  | [] => crc
  | b :: rest => crc8_dvb_s2_bitwise rest (crc8_byte (Z.lxor crc b))
  end.

(** The bytes [0 .. 255]. *)
Definition all_bytes : list Z := map Z.of_nat (seq 0 256).

(** ** Frames and transactions *)

(** Writing chunks one after the other, each whole, until a write fails:
    the shape of both encoders. *)
Fixpoint write_all (s : state) (chunks : list (list Z)) : Z * state :=
  match chunks with
  | [] => (MSP_OK, s)
  | c :: cs =>
      let '(ret, s1) := msplink_write s c (Z.of_nat (length c)) in
      if ret <? 0 then (ret, s1) else write_all s1 cs
  end.

(** The frames of the encoders: the bytes [send_V1] and [send_V2] hand to
    [msplink_write], in order, for a payload of [length p] bytes; the JUMBO
    checksum is seeded as [send_V1] seeds it, with the low byte of the
    length. *)
Definition frame_V1 (cmd : Z) (p : list Z) : list Z :=
  let n := Z.of_nat (length p) in
  if n >? 254 then
    [SYNC; chr "M"; chr "<"; 255; cmd; le16_lo n; le16_hi n] ++ p
    ++ [checksum_xor p (length p)
          (Z.lxor (Z.lxor (u8 (Z.lxor n cmd)) (le16_lo n)) (le16_hi n))]
  else
    [SYNC; chr "M"; chr "<"; n; cmd] ++ p
    ++ [checksum_xor p (length p) (u8 (Z.lxor n cmd))].

Definition frame_V2 (f cmd : Z) (p : list Z) : list Z :=
  let n := Z.of_nat (length p) in
  [SYNC; chr "X"; chr "<"; f; le16_lo cmd; le16_hi cmd; le16_lo n; le16_hi n] ++ p
  ++ [checksum_crc8_dvb_s2 p (length p)
        (checksum_crc8_dvb_s2 [f; le16_lo cmd; le16_hi cmd; le16_lo n; le16_hi n] 5 0)].

(** The request [get] and [set] emit on a device of version [mspversion d]:
    the version switch of [pyMsplinkGet] and [pyMsplinkSet], where the
    command passes from the [uint16_t] to the [uint8_t] of [send_V1]. *)
Definition request_frame (d : mspdev_t) (f cmd : Z) (p : list Z) : list Z :=
  if mspversion d =? 1 then frame_V1 (u8 cmd) p else frame_V2 f cmd p.

(** The payload as [pyMsplinkSet] hands it to the encoders: the length of the
    buffer goes through a [uint16_t]. *)
Definition sent_payload (p : list Z) : list Z :=
  firstn (Z.to_nat (u16 (Z.of_nat (length p)))) p.

(** [s] on a line whose responder answers with [reply], the bytes reaching
    the input queue by the first [read]; every write is accepted and no
    call fails. *)
Definition answering (s : state) (reply : list Z) : state :=
  State (mdev s)
        (World (rxq (os s)) [RdArrive reply] [] [] (txlog (os s)) (errno (os s))).

(** Well-formed replies: a plain V1 frame and a V2 frame with direction
    byte [d], checksums as the parsers compute them. *)
Definition reply_V1 (d c : Z) (p : list Z) : list Z :=
  [SYNC; MSP_V1; d; Z.of_nat (length p); c] ++ p
  ++ [checksum_xor p (length p) (checksum_xor [Z.of_nat (length p); c] 2 0)].

Definition reply_V2 (d f c : Z) (p : list Z) : list Z :=
  let n := Z.of_nat (length p) in
  [SYNC; MSP_V2; d; f; le16_lo c; le16_hi c; le16_lo n; le16_hi n] ++ p
  ++ [checksum_crc8_dvb_s2 p (length p)
        (checksum_crc8_dvb_s2 [f; le16_lo c; le16_hi c; le16_lo n; le16_hi n] 5 0)].

(** The module with an open device (defaults of [PyInit_msplink]). *)
Definition open_state : state := State (set_device_open PyInit_msplink 1) quiet_world.

(** What [pyMsplinkGet] and [pyMsplinkSet] do with the result of
    [parse_packet]: the last lines of both. *)
Definition deliver (r : Z * state * mspPacket_t) : py_result * state * mspPacket_t :=
  let '(retval, s3, resp) := r in
  if retval <? 0
  then (Py_NULL (throwPacketError (mdev s3) retval resp), s3, resp)
  else (return_packet (mdev s3) resp, s3, resp).

(** What a well-formed reply with direction byte [d] becomes: the packet,
    or msplink.NACK carrying it when the responder refused the request; and
    UnicodeDecodeError when the direction byte is no character. *)
Definition reply_result (d : Z) (packet : MspPacketType) : py_result :=
  if negb (utf8_char d) then Py_NULL (Some (ErrDecode d))
  else if d =? MSP_DIR_ERROR then Py_NULL (Some (ErrObject MspExc_NACK packet))
  else Py_Packet packet.

(** ** Results and errors *)

(** The refusals of the entry points. *)
Definition not_open : py_result :=
  Py_NULL (Some (ErrString MspExc_Exception
                   "You must call msplink.open successfully first" [])).

Definition command_too_big : py_result :=
  Py_NULL (Some (ErrString PyExc_ValueError
                   "Command can't be greater than 255 when using MSP v1" [])).

Definition bad_version (v : Z) : py_result :=
  Py_NULL (Some (ErrString PyExc_ValueError
                   "msp_version must be 1 or 2 (got %i)" [v])).



(** [errornum] holds the errno of the last failed system call. *)
Definition errno_saved (s : state) : Prop := errornum (mdev s) = errno (os s).

(** A call that returns [MSP_SYSCALL_FAIL] has saved the errno. *)
Definition syscall_fail_saved (r : Z * state) : Prop :=
  fst r = MSP_SYSCALL_FAIL -> errno_saved (snd r).

(** The same for the parsers. *)
Definition parse_fail_saved (r : Z * state * mspPacket_t) : Prop :=
  fst (fst r) = MSP_SYSCALL_FAIL -> errno_saved (snd (fst r)).

(** ** The receive buffer and the payload *)

(** The receive buffer has the size it was declared with: [store_buf] past
    its end would lengthen it. *)
Definition buf_intact (s : state) : Prop :=
  length (buf (mdev s)) = Z.to_nat READ_BUFFER_SIZE.

(** The return codes with which [get] and [set] hand a packet to Python:
    as the result, or attached to msplink.BadChecksum or msplink.NACK. *)
Definition packet_shown (ret : Z) : Prop :=
  0 <= ret \/ ret = MSP_RX_CHECKSUM_MISMATCH \/ ret = MSP_RX_CLIENT_NACK.

(** A packet that is shown has passed the size check of its parser. *)
Definition sized (r : Z * state * mspPacket_t) : Prop :=
  packet_shown (fst (fst r)) -> payload_size (snd r) <= READ_BUFFER_SIZE - 1.

(** The packet a result of [get] or [set] carries, if any. *)
Definition carried (r : py_result) : option MspPacketType :=
  match r with
  | Py_Packet p => Some p
  | Py_NULL (Some (ErrObject _ p)) => Some p
  | _ => None
  end.

(** ** Proof steps *)

Ltac zfalse t :=
  replace t with false
    by (symmetry;
        first [ apply Z.ltb_ge; lia | apply Z.eqb_neq; lia
              | rewrite Z.gtb_ltb; apply Z.ltb_ge; lia | apply Z.leb_gt; lia ]).
Ltac ztrue t :=
  replace t with true
    by (symmetry;
        first [ apply Z.ltb_lt; lia | apply Z.eqb_eq; lia
              | rewrite Z.gtb_ltb; apply Z.ltb_lt; lia | apply Z.leb_le; lia ]).

Ltac pkt_simpl :=
  cbn [set_version set_direction set_flag set_function set_payload_size
       set_payload set_checksum
       version direction flag function payload_size payload checksum nth].

Ltac branches :=
  repeat match goal with
         | |- context [if ?c then _ else _] => destruct c
         end;
  try reflexivity.

(** * Properties *)

(** ** Lists and checksums *)

Lemma firstn_length_app (A : Type) (l r : list A) :
  firstn (length l) (l ++ r) = l.
Proof. induction l as [|x l IH]; simpl; [reflexivity | now rewrite IH]. Qed.

Lemma skipn_length_app (A : Type) (l r : list A) :
  skipn (length l) (l ++ r) = r.
Proof. induction l as [|x l IH]; simpl; [reflexivity | exact IH]. Qed.

Lemma nth_length_app (A : Type) (l r : list A) (x d : A) :
  nth (length l) (l ++ x :: r) d = x.
Proof. induction l as [|y l IH]; simpl; [reflexivity | exact IH]. Qed.

Lemma checksum_xor_app (a b : list Z) (s : Z) :
  checksum_xor (a ++ b) (length (a ++ b)) s
  = checksum_xor b (length b) (checksum_xor a (length a) s).
Proof.
  revert s; induction a as [|x a IH]; intro s; simpl; [reflexivity | apply IH].
Qed.

Lemma checksum_crc8_dvb_s2_app (a b : list Z) (s : Z) :
  checksum_crc8_dvb_s2 (a ++ b) (length (a ++ b)) s
  = checksum_crc8_dvb_s2 b (length b) (checksum_crc8_dvb_s2 a (length a) s).
Proof.
  revert s; induction a as [|x a IH]; intro s; simpl; [reflexivity | apply IH].
Qed.

(** Only the first [size] bytes of the buffer are read. *)
Lemma checksum_xor_prefix (a b : list Z) (s : Z) :
  checksum_xor (a ++ b) (length a) s = checksum_xor a (length a) s.
Proof.
  revert s; induction a as [|x a IH]; intro s; simpl.
  - now destruct b.
  - apply IH.
Qed.

Lemma checksum_crc8_dvb_s2_prefix (a b : list Z) (s : Z) :
  checksum_crc8_dvb_s2 (a ++ b) (length a) s = checksum_crc8_dvb_s2 a (length a) s.
Proof.
  revert s; induction a as [|x a IH]; intro s; simpl.
  - now destruct b.
  - apply IH.
Qed.

Lemma checksum_xor_seed p : forall n s,
  checksum_xor p n s = Z.lxor s (checksum_xor p n 0).
Proof.
  induction p as [|x p IH]; intros [|n] s; simpl;
    try (now rewrite Z.lxor_0_r).
  rewrite (IH n (Z.lxor s x)), (IH n x). now rewrite Z.lxor_assoc.
Qed.

(** ** Bytes and words *)

Lemma lxor_is_u8 a b : is_u8 a -> is_u8 b -> is_u8 (Z.lxor a b).
Proof.
  unfold is_u8. intros [Ha Ha'] [Hb Hb'].
  assert (H0 : 0 <= Z.lxor a b) by (apply Z.lxor_nonneg; tauto).
  split; [exact H0|].
  destruct (Z.eq_dec (Z.lxor a b) 0) as [->|Hne]; [lia|].
  change 256 with (2 ^ 8). apply Z.log2_lt_pow2; [lia|].
  pose proof (Z.log2_lxor a b Ha Hb) as Hl.
  assert (Z.log2 a < 8).
  { destruct (Z.eq_dec a 0) as [->|]; [simpl; lia|]. apply Z.log2_lt_pow2; lia. }
  assert (Z.log2 b < 8).
  { destruct (Z.eq_dec b 0) as [->|]; [simpl; lia|]. apply Z.log2_lt_pow2; lia. }
  lia.
Qed.

Lemma u8_small x : is_u8 x -> u8 x = x.
Proof. intros H. apply Z.mod_small. exact H. Qed.

Lemma le16_roundtrip v : is_u16 v -> le16toh (le16_lo v) (le16_hi v) = v.
Proof.
  unfold is_u16, le16toh, le16_lo, le16_hi. intros H.
  rewrite (Z.mod_small (v / 256)) by (split; [apply Z.div_pos; lia | apply Z.div_lt_upper_bound; lia]).
  pose proof (Z.div_mod v 256). lia.
Qed.

Lemma lxor_cancel_r a b c : Z.lxor a c = Z.lxor b c -> a = b.
Proof.
  intros H. apply (f_equal (fun x => Z.lxor x c)) in H.
  now rewrite !Z.lxor_assoc, Z.lxor_nilpotent, !Z.lxor_0_r in H.
Qed.

Lemma u8_lxor a b : is_u8 b -> u8 (Z.lxor a b) = Z.lxor (a mod 256) b.
Proof.
  intros Hb. unfold u8. change 256 with (2 ^ 8).
  apply Z.bits_inj'. intros n Hn.
  destruct (Z.ltb_spec n 8) as [Hlt|Hge].
  - rewrite Z.mod_pow2_bits_low, !Z.lxor_spec, Z.mod_pow2_bits_low by lia.
    reflexivity.
  - rewrite Z.mod_pow2_bits_high, Z.lxor_spec, Z.mod_pow2_bits_high by lia.
    rewrite <- (Z.mod_small b (2 ^ 8)) by exact Hb.
    rewrite Z.mod_pow2_bits_high by lia. reflexivity.
Qed.

(** ** The transport on a fed line *)

Lemma mdev_feed s q : mdev (feed s q) = mdev s.
Proof. reflexivity. Qed.

Lemma store_buf_feed d s q : store_buf d (feed s q) = feed (store_buf d s) q.
Proof. reflexivity. Qed.

Lemma buf_store_buf d s :
  buf (mdev (store_buf d s)) = d ++ skipn (length d) (buf (mdev s)).
Proof. reflexivity. Qed.

Lemma sys_read_feed s (bs rest : list Z) :
  Sys.read (os (feed s (bs ++ rest))) (Z.of_nat (length bs))
  = (Z.of_nat (length bs), bs, os (feed s rest)).
Proof.
  unfold Sys.read; simpl.
  rewrite Nat2Z.id, firstn_length_app, skipn_length_app. reflexivity.
Qed.

Lemma read_loop_feed i s len acc (bs rest : list Z) :
  read_loop (S (S i)) len (Z.of_nat (length bs)) acc (feed s (bs ++ rest))
  = (len, acc ++ bs, feed s rest).
Proof.
  destruct bs as [|b bs].
  - simpl. now rewrite app_nil_r.
  - cbn [read_loop]. rewrite sys_read_feed.
    replace (Z.of_nat (length (b :: bs)) <? 0) with false
      by (symmetry; apply Z.ltb_ge; lia).
    replace (Z.of_nat (length (b :: bs)) =? 0) with false
      by (symmetry; apply Z.eqb_neq; simpl length; lia).
    rewrite Z.sub_diag.
    change (with_os (feed s ((b :: bs) ++ rest)) (os (feed s rest))) with (feed s rest).
    simpl. now rewrite app_nil_r.
Qed.

(** With at least two read calls allowed, [msplink_read] delivers bytes that
    are already queued. *)
Lemma msplink_read_feed s (bs rest : list Z) len :
  2 <= read_retries (mdev s) ->
  len = Z.of_nat (length bs) ->
  msplink_read (feed s (bs ++ rest)) len = (len, bs, feed s rest).
Proof.
  intros Hr ->. unfold msplink_read. rewrite mdev_feed.
  destruct (Z.to_nat (read_retries (mdev s))) as [|[|i]] eqn:E; try lia.
  now rewrite read_loop_feed.
Qed.

(** The same call when a single read is allowed: after the one [read] the
    loop is over, whatever arrived. *)
Lemma msplink_read_one_call s len :
  read_retries (mdev s) = 1 -> 0 < len ->
  fst (fst (msplink_read s len)) = MSP_RX_FAIL
  \/ fst (fst (msplink_read s len)) = MSP_SYSCALL_FAIL.
Proof.
  intros Hr Hlen. unfold msplink_read. rewrite Hr.
  change (Z.to_nat 1) with 1%nat. cbn [read_loop].
  destruct (Sys.read (os s) len) as [[ret got] w].
  destruct (ret <? 0); [now right|].
  replace (len =? 0) with false by (symmetry; apply Z.eqb_neq; lia).
  now left.
Qed.

(** The retry loop spends calls that bring nothing. *)
Lemma read_loop_idle k : forall i len rem acc d ev ws cs tx e,
  0 < rem ->
  read_loop (k + i) len rem acc
    (State d (World [] (repeat (RdArrive []) k ++ ev) ws cs tx e))
  = read_loop i len rem acc (State d (World [] ev ws cs tx e)).
Proof.
  induction k as [|k IH]; intros i len rem acc d ev ws cs tx e Hrem.
  - reflexivity.
  - cbn [Nat.add repeat app read_loop].
    unfold Sys.read. cbn [reads rxq os app writes ctls txlog errno].
    rewrite firstn_nil, skipn_nil. cbn [length Z.of_nat].
    change (0 <? 0) with false. cbv iota.
    replace (rem =? 0) with false by (symmetry; apply Z.eqb_neq; lia).
    rewrite Z.sub_0_r, app_nil_r.
    unfold with_os. cbn [mdev]. now apply IH.
Qed.

Lemma waituntilsent_feed s q :
  msplink_waituntilsent (feed s q) = (MSP_OK, feed s q).
Proof. reflexivity. Qed.

(** ** The parsers on a fed line *)

Lemma parse_V2_feed s pkt f cl ch ll lh p k rest :
  2 <= read_retries (mdev s) ->
  le16toh ll lh = Z.of_nat (length p) ->
  Z.of_nat (length p) <= 1023 ->
  parse_V2 (feed s (f :: cl :: ch :: ll :: lh :: p ++ k :: rest)) pkt
  = (if k =? checksum_crc8_dvb_s2 p (length p)
                (checksum_crc8_dvb_s2 [f; cl; ch; ll; lh] 5 0)
     then MSP_OK else MSP_RX_CHECKSUM_MISMATCH,
     feed (store_buf (p ++ [k]) s) rest,
     MspPacket (version pkt) (direction pkt) f (le16toh cl ch)
               (Z.of_nat (length p)) PtrDevBuf k).
Proof.
  intros Hr Hlen Hmax. unfold parse_V2.
  change (f :: cl :: ch :: ll :: lh :: p ++ k :: rest)
    with ([f; cl; ch; ll; lh] ++ (p ++ k :: rest)).
  rewrite (msplink_read_feed s [f; cl; ch; ll; lh] (p ++ k :: rest) Hr) by reflexivity.
  cbv beta iota zeta.
  change (5 <? 0) with false. cbv iota.
  pkt_simpl. rewrite Hlen.
  unfold READ_BUFFER_SIZE. zfalse (Z.of_nat (length p) >? 1024 - 1).
  replace (p ++ k :: rest) with ((p ++ [k]) ++ rest) by (now rewrite <- app_assoc).
  rewrite (msplink_read_feed s (p ++ [k]) rest Hr)
    by (rewrite length_app, Nat2Z.inj_add; reflexivity).
  cbv beta iota zeta.
  zfalse (Z.of_nat (length p) + 1 <? 0).
  rewrite store_buf_feed, mdev_feed, buf_store_buf.
  pkt_simpl.
  rewrite Nat2Z.id, <- !app_assoc. simpl ((_ :: _) ++ _).
  rewrite nth_length_app, checksum_crc8_dvb_s2_prefix.
  destruct (k =? _); reflexivity.
Qed.

(** A V2 header that declares more than the buffer holds. *)
Lemma parse_V2_feed_too_big s pkt f cl ch ll lh rest :
  2 <= read_retries (mdev s) ->
  1024 <= le16toh ll lh ->
  parse_V2 (feed s (f :: cl :: ch :: ll :: lh :: rest)) pkt
  = (MSP_OUT_OF_MEMORY, feed s rest,
     MspPacket (version pkt) (direction pkt) f (le16toh cl ch)
               (le16toh ll lh) (payload pkt) (checksum pkt)).
Proof.
  intros Hr Hbig. unfold parse_V2.
  change (f :: cl :: ch :: ll :: lh :: rest) with ([f; cl; ch; ll; lh] ++ rest).
  rewrite (msplink_read_feed s [f; cl; ch; ll; lh] rest Hr) by reflexivity.
  cbv beta iota zeta.
  change (5 <? 0) with false. cbv iota.
  pkt_simpl.
  unfold READ_BUFFER_SIZE. ztrue (le16toh ll lh >? 1024 - 1).
  reflexivity.
Qed.

Lemma parse_V1_tail_feed s pkt calc p k rest :
  2 <= read_retries (mdev s) ->
  function pkt <> 255 ->
  payload_size pkt = Z.of_nat (length p) ->
  Z.of_nat (length p) <= 1023 ->
  parse_V1_tail (feed s (p ++ k :: rest)) pkt calc
  = (if k =? checksum_xor p (length p) calc
     then MSP_OK else MSP_RX_CHECKSUM_MISMATCH,
     feed (store_buf (p ++ [k]) s) rest,
     set_checksum (set_payload pkt PtrDevBuf) k).
Proof.
  intros Hr Hfn Hlen Hmax. unfold parse_V1_tail.
  zfalse (function pkt =? 255).
  rewrite Hlen. unfold READ_BUFFER_SIZE. zfalse (Z.of_nat (length p) >? 1024 - 1).
  replace (p ++ k :: rest) with ((p ++ [k]) ++ rest) by (now rewrite <- app_assoc).
  rewrite (msplink_read_feed s (p ++ [k]) rest Hr)
    by (rewrite length_app, Nat2Z.inj_add; reflexivity).
  cbv beta iota zeta.
  zfalse (Z.of_nat (length p) + 1 <? 0).
  rewrite store_buf_feed, mdev_feed, buf_store_buf.
  pkt_simpl. rewrite Hlen.
  rewrite Nat2Z.id, <- !app_assoc. simpl ((_ :: _) ++ _).
  rewrite nth_length_app, checksum_xor_prefix.
  destruct (k =? _); reflexivity.
Qed.

Lemma parse_V2_code s pkt :
  fst (fst (parse_V2 s pkt)) <= 0.
Proof.
  unfold parse_V2.
  destruct (msplink_read s 5) as [[ret bytes] s1].
  destruct (ret <? 0) eqn:E; [apply Z.ltb_lt in E; simpl; lia|].
  cbv zeta.
  match goal with |- context [if ?c then _ else _] => destruct c end;
    [simpl; unfold MSP_OUT_OF_MEMORY; lia|].
  destruct (msplink_read s1 _) as [[ret' got] s2].
  destruct (ret' <? 0) eqn:E'; [apply Z.ltb_lt in E'; simpl; lia|].
  match goal with |- context [if ?c then _ else _] => destruct c end;
    simpl; unfold MSP_RX_CHECKSUM_MISMATCH, MSP_OK; lia.
Qed.

(** A V1 header with command 255 hands the stream over to [parse_V2]. *)
Lemma parse_V1_tail_tunnel s pkt calc :
  function pkt = 255 ->
  parse_V1_tail s pkt calc = parse_V2 s pkt.
Proof.
  intros Hfn. unfold parse_V1_tail. rewrite Hfn. change (255 =? 255) with true.
  cbv iota. pose proof (parse_V2_code s pkt) as Hc.
  destruct (parse_V2 s pkt) as [[ret s1] pkt1]. simpl in Hc.
  destruct (ret <? 0) eqn:E; [reflexivity|].
  apply Z.ltb_ge in E. replace ret with MSP_OK by (unfold MSP_OK; lia).
  reflexivity.
Qed.

Lemma parse_V1_feed_header s pkt size cmd rest :
  2 <= read_retries (mdev s) ->
  size <> 255 ->
  parse_V1 (feed s (size :: cmd :: rest)) pkt
  = parse_V1_tail (feed s rest)
      (MspPacket (version pkt) (direction pkt) 0 cmd size
                 (payload pkt) (checksum pkt))
      (checksum_xor [size; cmd] 2 0).
Proof.
  intros Hr Hsize. unfold parse_V1.
  change (size :: cmd :: rest) with ([size; cmd] ++ rest).
  rewrite (msplink_read_feed s [size; cmd] rest Hr) by reflexivity.
  cbv beta iota zeta. change (2 <? 0) with false. cbv iota.
  pkt_simpl. zfalse (size =? 255). reflexivity.
Qed.

Lemma parse_V1_feed_jumbo_header s pkt cmd ll lh rest :
  2 <= read_retries (mdev s) ->
  parse_V1 (feed s (255 :: cmd :: ll :: lh :: rest)) pkt
  = parse_V1_tail (feed s rest)
      (MspPacket (version pkt) (direction pkt) 0 cmd (le16toh ll lh)
                 (payload pkt) (checksum pkt))
      (checksum_xor [ll; lh] 2 (checksum_xor [255; cmd] 2 0)).
Proof.
  intros Hr. unfold parse_V1.
  change (255 :: cmd :: ll :: lh :: rest) with ([255; cmd] ++ ([ll; lh] ++ rest)).
  rewrite (msplink_read_feed s [255; cmd] ([ll; lh] ++ rest) Hr) by reflexivity.
  cbv beta iota zeta. change (2 <? 0) with false. cbv iota.
  pkt_simpl. change (255 =? 255) with true. cbv iota.
  rewrite (msplink_read_feed s [ll; lh] rest Hr) by reflexivity.
  cbv beta iota zeta. change (2 <? 0) with false. cbv iota.
  pkt_simpl. reflexivity.
Qed.

(** Plain V1 frame body: size byte, command, payload, checksum. *)
Lemma parse_V1_feed s pkt size cmd p k rest :
  2 <= read_retries (mdev s) ->
  size <> 255 -> cmd <> 255 ->
  size = Z.of_nat (length p) ->
  Z.of_nat (length p) <= 1023 ->
  parse_V1 (feed s (size :: cmd :: p ++ k :: rest)) pkt
  = (if k =? checksum_xor p (length p) (checksum_xor [size; cmd] 2 0)
     then MSP_OK else MSP_RX_CHECKSUM_MISMATCH,
     feed (store_buf (p ++ [k]) s) rest,
     MspPacket (version pkt) (direction pkt) 0 cmd size PtrDevBuf k).
Proof.
  intros Hr Hsize Hcmd Hlen Hmax.
  rewrite parse_V1_feed_header by assumption.
  rewrite parse_V1_tail_feed by assumption. reflexivity.
Qed.

(** JUMBO V1 frame body: 255, command, length (little endian), payload,
    checksum. *)
Lemma parse_V1_feed_jumbo s pkt cmd ll lh p k rest :
  2 <= read_retries (mdev s) ->
  cmd <> 255 ->
  le16toh ll lh = Z.of_nat (length p) ->
  Z.of_nat (length p) <= 1023 ->
  parse_V1 (feed s (255 :: cmd :: ll :: lh :: p ++ k :: rest)) pkt
  = (if k =? checksum_xor p (length p)
                (checksum_xor [ll; lh] 2 (checksum_xor [255; cmd] 2 0))
     then MSP_OK else MSP_RX_CHECKSUM_MISMATCH,
     feed (store_buf (p ++ [k]) s) rest,
     MspPacket (version pkt) (direction pkt) 0 cmd (le16toh ll lh) PtrDevBuf k).
Proof.
  intros Hr Hcmd Hlen Hmax.
  rewrite parse_V1_feed_jumbo_header by assumption.
  rewrite parse_V1_tail_feed by (try assumption; pkt_simpl; congruence).
  reflexivity.
Qed.

Lemma parse_V1_feed_jumbo_too_big s pkt cmd ll lh rest :
  2 <= read_retries (mdev s) ->
  cmd <> 255 ->
  1024 <= le16toh ll lh ->
  parse_V1 (feed s (255 :: cmd :: ll :: lh :: rest)) pkt
  = (MSP_OUT_OF_MEMORY, feed s rest,
     MspPacket (version pkt) (direction pkt) 0 cmd (le16toh ll lh)
               (payload pkt) (checksum pkt)).
Proof.
  intros Hr Hcmd Hbig.
  rewrite parse_V1_feed_jumbo_header by assumption.
  unfold parse_V1_tail. pkt_simpl.
  zfalse (cmd =? 255).
  unfold READ_BUFFER_SIZE. ztrue (le16toh ll lh >? 1024 - 1).
  reflexivity.
Qed.

Lemma payload_bytes_stored s rest v d f c (p : list Z) k :
  payload_bytes (mdev (feed (store_buf (p ++ [k]) s) rest))
    (MspPacket v d f c (Z.of_nat (length p)) PtrDevBuf k) = p.
Proof.
  unfold payload_bytes. cbn [payload payload_size].
  rewrite mdev_feed, buf_store_buf, Nat2Z.id, <- app_assoc.
  apply firstn_length_app.
Qed.

(** ** Sync search and dispatch on a fed line *)

Lemma get_sync_loop_found i s rest :
  2 <= read_retries (mdev s) ->
  get_sync_loop (S i) (feed s (SYNC :: rest)) = (MSP_OK, feed s rest).
Proof.
  intros Hr. cbn [get_sync_loop].
  change (SYNC :: rest) with ([SYNC] ++ rest).
  rewrite (msplink_read_feed s [SYNC] rest Hr) by reflexivity.
  reflexivity.
Qed.

Lemma get_sync_loop_skip junk : forall i s rest,
  2 <= read_retries (mdev s) ->
  Forall (fun b => b <> SYNC) junk ->
  get_sync_loop (length junk + i) (feed s (junk ++ rest))
  = get_sync_loop i (feed s rest).
Proof.
  induction junk as [|b junk IH]; intros i s rest Hr Hj.
  - reflexivity.
  - inversion Hj as [|b' junk' Hb Hj']; subst.
    cbn [length Nat.add get_sync_loop].
    change ((b :: junk) ++ rest) with ([b] ++ (junk ++ rest)).
    rewrite (msplink_read_feed s [b] (junk ++ rest) Hr) by reflexivity.
    cbv beta iota zeta.
    change (1 =? MSP_RX_FAIL) with false. change (1 <? 0) with false. cbv iota.
    cbn [nth]. zfalse (b =? SYNC).
    now apply IH.
Qed.

Lemma get_sync_feed s rest :
  2 <= read_retries (mdev s) ->
  get_sync (feed s (SYNC :: rest)) = (MSP_OK, feed s rest).
Proof. intros Hr. unfold get_sync, MAX_SYNC_SEARCH_BYTES. now apply get_sync_loop_found. Qed.

(** [parse_packet] is the drain, the sync search and [after_sync]. *)
Lemma parse_packet_stages s pkt :
  parse_packet s pkt
  = (let '(ret, s1) := msplink_waituntilsent s in
     if ret <? 0 then (ret, s1, pkt) else
     let '(ret, s2) := get_sync s1 in
     if ret <? 0 then (ret, s2, pkt) else
     after_sync s2 pkt).
Proof. reflexivity. Qed.

Lemma parse_packet_feed_sync s pkt rest :
  2 <= read_retries (mdev s) ->
  parse_packet (feed s (SYNC :: rest)) pkt = after_sync (feed s rest) pkt.
Proof.
  intros Hr. unfold parse_packet. rewrite waituntilsent_feed.
  change (MSP_OK <? 0) with false. cbv iota.
  rewrite get_sync_feed by exact Hr.
  change (MSP_OK <? 0) with false. cbv iota. reflexivity.
Qed.

Lemma after_sync_feed_V1 s pkt d body :
  2 <= read_retries (mdev s) ->
  after_sync (feed s (MSP_V1 :: d :: body)) pkt
  = verdict (parse_V1 (feed s body) (set_direction (set_version pkt MSP_V1) d)).
Proof.
  intros Hr. unfold after_sync.
  change (MSP_V1 :: d :: body) with ([MSP_V1; d] ++ body).
  rewrite (msplink_read_feed s [MSP_V1; d] body Hr) by reflexivity.
  cbv beta iota zeta. change (2 <? 0) with false. cbv iota.
  pkt_simpl. change (MSP_V1 =? MSP_V1) with true. cbv iota.
  reflexivity.
Qed.

Lemma after_sync_feed_V2 s pkt d body :
  2 <= read_retries (mdev s) ->
  after_sync (feed s (MSP_V2 :: d :: body)) pkt
  = verdict (parse_V2 (feed s body) (set_direction (set_version pkt MSP_V2) d)).
Proof.
  intros Hr. unfold after_sync.
  change (MSP_V2 :: d :: body) with ([MSP_V2; d] ++ body).
  rewrite (msplink_read_feed s [MSP_V2; d] body Hr) by reflexivity.
  cbv beta iota zeta. change (2 <? 0) with false. cbv iota.
  pkt_simpl. change (MSP_V2 =? MSP_V1) with false.
  change (MSP_V2 =? MSP_V2) with true. cbv iota.
  reflexivity.
Qed.

(** A plain V1 frame and a V2 frame, whole on the line. *)
Lemma parse_packet_feed_V1 s pkt d c (p : list Z) k rest :
  2 <= read_retries (mdev s) ->
  c <> 255 -> Z.of_nat (length p) <= 254 ->
  parse_packet
    (feed s (SYNC :: MSP_V1 :: d :: Z.of_nat (length p) :: c :: p ++ k :: rest)) pkt
  = verdict
      (if k =? checksum_xor p (length p) (checksum_xor [Z.of_nat (length p); c] 2 0)
       then MSP_OK else MSP_RX_CHECKSUM_MISMATCH,
       feed (store_buf (p ++ [k]) s) rest,
       MspPacket MSP_V1 d 0 c (Z.of_nat (length p)) PtrDevBuf k).
Proof.
  intros Hr Hc Hn.
  rewrite parse_packet_feed_sync, after_sync_feed_V1 by exact Hr.
  rewrite parse_V1_feed by (try assumption; try reflexivity; lia).
  reflexivity.
Qed.

Lemma parse_packet_feed_V2 s pkt d f cl ch ll lh (p : list Z) k rest :
  2 <= read_retries (mdev s) ->
  le16toh ll lh = Z.of_nat (length p) -> Z.of_nat (length p) <= 1023 ->
  parse_packet
    (feed s (SYNC :: MSP_V2 :: d :: f :: cl :: ch :: ll :: lh :: p ++ k :: rest)) pkt
  = verdict
      (if k =? checksum_crc8_dvb_s2 p (length p)
                 (checksum_crc8_dvb_s2 [f; cl; ch; ll; lh] 5 0)
       then MSP_OK else MSP_RX_CHECKSUM_MISMATCH,
       feed (store_buf (p ++ [k]) s) rest,
       MspPacket MSP_V2 d f (le16toh cl ch) (Z.of_nat (length p)) PtrDevBuf k).
Proof.
  intros Hr Hl Hn.
  rewrite parse_packet_feed_sync, after_sync_feed_V2 by exact Hr.
  rewrite parse_V2_feed by assumption.
  reflexivity.
Qed.

(** The verdict on a frame whose checksum matched. *)
Lemma verdict_ok s pkt :
  verdict (MSP_OK, s, pkt)
  = (if direction pkt =? MSP_DIR_ERROR then MSP_RX_CLIENT_NACK else MSP_OK, s, pkt).
Proof.
  unfold verdict. change (MSP_OK <? 0) with false. cbv iota.
  destruct (direction pkt =? MSP_DIR_ERROR); reflexivity.
Qed.

(** A device that allows one read call: the call takes what is queued, and
    the read fails. *)
Lemma msplink_read_feed_one_call s (q : list Z) len :
  read_retries (mdev s) = 1 -> 0 < len ->
  msplink_read (feed s q) len
  = (MSP_RX_FAIL, firstn (Z.to_nat len) q, feed s (skipn (Z.to_nat len) q)).
Proof.
  intros Hr Hlen. unfold msplink_read. rewrite mdev_feed, Hr.
  change (Z.to_nat 1) with 1%nat. cbn [read_loop].
  unfold Sys.read. cbn [feed os reads rxq writes ctls txlog errno].
  zfalse (Z.of_nat (length (firstn (Z.to_nat len) q)) <? 0).
  zfalse (len =? 0). reflexivity.
Qed.

Lemma parse_packet_feed_one_call s (q : list Z) pkt :
  read_retries (mdev s) = 1 ->
  parse_packet (feed s q) pkt
  = (MSP_RX_SYNC_NOT_FOUND, feed s (skipn 1 q), pkt).
Proof.
  intros Hr. unfold parse_packet. rewrite waituntilsent_feed.
  change (MSP_OK <? 0) with false. cbv iota.
  unfold get_sync, MAX_SYNC_SEARCH_BYTES.
  change 50%nat with (S 49). generalize 49%nat. intros i. cbn [get_sync_loop].
  rewrite msplink_read_feed_one_call by (assumption || lia).
  change (MSP_RX_FAIL =? MSP_RX_FAIL) with true. cbv iota.
  change (MSP_RX_SYNC_NOT_FOUND <? 0) with true. cbv iota. reflexivity.
Qed.

(** A V2 frame inside a V1 frame, whole on the line. *)
Lemma parse_packet_feed_tunnel s pkt d size f cl ch ll lh (p : list Z) k tail :
  2 <= read_retries (mdev s) ->
  size <> 255 ->
  le16toh ll lh = Z.of_nat (length p) -> Z.of_nat (length p) <= 1023 ->
  parse_packet
    (feed s (SYNC :: MSP_V1 :: d :: size :: 255
             :: f :: cl :: ch :: ll :: lh :: p ++ k :: tail)) pkt
  = verdict
      (if k =? checksum_crc8_dvb_s2 p (length p)
                 (checksum_crc8_dvb_s2 [f; cl; ch; ll; lh] 5 0)
       then MSP_OK else MSP_RX_CHECKSUM_MISMATCH,
       feed (store_buf (p ++ [k]) s) tail,
       MspPacket MSP_V1 d f (le16toh cl ch) (Z.of_nat (length p)) PtrDevBuf k).
Proof.
  intros Hr Hsize Hlen Hmax.
  rewrite parse_packet_feed_sync, after_sync_feed_V1 by exact Hr.
  rewrite parse_V1_feed_header by assumption.
  rewrite parse_V1_tail_tunnel by reflexivity.
  rewrite parse_V2_feed by assumption.
  reflexivity.
Qed.

(** The same inside a JUMBO V1 frame: size byte 255, command 255, two length
    bytes, then the V2 frame. *)
Lemma parse_packet_feed_jumbo_tunnel s pkt d jl jh f cl ch ll lh (p : list Z) k tail :
  2 <= read_retries (mdev s) ->
  le16toh ll lh = Z.of_nat (length p) -> Z.of_nat (length p) <= 1023 ->
  parse_packet
    (feed s (SYNC :: MSP_V1 :: d :: 255 :: 255 :: jl :: jh
             :: f :: cl :: ch :: ll :: lh :: p ++ k :: tail)) pkt
  = verdict
      (if k =? checksum_crc8_dvb_s2 p (length p)
                 (checksum_crc8_dvb_s2 [f; cl; ch; ll; lh] 5 0)
       then MSP_OK else MSP_RX_CHECKSUM_MISMATCH,
       feed (store_buf (p ++ [k]) s) tail,
       MspPacket MSP_V1 d f (le16toh cl ch) (Z.of_nat (length p)) PtrDevBuf k).
Proof.
  intros Hr Hlen Hmax.
  rewrite parse_packet_feed_sync, after_sync_feed_V1 by exact Hr.
  rewrite parse_V1_feed_jumbo_header by assumption.
  rewrite parse_V1_tail_tunnel by reflexivity.
  rewrite parse_V2_feed by assumption.
  reflexivity.
Qed.

(** What [verdict] leaves of a result. *)
Lemma verdict_parts ret s pkt :
  snd (fst (verdict (ret, s, pkt))) = s /\ snd (verdict (ret, s, pkt)) = pkt.
Proof.
  unfold verdict. destruct (ret <? 0); [split; reflexivity|].
  destruct (direction pkt =? MSP_DIR_ERROR); split; reflexivity.
Qed.

(** ** The encoders on a line that accepts every write *)

Lemma logged_logged s a b : logged (logged s a) b = logged s (a ++ b).
Proof. unfold logged; simpl. now rewrite app_assoc. Qed.

Lemma msplink_write_feed s q data len :
  len = Z.of_nat (length data) ->
  msplink_write (feed s q) data len = (MSP_OK, feed (logged s data) q).
Proof.
  intros ->. unfold msplink_write, Sys.write. cbn [feed os writes].
  rewrite Nat2Z.id, firstn_all.
  zfalse (Z.of_nat (length data) <? 0).
  rewrite Z.eqb_refl. reflexivity.
Qed.

Lemma send_V1_feed s q cmd p :
  Z.of_nat (length p) <= 254 ->
  send_V1 (feed s q) cmd p (Z.of_nat (length p))
  = (MSP_OK,
     feed (logged s ([SYNC; chr "M"; chr "<"; Z.of_nat (length p); cmd] ++ p
                     ++ [checksum_xor p (length p)
                           (u8 (Z.lxor (Z.of_nat (length p)) cmd))])) q).
Proof.
  intros Hlen. unfold send_V1.
  zfalse (Z.of_nat (length p) >? 254).
  rewrite msplink_write_feed by reflexivity.
  change (MSP_OK <? 0) with false. cbv iota.
  unfold send_V1_tail.
  rewrite msplink_write_feed by reflexivity.
  change (MSP_OK <? 0) with false. cbv iota.
  rewrite msplink_write_feed by reflexivity.
  change (MSP_OK <? 0) with false. cbv iota.
  rewrite Nat2Z.id, !logged_logged. reflexivity.
Qed.

Lemma send_V1_feed_jumbo s q cmd p :
  254 < Z.of_nat (length p) ->
  send_V1 (feed s q) cmd p (Z.of_nat (length p))
  = (MSP_OK,
     feed (logged s ([SYNC; chr "M"; chr "<"; 255; cmd;
                      le16_lo (Z.of_nat (length p)); le16_hi (Z.of_nat (length p))]
                     ++ p
                     ++ [checksum_xor p (length p)
                           (Z.lxor
                              (Z.lxor (u8 (Z.lxor (Z.of_nat (length p)) cmd))
                                      (le16_lo (Z.of_nat (length p))))
                              (le16_hi (Z.of_nat (length p))))])) q).
Proof.
  intros Hlen. unfold send_V1.
  ztrue (Z.of_nat (length p) >? 254).
  rewrite msplink_write_feed by reflexivity.
  change (MSP_OK <? 0) with false. cbv iota.
  rewrite msplink_write_feed by reflexivity.
  change (MSP_OK <? 0) with false. cbv iota.
  unfold send_V1_tail.
  rewrite msplink_write_feed by reflexivity.
  change (MSP_OK <? 0) with false. cbv iota.
  rewrite msplink_write_feed by reflexivity.
  change (MSP_OK <? 0) with false. cbv iota.
  cbn [nth].
  rewrite Nat2Z.id, !logged_logged. reflexivity.
Qed.

Lemma send_V2_feed s q f cmd p :
  send_V2 (feed s q) f cmd p (Z.of_nat (length p))
  = (MSP_OK,
     feed (logged s ([SYNC; chr "X"; chr "<"; f;
                      le16_lo cmd; le16_hi cmd;
                      le16_lo (Z.of_nat (length p)); le16_hi (Z.of_nat (length p))]
                     ++ p
                     ++ [checksum_crc8_dvb_s2 p (length p)
                           (checksum_crc8_dvb_s2
                              [f; le16_lo cmd; le16_hi cmd;
                               le16_lo (Z.of_nat (length p));
                               le16_hi (Z.of_nat (length p))] 5 0)])) q).
Proof.
  unfold send_V2.
  rewrite msplink_write_feed by reflexivity.
  change (MSP_OK <? 0) with false. cbv iota.
  rewrite msplink_write_feed by reflexivity.
  change (MSP_OK <? 0) with false. cbv iota.
  rewrite msplink_write_feed by reflexivity.
  change (MSP_OK <? 0) with false. cbv iota.
  cbn [skipn].
  rewrite Nat2Z.id, !logged_logged. reflexivity.
Qed.

Lemma emitted_logged s q q' bytes ret :
  emitted (feed s q) (ret, feed (logged s bytes) q') = bytes.
Proof. unfold emitted. simpl. apply skipn_length_app. Qed.

(** ** Fields the parsers leave alone *)

Lemma parse_V2_keeps_header s pkt :
  version (snd (parse_V2 s pkt)) = version pkt
  /\ direction (snd (parse_V2 s pkt)) = direction pkt.
Proof.
  unfold parse_V2.
  destruct (msplink_read s 5) as [[ret bytes] s1].
  destruct (ret <? 0); [split; reflexivity|].
  cbv zeta.
  match goal with |- context [if ?c then _ else _] => destruct c end;
    [split; reflexivity|].
  destruct (msplink_read s1 _) as [[ret' got] s2].
  destruct (ret' <? 0); [split; reflexivity|].
  match goal with |- context [if ?c then _ else _] => destruct c end;
    split; reflexivity.
Qed.

Lemma parse_V1_tail_keeps_header s pkt calc :
  version (snd (parse_V1_tail s pkt calc)) = version pkt
  /\ direction (snd (parse_V1_tail s pkt calc)) = direction pkt.
Proof.
  unfold parse_V1_tail.
  destruct (function pkt =? 255).
  - pose proof (parse_V2_keeps_header s pkt) as H.
    destruct (parse_V2 s pkt) as [[ret s1] pkt1]. simpl in H.
    destruct (ret <? 0); exact H.
  - match goal with |- context [if ?c then _ else _] => destruct c end;
      [split; reflexivity|].
    destruct (msplink_read s _) as [[ret' got] s2].
    destruct (ret' <? 0); [split; reflexivity|].
    match goal with |- context [if ?c then _ else _] => destruct c end;
      split; reflexivity.
Qed.

Lemma parse_V1_keeps_header s pkt :
  version (snd (parse_V1 s pkt)) = version pkt
  /\ direction (snd (parse_V1 s pkt)) = direction pkt.
Proof.
  unfold parse_V1.
  destruct (msplink_read s 2) as [[ret b] s1].
  destruct (ret <? 0); [split; reflexivity|].
  cbv zeta.
  match goal with |- context [if ?c then _ else _] => destruct c end.
  - destruct (msplink_read s1 2) as [[ret' l] s2].
    destruct (ret' <? 0); [split; reflexivity|].
    match goal with |- context [parse_V1_tail ?a ?b ?c] =>
      destruct (parse_V1_tail_keeps_header a b c) as [Hv Hd] end.
    rewrite Hv, Hd. split; reflexivity.
  - match goal with |- context [parse_V1_tail ?a ?b ?c] =>
      destruct (parse_V1_tail_keeps_header a b c) as [Hv Hd] end.
    rewrite Hv, Hd. split; reflexivity.
Qed.

(** ** What the lower layers leave of the handle *)

Lemma cfg_msplink_write s data len :
  cfg (mdev (snd (msplink_write s data len))) = cfg (mdev s).
Proof.
  unfold msplink_write. destruct (Sys.write _ _ _) as [ret w]. branches.
Qed.

Lemma cfg_read_loop i : forall len rem acc s,
  cfg (mdev (snd (read_loop i len rem acc s))) = cfg (mdev s).
Proof.
  induction i as [|i IH]; intros len rem acc s; cbn [read_loop]; [reflexivity|].
  destruct (Sys.read _ _) as [[ret got] w].
  destruct (ret <? 0); [reflexivity|].
  destruct (rem =? 0); [reflexivity|].
  rewrite IH. reflexivity.
Qed.

Lemma cfg_msplink_read s len :
  cfg (mdev (snd (msplink_read s len))) = cfg (mdev s).
Proof. apply cfg_read_loop. Qed.

Lemma cfg_msplink_waituntilsent s :
  cfg (mdev (snd (msplink_waituntilsent s))) = cfg (mdev s).
Proof.
  unfold msplink_waituntilsent. destruct (Sys.call _) as [r w]. branches.
Qed.

Lemma cfg_msplink_clearRxBuffer s :
  cfg (mdev (snd (msplink_clearRxBuffer s))) = cfg (mdev s).
Proof.
  unfold msplink_clearRxBuffer. destruct (Sys.tcflush _) as [r w]. branches.
Qed.

Lemma cfg_set_interface_attribs s :
  cfg (mdev (snd (set_interface_attribs s))) = cfg (mdev s).
Proof.
  unfold set_interface_attribs.
  destruct (Sys.call _) as [r w]. destruct (negb _); [reflexivity|].
  destruct (Sys.call _) as [r1 w1]. destruct (negb _); [reflexivity|].
  destruct (Sys.call _) as [r2 w2]. destruct (negb _); [reflexivity|].
  destruct (Sys.call _) as [r3 w3]. destruct (negb _); reflexivity.
Qed.

Lemma cfg_msplink_open s :
  cfg (mdev (snd (msplink_open s))) = cfg (mdev s).
Proof.
  unfold msplink_open. destruct (Sys.call _) as [f w].
  destruct (f <? 0); [reflexivity|].
  pose proof (cfg_set_interface_attribs (State (set_fd (mdev s) f) w)) as H.
  destruct (set_interface_attribs _) as [r s2]. cbn [snd] in H.
  destruct (negb _); cbn [snd]; [|exact H].
  unfold save_errno, with_dev. cbn [mdev]. unfold cfg in *. exact H.
Qed.

Lemma cfg_msplink_close s :
  cfg (mdev (snd (msplink_close s))) = cfg (mdev s).
Proof.
  unfold msplink_close. destruct (Sys.call _) as [f w]. branches.
Qed.

Lemma cfg_send_V1_tail s p len c :
  cfg (mdev (snd (send_V1_tail s p len c))) = cfg (mdev s).
Proof.
  unfold send_V1_tail.
  pose proof (cfg_msplink_write s p len) as H1.
  destruct (msplink_write s p len) as [ret s1]. cbn [snd] in H1.
  destruct (ret <? 0); [exact H1|].
  match goal with |- context [msplink_write s1 ?d ?l] =>
    pose proof (cfg_msplink_write s1 d l) as H2;
    destruct (msplink_write s1 d l) as [ret2 s2] end.
  cbn [snd] in H2. destruct (ret2 <? 0); cbn [snd]; congruence.
Qed.

Lemma cfg_send_V1 s cmd p len :
  cfg (mdev (snd (send_V1 s cmd p len))) = cfg (mdev s).
Proof.
  unfold send_V1.
  match goal with |- context [msplink_write s ?d ?l] =>
    pose proof (cfg_msplink_write s d l) as H1;
    destruct (msplink_write s d l) as [ret s1] end.
  cbn [snd] in H1. destruct (ret <? 0); [exact H1|].
  destruct (len >? 254).
  - match goal with |- context [msplink_write s1 ?d ?l] =>
      pose proof (cfg_msplink_write s1 d l) as H2;
      destruct (msplink_write s1 d l) as [ret2 s2] end.
    cbn [snd] in H2. destruct (ret2 <? 0); [cbn [snd]; congruence|].
    rewrite cfg_send_V1_tail. congruence.
  - rewrite cfg_send_V1_tail. exact H1.
Qed.

Lemma cfg_send_V2 s f cmd p len :
  cfg (mdev (snd (send_V2 s f cmd p len))) = cfg (mdev s).
Proof.
  unfold send_V2.
  match goal with |- context [msplink_write s ?d ?l] =>
    pose proof (cfg_msplink_write s d l) as H1;
    destruct (msplink_write s d l) as [ret s1] end.
  cbn [snd] in H1. destruct (ret <? 0); [exact H1|].
  pose proof (cfg_msplink_write s1 p len) as H2.
  destruct (msplink_write s1 p len) as [ret2 s2].
  cbn [snd] in H2. destruct (ret2 <? 0); [cbn [snd]; congruence|].
  match goal with |- context [msplink_write s2 ?d ?l] =>
    pose proof (cfg_msplink_write s2 d l) as H3;
    destruct (msplink_write s2 d l) as [ret3 s3] end.
  cbn [snd] in H3. destruct (ret3 <? 0); cbn [snd]; congruence.
Qed.

Lemma cfg_get_sync_loop i : forall s,
  cfg (mdev (snd (get_sync_loop i s))) = cfg (mdev s).
Proof.
  induction i as [|i IH]; intros s; cbn [get_sync_loop]; [reflexivity|].
  pose proof (cfg_msplink_read s 1) as H.
  destruct (msplink_read s 1) as [[ret b] s1]. cbn [snd] in H.
  destruct (ret =? MSP_RX_FAIL); [exact H|].
  destruct (ret <? 0); [exact H|].
  destruct (nth 0 b 0 =? SYNC); [exact H|].
  rewrite IH. exact H.
Qed.

Lemma cfg_parse_V2 s pkt :
  cfg (mdev (snd (fst (parse_V2 s pkt)))) = cfg (mdev s).
Proof.
  unfold parse_V2.
  pose proof (cfg_msplink_read s 5) as H.
  destruct (msplink_read s 5) as [[ret bytes] s1]. cbn [snd] in H.
  destruct (ret <? 0); [exact H|]. cbv zeta.
  match goal with |- context [if ?c then _ else _] => destruct c end; [exact H|].
  match goal with |- context [msplink_read s1 ?l] =>
    pose proof (cfg_msplink_read s1 l) as H2;
    destruct (msplink_read s1 l) as [[ret2 got] s2] end.
  cbn [snd] in H2.
  destruct (ret2 <? 0); [cbn [fst snd]; unfold cfg in *; cbn; congruence|].
  match goal with |- context [if ?c then _ else _] => destruct c end;
    cbn [fst snd]; unfold cfg in *; cbn; congruence.
Qed.

Lemma cfg_parse_V1_tail s pkt calc :
  cfg (mdev (snd (fst (parse_V1_tail s pkt calc)))) = cfg (mdev s).
Proof.
  unfold parse_V1_tail.
  destruct (function pkt =? 255).
  - pose proof (cfg_parse_V2 s pkt) as H.
    destruct (parse_V2 s pkt) as [[ret s1] pkt1]. cbn [fst snd] in H.
    destruct (ret <? 0); exact H.
  - match goal with |- context [if ?c then _ else _] => destruct c end;
      [reflexivity|].
    match goal with |- context [msplink_read s ?l] =>
      pose proof (cfg_msplink_read s l) as H2;
      destruct (msplink_read s l) as [[ret2 got] s2] end.
    cbn [snd] in H2.
    destruct (ret2 <? 0); [cbn [fst snd]; unfold cfg in *; cbn; congruence|].
    match goal with |- context [if ?c then _ else _] => destruct c end;
      cbn [fst snd]; unfold cfg in *; cbn; congruence.
Qed.

Lemma cfg_parse_V1 s pkt :
  cfg (mdev (snd (fst (parse_V1 s pkt)))) = cfg (mdev s).
Proof.
  unfold parse_V1.
  pose proof (cfg_msplink_read s 2) as H.
  destruct (msplink_read s 2) as [[ret b] s1]. cbn [snd] in H.
  destruct (ret <? 0); [exact H|]. cbv zeta.
  match goal with |- context [if ?c then _ else _] => destruct c end.
  - pose proof (cfg_msplink_read s1 2) as H2.
    destruct (msplink_read s1 2) as [[ret2 l] s2]. cbn [snd] in H2.
    destruct (ret2 <? 0); [cbn [fst snd]; congruence|].
    rewrite cfg_parse_V1_tail. congruence.
  - rewrite cfg_parse_V1_tail. exact H.
Qed.

Lemma cfg_parse_packet s pkt :
  cfg (mdev (snd (fst (parse_packet s pkt)))) = cfg (mdev s).
Proof.
  unfold parse_packet.
  pose proof (cfg_msplink_waituntilsent s) as H1.
  destruct (msplink_waituntilsent s) as [ret s1]. cbn [snd] in H1.
  destruct (ret <? 0); [exact H1|].
  pose proof (cfg_get_sync_loop MAX_SYNC_SEARCH_BYTES s1) as H2.
  fold (get_sync s1) in H2.
  destruct (get_sync s1) as [ret2 s2]. cbn [snd] in H2.
  destruct (ret2 <? 0); [cbn [fst snd]; congruence|].
  pose proof (cfg_msplink_read s2 2) as H3.
  destruct (msplink_read s2 2) as [[ret3 hb] s3]. cbn [snd] in H3.
  destruct (ret3 <? 0); [cbn [fst snd]; congruence|]. cbv zeta.
  assert (H4 : forall r : Z * state * mspPacket_t,
             cfg (mdev (snd (fst r))) = cfg (mdev s3) ->
             cfg (mdev (snd (fst
               (let '(ret, s4, response) := r in
                if ret <? 0 then (ret, s4, response)
                else if direction response =? MSP_DIR_ERROR
                     then (MSP_RX_CLIENT_NACK, s4, response)
                     else (MSP_OK, s4, response))))) = cfg (mdev s)).
  { intros [[r0 s4] resp] Hr. cbn [fst snd] in Hr.
    destruct (r0 <? 0); [cbn [fst snd]; congruence|].
    destruct (direction resp =? MSP_DIR_ERROR); cbn [fst snd]; congruence. }
  apply H4.
  match goal with |- context [if ?c then _ else _] => destruct c end;
    [apply cfg_parse_V1|].
  match goal with |- context [if ?c then _ else _] => destruct c end;
    [apply cfg_parse_V2 | reflexivity].
Qed.

Lemma device_open_parse_open_args d a :
  device_open (snd (parse_open_args d a)) = device_open d.
Proof.
  unfold parse_open_args.
  destruct (serial_device a); try reflexivity.
  destruct (arg_read_retries a); destruct (arg_msp_version a); reflexivity.
Qed.

Lemma cfg_pyMsplinkGet s resp a :
  cfg (mdev (snd (fst (pyMsplinkGet s resp a)))) = cfg (mdev s).
Proof.
  unfold pyMsplinkGet.
  destruct (device_open (mdev s) =? 0); [reflexivity|].
  destruct a as [a|]; [|reflexivity].
  pose proof (cfg_msplink_clearRxBuffer s) as H1.
  destruct (msplink_clearRxBuffer s) as [retval s1]. cbn [snd] in H1.
  destruct (retval <? 0); [exact H1|]. cbv zeta.
  destruct (mspversion (mdev s1) =? 1).
  - destruct (get_cmd a >? 255); [exact H1|].
    match goal with |- context [send_V1 s1 ?c ?p ?l] =>
      pose proof (cfg_send_V1 s1 c p l) as H2;
      destruct (send_V1 s1 c p l) as [r2 s2] end.
    cbn [snd] in H2. destruct (r2 <? 0); [cbn [fst snd]; congruence|].
    pose proof (cfg_parse_packet s2 resp) as H3.
    destruct (parse_packet s2 resp) as [[r3 s3] resp3]. cbn [fst snd] in H3.
    destruct (r3 <? 0); cbn [fst snd]; congruence.
  - destruct (mspversion (mdev s1) =? 2); [|exact H1].
    match goal with |- context [send_V2 s1 ?f ?c ?p ?l] =>
      pose proof (cfg_send_V2 s1 f c p l) as H2;
      destruct (send_V2 s1 f c p l) as [r2 s2] end.
    cbn [snd] in H2. destruct (r2 <? 0); [cbn [fst snd]; congruence|].
    pose proof (cfg_parse_packet s2 resp) as H3.
    destruct (parse_packet s2 resp) as [[r3 s3] resp3]. cbn [fst snd] in H3.
    destruct (r3 <? 0); cbn [fst snd]; congruence.
Qed.

Lemma cfg_pyMsplinkSet s resp a :
  cfg (mdev (snd (fst (pyMsplinkSet s resp a)))) = cfg (mdev s).
Proof.
  unfold pyMsplinkSet.
  destruct (device_open (mdev s) =? 0); [reflexivity|].
  destruct a as [a|[|]]; [|reflexivity|reflexivity].
  destruct (negb (set_contiguous a)); [reflexivity|].
  pose proof (cfg_msplink_clearRxBuffer s) as H1.
  destruct (msplink_clearRxBuffer s) as [retval s1]. cbn [snd] in H1.
  destruct (retval <? 0); [exact H1|]. cbv zeta.
  destruct (mspversion (mdev s1) =? 1).
  - destruct (set_cmd a >? 255); [exact H1|].
    match goal with |- context [send_V1 s1 ?c ?p ?l] =>
      pose proof (cfg_send_V1 s1 c p l) as H2;
      destruct (send_V1 s1 c p l) as [r2 s2] end.
    cbn [snd] in H2. destruct (r2 <? 0); [cbn [fst snd]; congruence|].
    destruct (wait_for_ack a); [|cbn [fst snd]; congruence].
    pose proof (cfg_parse_packet s2 resp) as H3.
    destruct (parse_packet s2 resp) as [[r3 s3] resp3]. cbn [fst snd] in H3.
    destruct (r3 <? 0); cbn [fst snd]; congruence.
  - destruct (mspversion (mdev s1) =? 2); [|exact H1].
    match goal with |- context [send_V2 s1 ?f ?c ?p ?l] =>
      pose proof (cfg_send_V2 s1 f c p l) as H2;
      destruct (send_V2 s1 f c p l) as [r2 s2] end.
    cbn [snd] in H2. destruct (r2 <? 0); [cbn [fst snd]; congruence|].
    destruct (wait_for_ack a); [|cbn [fst snd]; congruence].
    pose proof (cfg_parse_packet s2 resp) as H3.
    destruct (parse_packet s2 resp) as [[r3 s3] resp3]. cbn [fst snd] in H3.
    destruct (r3 <? 0); cbn [fst snd]; congruence.
Qed.

Lemma handle_invariant_cfg d d' :
  cfg d' = cfg d -> handle_invariant d -> handle_invariant d'.
Proof.
  unfold cfg, handle_invariant. intros H Hi. injection H as Ho Hv Hr.
  rewrite Ho, Hv, Hr. exact Hi.
Qed.

(** The exceptions [throwError] and [throwPacketError] can set are not those
    of the [default:] branches. *)
Lemma throwError_not_bug d ret msg :
  (msg = "You found an msplink bug in pyMsplinkGet(). Please consider reporting it with example code on github!"
   \/ msg = "You found an msplink bug in pyMsplinkSet(). Please consider reporting it with example code on github!")%string ->
  throwError d ret <> Some (ErrString MspExc_Exception msg []).
Proof.
  intros Hmsg. unfold throwError.
  repeat match goal with |- context [if ?c then _ else _] => destruct c end;
    destruct Hmsg as [-> | ->]; discriminate.
Qed.

(** [packResponse] fails with UnicodeDecodeError only. *)
Lemma packResponse_error d rx e :
  packResponse d rx = inr e -> exists b, e = ErrDecode b.
Proof.
  unfold packResponse.
  destruct (negb (utf8_char (version rx)));
    [intros H; injection H as <-; eexists; reflexivity|].
  destruct (negb (utf8_char (direction rx)));
    [intros H; injection H as <-; eexists; reflexivity | discriminate].
Qed.

Lemma throwPacketError_not_bug d ret pkt msg :
  (msg = "You found an msplink bug in pyMsplinkGet(). Please consider reporting it with example code on github!"
   \/ msg = "You found an msplink bug in pyMsplinkSet(). Please consider reporting it with example code on github!")%string ->
  throwPacketError d ret pkt <> Some (ErrString MspExc_Exception msg []).
Proof.
  intros Hmsg. unfold throwPacketError.
  destruct (ret =? MSP_OK); [discriminate|].
  destruct (packResponse d pkt) as [p|e] eqn:E.
  - destruct (ret =? MSP_RX_CHECKSUM_MISMATCH); [discriminate|].
    destruct (ret =? MSP_RX_CLIENT_NACK); [discriminate|].
    now apply throwError_not_bug.
  - destruct (packResponse_error _ _ E) as [b ->].
    destruct (ret =? MSP_RX_CHECKSUM_MISMATCH); [discriminate|].
    destruct (ret =? MSP_RX_CLIENT_NACK); [discriminate|].
    now apply throwError_not_bug.
Qed.

Lemma version_known s :
  handle_invariant (mdev s) -> device_open (mdev s) = 1 ->
  forall s1, cfg (mdev s1) = cfg (mdev s) ->
  (mspversion (mdev s1) =? 1) = false -> (mspversion (mdev s1) =? 2) = false ->
  False.
Proof.
  intros Hi Ho s1 Hc H1 H2. destruct (Hi Ho) as [Hv _].
  unfold cfg in Hc. injection Hc as _ Hv' _. rewrite <- Hv' in Hv.
  apply Z.eqb_neq in H1, H2. lia.
Qed.

Lemma return_packet_not_string d rx ty msg args :
  return_packet d rx <> Py_NULL (Some (ErrString ty msg args)).
Proof.
  unfold return_packet. destruct (packResponse d rx) as [p|e] eqn:E; [discriminate|].
  destruct (packResponse_error _ _ E) as [b ->]. discriminate.
Qed.

Lemma pyMsplinkGet_not_bug s resp a :
  handle_invariant (mdev s) -> device_open (mdev s) = 1 ->
  fst (fst (pyMsplinkGet s resp a)) <> bug_in_get.
Proof.
  intros Hi Ho. unfold pyMsplinkGet, bug_in_get.
  destruct (device_open (mdev s) =? 0); [discriminate|].
  destruct a as [a|]; [|discriminate].
  pose proof (cfg_msplink_clearRxBuffer s) as H1.
  destruct (msplink_clearRxBuffer s) as [retval s1]. cbn [snd] in H1.
  destruct (retval <? 0).
  { cbn [fst]. intros H. injection H as H. revert H. apply throwError_not_bug. now left. }
  cbv zeta.
  destruct (mspversion (mdev s1) =? 1) eqn:E1.
  - destruct (get_cmd a >? 255); [discriminate|].
    destruct (send_V1 _ _ _ _) as [r2 s2].
    destruct (r2 <? 0).
    { cbn [fst]. intros H. injection H as H. revert H. apply throwError_not_bug. now left. }
    destruct (parse_packet s2 resp) as [[r3 s3] resp3].
    destruct (r3 <? 0); [|cbn [fst]; apply return_packet_not_string].
    cbn [fst]. intros H. injection H as H. revert H.
    apply throwPacketError_not_bug. now left.
  - destruct (mspversion (mdev s1) =? 2) eqn:E2.
    + destruct (send_V2 _ _ _ _ _) as [r2 s2].
      destruct (r2 <? 0).
      { cbn [fst]. intros H. injection H as H. revert H. apply throwError_not_bug. now left. }
      destruct (parse_packet s2 resp) as [[r3 s3] resp3].
      destruct (r3 <? 0); [|cbn [fst]; apply return_packet_not_string].
      cbn [fst]. intros H. injection H as H. revert H.
      apply throwPacketError_not_bug. now left.
    + exfalso. exact (version_known s Hi Ho s1 H1 E1 E2).
Qed.

Lemma pyMsplinkSet_not_bug s resp a :
  handle_invariant (mdev s) -> device_open (mdev s) = 1 ->
  fst (fst (pyMsplinkSet s resp a)) <> bug_in_set.
Proof.
  intros Hi Ho. unfold pyMsplinkSet, bug_in_set.
  destruct (device_open (mdev s) =? 0); [discriminate|].
  destruct a as [a|[|]]; [|discriminate|discriminate].
  destruct (negb (set_contiguous a)); [discriminate|].
  pose proof (cfg_msplink_clearRxBuffer s) as H1.
  destruct (msplink_clearRxBuffer s) as [retval s1]. cbn [snd] in H1.
  destruct (retval <? 0).
  { cbn [fst]. intros H. injection H as H. revert H. apply throwError_not_bug. now right. }
  cbv zeta.
  destruct (mspversion (mdev s1) =? 1) eqn:E1.
  - destruct (set_cmd a >? 255); [discriminate|].
    destruct (send_V1 _ _ _ _) as [r2 s2].
    destruct (r2 <? 0).
    { cbn [fst]. intros H. injection H as H. revert H. apply throwError_not_bug. now right. }
    destruct (wait_for_ack a); [|discriminate].
    destruct (parse_packet s2 resp) as [[r3 s3] resp3].
    destruct (r3 <? 0); [|cbn [fst]; apply return_packet_not_string].
    cbn [fst]. intros H. injection H as H. revert H.
    apply throwPacketError_not_bug. now right.
  - destruct (mspversion (mdev s1) =? 2) eqn:E2.
    + destruct (send_V2 _ _ _ _ _) as [r2 s2].
      destruct (r2 <? 0).
      { cbn [fst]. intros H. injection H as H. revert H. apply throwError_not_bug. now right. }
      destruct (wait_for_ack a); [|discriminate].
      destruct (parse_packet s2 resp) as [[r3 s3] resp3].
      destruct (r3 <? 0); [|cbn [fst]; apply return_packet_not_string].
      cbn [fst]. intros H. injection H as H. revert H.
      apply throwPacketError_not_bug. now right.
    + exfalso. exact (version_known s Hi Ho s1 H1 E1 E2).
Qed.

Lemma pyMsplinkOpen_guard s a m :
  device_open (mdev s) <> 0 ->
  pyMsplinkOpen s a m = (already_open, s).
Proof.
  intros Ho. unfold pyMsplinkOpen. zfalse (device_open (mdev s) =? 0).
  reflexivity.
Qed.

(** An open on a closed device: either it is rejected and the device stays
    closed, or it returns [None] with the device open and both fields
    validated. *)
Lemma pyMsplinkOpen_closed s a m :
  device_open (mdev s) = 0 ->
  let r := pyMsplinkOpen s a m in
  (rejected (fst r) /\ device_open (mdev (snd r)) = 0)
  \/ (fst r = Py_None /\ device_open (mdev (snd r)) = 1
      /\ (mspversion (mdev (snd r)) = 1 \/ mspversion (mdev (snd r)) = 2)
      /\ 1 <= read_retries (mdev (snd r))).
Proof.
  intros Ho r. subst r. unfold pyMsplinkOpen. rewrite Ho.
  change (negb (0 =? 0)) with false. cbv iota.
  pose proof (device_open_parse_open_args (mdev s) a) as Hp.
  destruct (parse_open_args (mdev s) a) as [[path|] d1]; cbn [snd] in Hp.
  2: { left. split; [exact I | cbn; congruence]. }
  destruct (negb m); [left; split; [exact I | cbn; congruence]|].
  cbv zeta.
  destruct (negb (mspversion (set_devname d1 (Some path)) =? 1)
            && negb (mspversion (set_devname d1 (Some path)) =? 2)) eqn:Ev;
    [left; split; [exact I | cbn; congruence]|].
  destruct (read_retries (set_devname d1 (Some path)) <=? 0) eqn:Er;
    [left; split; [exact I | cbn; congruence]|].
  pose proof (cfg_msplink_open (with_dev s (set_devname d1 (Some path)))) as Hc.
  destruct (msplink_open _) as [ret s3]. cbn [snd] in Hc.
  unfold cfg in Hc. cbn in Hc. injection Hc as Hco Hcv Hcr.
  destruct (ret <? 0).
  - left. split; [exact I|]. cbn [snd]. congruence.
  - right. cbn [fst snd]. split; [reflexivity|]. split; [reflexivity|].
    cbn. rewrite Hcv, Hcr. cbn in Ev, Er.
    apply Z.leb_gt in Er. split; [|lia].
    destruct (mspversion d1 =? 1) eqn:E1; [left; now apply Z.eqb_eq|].
    destruct (mspversion d1 =? 2) eqn:E2; [right; now apply Z.eqb_eq|].
    discriminate Ev.
Qed.

Lemma pyMsplinkClose_closes s :
  device_open (mdev (snd (pyMsplinkClose s))) = 0.
Proof.
  unfold pyMsplinkClose.
  match goal with |- context [msplink_close ?x] =>
    pose proof (cfg_msplink_close x) as Hc; destruct (msplink_close x) as [ret s2] end.
  cbn [snd] in Hc. unfold cfg in Hc. cbn in Hc. injection Hc as Ho _ _.
  destruct (ret <? 0); exact Ho.
Qed.

(** * The claims *)

(** ** Encode, then decode *)

(** C1 (as amended): on a receiving device that allows at least two read
    calls, for a V2 request with any flag, a 16-bit command and a payload of
    0 to 1023 bytes, and for a V1 request with an 8-bit command other than
    255 and a payload of 0 to 254 bytes, the bytes emitted by the encoder,
    fed to the packet parser, parse with [MSP_OK] into a packet with the
    version character of the encoder, direction '<', the flag (0 for V1),
    the command and the payload that were encoded, and the received
    checksum equal to the checksum the parser computes. *)
Theorem round_trip_encode_decode tx rx v f c (p : list Z) :
  2 <= read_retries (mdev rx) ->
  Z.of_nat (length p) <= 1023 ->
  (v = 1 /\ is_u8 c /\ c <> 255 /\ Z.of_nat (length p) <= 254)
  \/ (v = 2 /\ is_u16 c) ->
  round_trip tx rx v f c p.
Proof.
  intros Hr Hmax [(-> & Hc & Hc255 & Hlen) | (-> & Hc)]; unfold round_trip, send_version.
  - change (1 =? 1) with true. cbv iota.
    rewrite send_V1_feed by exact Hlen. split; [reflexivity|]. intros pkt.
    rewrite emitted_logged. cbn [app].
    rewrite parse_packet_feed_sync by exact Hr.
    change (chr "M") with MSP_V1.
    rewrite after_sync_feed_V1 by exact Hr.
    rewrite parse_V1_feed by (try assumption; try reflexivity; lia).
    assert (Hu : u8 (Z.lxor (Z.of_nat (length p)) c)
                 = checksum_xor [Z.of_nat (length p); c] 2 0).
    { cbn [checksum_xor]. rewrite Z.lxor_0_l. apply u8_small, lxor_is_u8.
      - unfold is_u8; lia.
      - exact Hc. }
    rewrite Hu, Z.eqb_refl. unfold verdict.
    change (MSP_OK <? 0) with false. cbv iota. pkt_simpl.
    change (chr "<" =? MSP_DIR_ERROR) with false. cbv iota.
    rewrite payload_bytes_stored. unfold parser_checksum. pkt_simpl.
    change (MSP_V1 =? MSP_V2) with false. cbv iota.
    zfalse (Z.of_nat (length p) >? 254).
    repeat split.
  - change (2 =? 1) with false. change (2 =? 2) with true. cbv iota.
    rewrite send_V2_feed. split; [reflexivity|]. intros pkt.
    rewrite emitted_logged. cbn [app].
    rewrite parse_packet_feed_sync by exact Hr.
    change (chr "X") with MSP_V2.
    rewrite after_sync_feed_V2 by exact Hr.
    assert (Hn : le16toh (le16_lo (Z.of_nat (length p))) (le16_hi (Z.of_nat (length p)))
                 = Z.of_nat (length p))
      by (apply le16_roundtrip; unfold is_u16; lia).
    rewrite parse_V2_feed by (try assumption; lia).
    rewrite Z.eqb_refl. unfold verdict.
    change (MSP_OK <? 0) with false. cbv iota. pkt_simpl.
    change (chr "<" =? MSP_DIR_ERROR) with false. cbv iota.
    rewrite payload_bytes_stored. unfold parser_checksum. pkt_simpl.
    change (MSP_V2 =? MSP_V2) with true. cbv iota.
    rewrite (le16_roundtrip Hc).
    repeat split.
Qed.

Lemma round_trip_encode_decode_witness :
  round_trip initial_state initial_state 1 0 200 [220; 5; 220; 5; 220; 5; 220; 5]
  /\ round_trip initial_state initial_state 2 7 8000 [1; 2; 3].
Proof.
  split.
  - apply round_trip_encode_decode.
    + vm_compute; discriminate.
    + vm_compute; discriminate.
    + left. unfold is_u8. repeat split; try lia. vm_compute; discriminate.
  - apply round_trip_encode_decode.
    + vm_compute; discriminate.
    + vm_compute; discriminate.
    + right. unfold is_u16. repeat split; lia.
Defined.

(** C1 (as stated) fails: the V1 request with command 255 and an empty
    payload goes out as [24 4D 3C 00 FF FF]; the parser takes command 255
    for a V2 frame tunneled in V1, asks for five more header bytes, of which
    one is left, and returns [MSP_RX_FAIL]. *)
Lemma round_trip_V1_command_255_fails :
  emitted (feed initial_state []) (send_V1 (feed initial_state []) 255 [] 0)
  = [0x24; 0x4D; 0x3C; 0x00; 0xFF; 0xFF]
  /\ fst (fst (parse_packet (feed initial_state [0x24; 0x4D; 0x3C; 0x00; 0xFF; 0xFF])
                            blank_packet)) = MSP_RX_FAIL
  /\ ~ round_trip initial_state initial_state 1 0 255 [].
Proof.
  split; [vm_compute; reflexivity|]. split; [vm_compute; reflexivity|].
  intros [_ H]. specialize (H blank_packet).
  vm_compute in H. destruct H as [H _]. discriminate H.
Qed.

(** ** The read retry loop *)

(** C2: a read of [n > 0] bytes on a device allowing [k + 1] read calls,
    where the line stays silent for [k] calls and the whole of the [n] bytes
    comes in with call [k + 1]: every byte is received and stored within the
    allowed calls, and [msplink_read] returns [MSP_RX_FAIL]. *)
Theorem msplink_read_delivery_on_last_call d k bs ws cs tx e :
  read_retries d = Z.of_nat (S k) ->
  bs <> [] ->
  msplink_read
    (State d (World [] (repeat (RdArrive []) k ++ [RdArrive bs]) ws cs tx e))
    (Z.of_nat (length bs))
  = (MSP_RX_FAIL, bs, State d (World [] [] ws cs tx e)).
Proof.
  intros Hr Hbs. unfold msplink_read. cbn [mdev]. rewrite Hr, Nat2Z.id.
  replace (S k) with (k + 1)%nat by lia.
  assert (Hpos : 0 < Z.of_nat (length bs))
    by (destruct bs; [congruence | simpl length; lia]).
  rewrite read_loop_idle by exact Hpos.
  cbn [read_loop]. unfold Sys.read. cbn [os reads rxq app writes ctls txlog errno].
  rewrite Nat2Z.id, firstn_all, skipn_all.
  zfalse (Z.of_nat (length bs) <? 0).
  zfalse (Z.of_nat (length bs) =? 0).
  reflexivity.
Qed.

Lemma msplink_read_delivery_on_last_call_witness :
  msplink_read
    (State (set_read_retries PyInit_msplink 1)
           (World [] [RdArrive [36]] [] [] [] 0)) 1
  = (MSP_RX_FAIL, [36],
     State (set_read_retries PyInit_msplink 1) (World [] [] [] [] [] 0)).
Proof.
  apply (@msplink_read_delivery_on_last_call
           (set_read_retries PyInit_msplink 1) 0 [36] [] [] [] 0).
  - reflexivity.
  - discriminate.
Defined.

(** ** The JUMBO checksum of the encoder *)

(** C3: for a V1 encode with an 8-bit command and a payload of more than 254
    bytes, [send_V1] emits the size byte 255, the command, the payload length
    in two little-endian bytes, the payload and one checksum byte; that
    checksum byte equals the XOR of the size byte as emitted (255), the
    command byte, the two length bytes and the payload exactly when the
    payload length is 255 modulo 256, and differs from it for every other
    length (300 among them). *)
Theorem send_V1_jumbo_checksum s q cmd p :
  is_u8 cmd ->
  254 < Z.of_nat (length p) < 65536 ->
  let lo := le16_lo (Z.of_nat (length p)) in
  let hi := le16_hi (Z.of_nat (length p)) in
  exists ck,
    emitted (feed s q) (send_V1 (feed s q) cmd p (Z.of_nat (length p)))
    = [SYNC; chr "M"; chr "<"; 255; cmd; lo; hi] ++ p ++ [ck]
    /\ (ck = checksum_xor ([255; cmd; lo; hi] ++ p)
                          (length ([255; cmd; lo; hi] ++ p)) 0
        <-> Z.of_nat (length p) mod 256 = 255).
Proof.
  intros Hcmd Hlen lo hi.
  rewrite send_V1_feed_jumbo by lia. rewrite emitted_logged.
  eexists. split; [reflexivity|].
  rewrite checksum_xor_app. cbn [checksum_xor length].
  rewrite (checksum_xor_seed p (length p) (Z.lxor _ _)).
  rewrite (checksum_xor_seed p (length p)
             (Z.lxor (Z.lxor (Z.lxor (Z.lxor 0 255) cmd) lo) hi)).
  rewrite u8_lxor by exact Hcmd.
  subst lo hi. unfold le16_lo. change (Z.lxor 0 255) with 255.
  split.
  - intros H. do 4 apply lxor_cancel_r in H. exact H.
  - intros H. rewrite H. reflexivity.
Qed.

Lemma send_V1_jumbo_checksum_witness :
  exists ck,
    emitted (feed (State PyInit_msplink (World [] [] [] [] [] 0)) [])
      (send_V1 (feed (State PyInit_msplink (World [] [] [] [] [] 0)) [])
               1 (repeat 0 300) (Z.of_nat (length (repeat 0 300))))
    = [SYNC; chr "M"; chr "<"; 255; 1;
       le16_lo (Z.of_nat (length (repeat 0 300)));
       le16_hi (Z.of_nat (length (repeat 0 300)))]
      ++ repeat 0 300 ++ [ck]
    /\ (ck = checksum_xor
               ([255; 1; le16_lo (Z.of_nat (length (repeat 0 300)));
                 le16_hi (Z.of_nat (length (repeat 0 300)))] ++ repeat 0 300)
               (length ([255; 1; le16_lo (Z.of_nat (length (repeat 0 300)));
                         le16_hi (Z.of_nat (length (repeat 0 300)))]
                        ++ repeat 0 300)) 0
        <-> Z.of_nat (length (repeat 0 300)) mod 256 = 255).
Proof.
  apply (@send_V1_jumbo_checksum
           (State PyInit_msplink (World [] [] [] [] [] 0)) [] 1 (repeat 0 300)).
  - unfold is_u8; lia.
  - rewrite repeat_length. lia.
Defined.

(** The scenario of the encoder documentation, evaluated: command 1 with a
    payload of 300 zero bytes goes out as [FF 01 2C 01], the payload and the
    checksum byte [00], while the XOR over [FF 01 2C 01] and the payload is
    [D3]; the parser answers such a frame with a checksum mismatch. *)
Example send_V1_jumbo_300 :
  let s := State PyInit_msplink (World [] [] [] [] [] 0) in
  let sent := emitted (feed s []) (send_V1 (feed s []) 1 (repeat 0 300) 300) in
  sent = [36; 77; 60; 255; 1; 44; 1] ++ repeat 0 300 ++ [0]
  /\ checksum_xor ([255; 1; 44; 1] ++ repeat 0 300) 304 0 = 211
  /\ fst (fst (parse_packet (feed s sent) (MspPacket 0 0 0 0 0 PtrUnset 0)))
     = MSP_RX_CHECKSUM_MISMATCH.
Proof. vm_compute. repeat split. Qed.

(** ** V2 tunneled in V1 *)

(** C4 (as amended): whenever the V1 header read carries command byte 255
    (after the two JUMBO length bytes when the size byte is 255), [parse_V1]
    hands the stream to [parse_V2] at once and returns its result; the V1 XOR
    checksum is never compared, and the bytes that follow the inner V2 frame,
    the trailing checksum byte of the V1 wrapper first among them, are not
    read: they stay in the input queue. *)
Theorem tunnel_skips_V1_checksum :
  (forall s pkt ret size s1,
     msplink_read s 2 = (ret, [size; 255], s1) -> 0 <= ret -> size <> 255 ->
     parse_V1 s pkt
     = parse_V2 s1 (MspPacket (version pkt) (direction pkt) 0 255 size
                              (payload pkt) (checksum pkt)))
  /\ (forall s pkt ret s1 ret' ll lh s2,
        msplink_read s 2 = (ret, [255; 255], s1) -> 0 <= ret ->
        msplink_read s1 2 = (ret', [ll; lh], s2) -> 0 <= ret' ->
        parse_V1 s pkt
        = parse_V2 s2 (MspPacket (version pkt) (direction pkt) 0 255
                                 (le16toh ll lh) (payload pkt) (checksum pkt)))
  /\ (forall s pkt d size f cl ch ll lh (p : list Z) k tail,
        2 <= read_retries (mdev s) ->
        size <> 255 ->
        le16toh ll lh = Z.of_nat (length p) -> Z.of_nat (length p) <= 1023 ->
        let r := parse_packet
                   (feed s (SYNC :: MSP_V1 :: d :: size :: 255
                            :: f :: cl :: ch :: ll :: lh :: p ++ k :: tail)) pkt in
        left_in_queue r = tail
        /\ fst (fst r)
           = (if k =? checksum_crc8_dvb_s2 p (length p)
                        (checksum_crc8_dvb_s2 [f; cl; ch; ll; lh] 5 0)
              then if d =? MSP_DIR_ERROR then MSP_RX_CLIENT_NACK else MSP_OK
              else MSP_RX_CHECKSUM_MISMATCH))
  /\ (forall s pkt d jl jh f cl ch ll lh (p : list Z) k tail,
        2 <= read_retries (mdev s) ->
        le16toh ll lh = Z.of_nat (length p) -> Z.of_nat (length p) <= 1023 ->
        let r := parse_packet
                   (feed s (SYNC :: MSP_V1 :: d :: 255 :: 255 :: jl :: jh
                            :: f :: cl :: ch :: ll :: lh :: p ++ k :: tail)) pkt in
        left_in_queue r = tail
        /\ fst (fst r)
           = (if k =? checksum_crc8_dvb_s2 p (length p)
                        (checksum_crc8_dvb_s2 [f; cl; ch; ll; lh] 5 0)
              then if d =? MSP_DIR_ERROR then MSP_RX_CLIENT_NACK else MSP_OK
              else MSP_RX_CHECKSUM_MISMATCH)).
Proof.
  split; [|split; [|split]].
  - intros s pkt ret size s1 Hrd Hret Hsize. unfold parse_V1. rewrite Hrd.
    zfalse (ret <? 0). pkt_simpl. zfalse (size =? 255).
    now apply parse_V1_tail_tunnel.
  - intros s pkt ret s1 ret' ll lh s2 Hrd Hret Hrd' Hret'.
    unfold parse_V1. rewrite Hrd.
    zfalse (ret <? 0). pkt_simpl. change (255 =? 255) with true. cbv iota.
    rewrite Hrd'. zfalse (ret' <? 0). pkt_simpl.
    now apply parse_V1_tail_tunnel.
  - intros s pkt d size f cl ch ll lh p k tail Hr Hsize Hlen Hmax r.
    subst r. rewrite parse_packet_feed_tunnel by assumption.
    unfold left_in_queue.
    rewrite (proj1 (verdict_parts _ _ _)). split; [reflexivity|].
    destruct (k =? _); unfold verdict; [|reflexivity].
    change (MSP_OK <? 0) with false. cbv iota. pkt_simpl.
    destruct (d =? MSP_DIR_ERROR); reflexivity.
  - intros s pkt d jl jh f cl ch ll lh p k tail Hr Hlen Hmax r.
    subst r. rewrite parse_packet_feed_jumbo_tunnel by assumption.
    unfold left_in_queue.
    rewrite (proj1 (verdict_parts _ _ _)). split; [reflexivity|].
    destruct (k =? _); unfold verdict; [|reflexivity].
    change (MSP_OK <? 0) with false. cbv iota. pkt_simpl.
    destruct (d =? MSP_DIR_ERROR); reflexivity.
Qed.

Lemma tunnel_skips_V1_checksum_witness :
  let r := parse_packet
             (feed initial_state
                   (SYNC :: MSP_V1 :: MSP_DIR_TOHOST :: 10 :: 255
                    :: 0 :: 64 :: 31 :: 4 :: 0 :: [1; 2; 3; 4] ++ 92 :: [153]))
             blank_packet in
  left_in_queue r = [153]
  /\ fst (fst r)
     = (if 92 =? checksum_crc8_dvb_s2 [1; 2; 3; 4] (length [1; 2; 3; 4])
                   (checksum_crc8_dvb_s2 [0; 64; 31; 4; 0] 5 0)
        then if MSP_DIR_TOHOST =? MSP_DIR_ERROR then MSP_RX_CLIENT_NACK else MSP_OK
        else MSP_RX_CHECKSUM_MISMATCH).
Proof.
  apply (proj1 (proj2 (proj2 tunnel_skips_V1_checksum))).
  - vm_compute; discriminate.
  - discriminate.
  - reflexivity.
  - vm_compute; discriminate.
Defined.

(** C4 (as stated) fails: on the input [24 4D 3E 0A FF], the ten bytes of the
    inner V2 frame [00 40 1F 04 00 01 02 03 04 5C], and the V1 checksum [99],
    the parse succeeds and the V1 checksum byte is still in the input queue:
    it was not consumed. *)
Lemma tunnel_wrapper_checksum_not_consumed :
  let r := parse_packet
             (feed initial_state
                   [0x24; 0x4D; 0x3E; 0x0A; 0xFF;
                    0x00; 0x40; 0x1F; 0x04; 0x00; 0x01; 0x02; 0x03; 0x04; 0x5C;
                    0x99])
             blank_packet in
  fst (fst r) = MSP_OK
  /\ left_in_queue r = [0x99]
  /\ left_in_queue r <> [].
Proof. vm_compute. repeat split. discriminate. Qed.

(** ** Sync search *)

(** C5: [k] bytes other than '$' before a valid frame.  On a device that
    allows at least two read calls the sync search succeeds on the '$' of
    the frame whenever [k <= 49], and the frame is parsed: what follows the
    '$' is parsed exactly as when the frame stands alone, and a plain V1
    frame and a V2 frame with matching checksum come out as the packet they
    carry, direction, flag, command, size, payload and checksum byte, with
    [MSP_OK] (or [MSP_RX_CLIENT_NACK] for direction '!'); and once 50 bytes
    other than '$' have been consumed the decoder returns
    [MSP_RX_SYNC_NOT_FOUND], whatever follows.  On a device that allows one
    read call no read succeeds and the decoder returns
    [MSP_RX_SYNC_NOT_FOUND] after taking one byte, whatever is queued, a
    valid frame with no byte before it included. *)
Theorem sync_search_bound :
  (forall s pkt (junk rest : list Z),
     2 <= read_retries (mdev s) ->
     Forall (fun b => b <> SYNC) junk ->
     ((length junk <= 49)%nat ->
        get_sync (feed s (junk ++ SYNC :: rest)) = (MSP_OK, feed s rest)
        /\ parse_packet (feed s (junk ++ SYNC :: rest)) pkt
           = parse_packet (feed s (SYNC :: rest)) pkt)
     /\ ((50 <= length junk)%nat ->
           get_sync (feed s (junk ++ rest))
           = (MSP_RX_SYNC_NOT_FOUND, feed s (skipn 50 junk ++ rest))
           /\ parse_packet (feed s (junk ++ rest)) pkt
              = (MSP_RX_SYNC_NOT_FOUND, feed s (skipn 50 junk ++ rest), pkt)))
  /\ (forall s pkt (junk : list Z) d c (p rest : list Z),
        2 <= read_retries (mdev s) ->
        Forall (fun b => b <> SYNC) junk -> (length junk <= 49)%nat ->
        c <> 255 -> Z.of_nat (length p) <= 254 ->
        let k := checksum_xor p (length p)
                   (checksum_xor [Z.of_nat (length p); c] 2 0) in
        let r := parse_packet
                   (feed s (junk ++ SYNC :: MSP_V1 :: d :: Z.of_nat (length p) :: c
                                 :: p ++ k :: rest)) pkt in
        r = (if d =? MSP_DIR_ERROR then MSP_RX_CLIENT_NACK else MSP_OK,
             feed (store_buf (p ++ [k]) s) rest,
             MspPacket MSP_V1 d 0 c (Z.of_nat (length p)) PtrDevBuf k)
        /\ payload_bytes (mdev (snd (fst r))) (snd r) = p)
  /\ (forall s pkt (junk : list Z) d f cl ch ll lh (p rest : list Z),
        2 <= read_retries (mdev s) ->
        Forall (fun b => b <> SYNC) junk -> (length junk <= 49)%nat ->
        le16toh ll lh = Z.of_nat (length p) -> Z.of_nat (length p) <= 1023 ->
        let k := checksum_crc8_dvb_s2 p (length p)
                   (checksum_crc8_dvb_s2 [f; cl; ch; ll; lh] 5 0) in
        let r := parse_packet
                   (feed s (junk ++ SYNC :: MSP_V2 :: d :: f :: cl :: ch :: ll :: lh
                                 :: p ++ k :: rest)) pkt in
        r = (if d =? MSP_DIR_ERROR then MSP_RX_CLIENT_NACK else MSP_OK,
             feed (store_buf (p ++ [k]) s) rest,
             MspPacket MSP_V2 d f (le16toh cl ch) (Z.of_nat (length p)) PtrDevBuf k)
        /\ payload_bytes (mdev (snd (fst r))) (snd r) = p)
  /\ (forall s pkt (q : list Z),
        read_retries (mdev s) = 1 ->
        parse_packet (feed s q) pkt
        = (MSP_RX_SYNC_NOT_FOUND, feed s (skipn 1 q), pkt)).
Proof.
  assert (Hfound : forall s (junk rest : list Z),
            2 <= read_retries (mdev s) ->
            Forall (fun b => b <> SYNC) junk -> (length junk <= 49)%nat ->
            get_sync (feed s (junk ++ SYNC :: rest)) = (MSP_OK, feed s rest)).
  { intros s junk rest Hr Hj Hk. unfold get_sync, MAX_SYNC_SEARCH_BYTES.
    replace 50%nat with (length junk + S (49 - length junk))%nat by lia.
    rewrite get_sync_loop_skip by assumption.
    now apply get_sync_loop_found. }
  assert (Hskip : forall s pkt (junk rest : list Z),
            2 <= read_retries (mdev s) ->
            Forall (fun b => b <> SYNC) junk -> (length junk <= 49)%nat ->
            parse_packet (feed s (junk ++ SYNC :: rest)) pkt
            = parse_packet (feed s (SYNC :: rest)) pkt).
  { intros s pkt junk rest Hr Hj Hk.
    unfold parse_packet. rewrite !waituntilsent_feed.
    change (MSP_OK <? 0) with false. cbv iota.
    rewrite Hfound, get_sync_feed by assumption. reflexivity. }
  split; [|split; [|split]].
  - intros s pkt junk rest Hr Hj. split.
    + intros Hk. split; [now apply Hfound | now apply Hskip].
    + intros Hk.
      assert (Hs : get_sync (feed s (junk ++ rest))
                   = (MSP_RX_SYNC_NOT_FOUND, feed s (skipn 50 junk ++ rest))).
      { unfold get_sync, MAX_SYNC_SEARCH_BYTES.
        rewrite <- (firstn_skipn 50 junk) at 1. rewrite <- app_assoc.
        assert (Hl : length (firstn 50 junk) = 50%nat)
          by (rewrite length_firstn; lia).
        replace 50%nat with (length (firstn 50 junk) + 0)%nat at 1 by lia.
        rewrite get_sync_loop_skip; [reflexivity | exact Hr |].
        rewrite <- (firstn_skipn 50 junk) in Hj.
        apply Forall_app in Hj. exact (proj1 Hj). }
      split; [exact Hs|].
      unfold parse_packet. rewrite waituntilsent_feed.
      change (MSP_OK <? 0) with false. cbv iota.
      rewrite Hs. reflexivity.
  - intros s pkt junk d c p rest Hr Hj Hk Hc Hn k r. subst r.
    rewrite Hskip by assumption.
    rewrite parse_packet_feed_V1 by assumption.
    fold k. rewrite Z.eqb_refl, verdict_ok. pkt_simpl.
    split; [reflexivity|]. cbn [fst snd]. apply payload_bytes_stored.
  - intros s pkt junk d f cl ch ll lh p rest Hr Hj Hk Hl Hn k r. subst r.
    rewrite Hskip by assumption.
    rewrite parse_packet_feed_V2 by assumption.
    fold k. rewrite Z.eqb_refl, verdict_ok. pkt_simpl.
    split; [reflexivity|]. cbn [fst snd]. apply payload_bytes_stored.
  - intros s pkt q Hr. now apply parse_packet_feed_one_call.
Qed.

Lemma sync_search_bound_witness :
  (let r := parse_packet
              (feed initial_state
                    (repeat 0 49 ++ SYNC :: MSP_V1 :: 62 :: Z.of_nat (length [7; 9]) :: 108
                                 :: [7; 9] ++ 96 :: [])) blank_packet in
   r = (MSP_OK, feed (store_buf ([7; 9] ++ [96]) initial_state) [],
        MspPacket MSP_V1 62 0 108 2 PtrDevBuf 96)
   /\ payload_bytes (mdev (snd (fst r))) (snd r) = [7; 9])
  /\ parse_packet (feed initial_state (repeat 0 50 ++ SYNC :: [77; 62; 0; 108; 108]))
                  blank_packet
     = (MSP_RX_SYNC_NOT_FOUND,
        feed initial_state (skipn 50 (repeat 0 50) ++ SYNC :: [77; 62; 0; 108; 108]),
        blank_packet)
  /\ parse_packet
       (feed (State (set_read_retries PyInit_msplink 1) quiet_world)
             [36; 77; 62; 0; 108; 108]) blank_packet
     = (MSP_RX_SYNC_NOT_FOUND,
        feed (State (set_read_retries PyInit_msplink 1) quiet_world)
             (skipn 1 [36; 77; 62; 0; 108; 108]),
        blank_packet).
Proof.
  destruct sync_search_bound as (H1 & H2 & _ & H4).
  assert (Hj : forall n, Forall (fun b => b <> SYNC) (repeat 0 n)).
  { intros n. apply Forall_forall. intros x Hx. apply repeat_spec in Hx.
    subst x. discriminate. }
  split; [|split].
  - apply (H2 initial_state blank_packet (repeat 0 49) 62 108 [7; 9] []).
    + vm_compute; discriminate.
    + apply Hj.
    + vm_compute. lia.
    + discriminate.
    + vm_compute; discriminate.
  - apply (H1 initial_state blank_packet (repeat 0 50)).
    + vm_compute; discriminate.
    + apply Hj.
    + vm_compute. lia.
  - apply H4. reflexivity.
Defined.

(** A response frame after 49 bytes of noise parses with [MSP_OK]; after 50
    bytes the sync search gives up. *)
Example sync_after_49_bytes :
  fst (fst (parse_packet
              (feed initial_state (repeat 0 49 ++ [36; 77; 62; 0; 108; 108]))
              blank_packet)) = MSP_OK
  /\ fst (fst (parse_packet
                 (feed initial_state (repeat 0 50 ++ [36; 77; 62; 0; 108; 108]))
                 blank_packet)) = MSP_RX_SYNC_NOT_FOUND.
Proof. vm_compute. split; reflexivity. Qed.

(** ** The JUMBO boundary *)

(** C6: [send_V1] emits every payload of at most 254 bytes with its length
    as the literal size byte, and every payload of 255 bytes or more as
    JUMBO (size byte 255, then the true length in two little-endian bytes);
    the parsers accept every declared payload size up to 1023 (the body is
    read into the buffer and only the checksum decides the result) and
    return [MSP_OUT_OF_MEMORY] for every declared size of 1024 or more, in
    the V1 body path and in the V2 body path. *)
Theorem jumbo_boundary :
  (forall s q cmd (p : list Z),
     Z.of_nat (length p) <= 254 ->
     exists ck,
       emitted (feed s q) (send_V1 (feed s q) cmd p (Z.of_nat (length p)))
       = [SYNC; chr "M"; chr "<"; Z.of_nat (length p); cmd] ++ p ++ [ck])
  /\ (forall s q cmd (p : list Z),
        255 <= Z.of_nat (length p) < 65536 ->
        exists lo hi ck,
          emitted (feed s q) (send_V1 (feed s q) cmd p (Z.of_nat (length p)))
          = [SYNC; chr "M"; chr "<"; 255; cmd; lo; hi] ++ p ++ [ck]
          /\ le16toh lo hi = Z.of_nat (length p))
  /\ (forall s pkt size cmd (p : list Z) k rest,
        2 <= read_retries (mdev s) ->
        size <> 255 -> cmd <> 255 ->
        size = Z.of_nat (length p) -> size <= 1023 ->
        exists ret s' r,
          parse_V1 (feed s (size :: cmd :: p ++ k :: rest)) pkt = (ret, s', r)
          /\ (ret = MSP_OK \/ ret = MSP_RX_CHECKSUM_MISMATCH)
          /\ payload_size r = size /\ payload_bytes (mdev s') r = p)
  /\ (forall s pkt cmd ll lh (p : list Z) k rest,
        2 <= read_retries (mdev s) ->
        cmd <> 255 ->
        le16toh ll lh = Z.of_nat (length p) -> le16toh ll lh <= 1023 ->
        exists ret s' r,
          parse_V1 (feed s (255 :: cmd :: ll :: lh :: p ++ k :: rest)) pkt
          = (ret, s', r)
          /\ (ret = MSP_OK \/ ret = MSP_RX_CHECKSUM_MISMATCH)
          /\ payload_size r = le16toh ll lh /\ payload_bytes (mdev s') r = p)
  /\ (forall s pkt cmd ll lh rest,
        2 <= read_retries (mdev s) ->
        cmd <> 255 ->
        1024 <= le16toh ll lh ->
        fst (fst (parse_V1 (feed s (255 :: cmd :: ll :: lh :: rest)) pkt))
        = MSP_OUT_OF_MEMORY)
  /\ (forall s pkt f cl ch ll lh (p : list Z) k rest,
        2 <= read_retries (mdev s) ->
        le16toh ll lh = Z.of_nat (length p) -> le16toh ll lh <= 1023 ->
        exists ret s' r,
          parse_V2 (feed s (f :: cl :: ch :: ll :: lh :: p ++ k :: rest)) pkt
          = (ret, s', r)
          /\ (ret = MSP_OK \/ ret = MSP_RX_CHECKSUM_MISMATCH)
          /\ payload_size r = le16toh ll lh /\ payload_bytes (mdev s') r = p)
  /\ (forall s pkt f cl ch ll lh rest,
        2 <= read_retries (mdev s) ->
        1024 <= le16toh ll lh ->
        fst (fst (parse_V2 (feed s (f :: cl :: ch :: ll :: lh :: rest)) pkt))
        = MSP_OUT_OF_MEMORY).
Proof.
  repeat match goal with |- _ /\ _ => split end.
  - intros s q cmd p Hlen.
    rewrite send_V1_feed by exact Hlen. rewrite emitted_logged.
    eexists; reflexivity.
  - intros s q cmd p Hlen.
    rewrite send_V1_feed_jumbo by lia. rewrite emitted_logged.
    do 3 eexists. split; [reflexivity|].
    apply le16_roundtrip. unfold is_u16; lia.
  - intros s pkt size cmd p k rest Hr Hsize Hcmd Hlen Hmax.
    rewrite parse_V1_feed by (try assumption; lia).
    do 3 eexists. split; [reflexivity|].
    split; [destruct (k =? _); auto|].
    split; [reflexivity|]. subst size. apply payload_bytes_stored.
  - intros s pkt cmd ll lh p k rest Hr Hcmd Hlen Hmax.
    rewrite parse_V1_feed_jumbo by (try assumption; lia).
    do 3 eexists. split; [reflexivity|].
    split; [destruct (k =? _); auto|].
    split; [reflexivity|]. rewrite Hlen. apply payload_bytes_stored.
  - intros s pkt cmd ll lh rest Hr Hcmd Hbig.
    now rewrite parse_V1_feed_jumbo_too_big.
  - intros s pkt f cl ch ll lh p k rest Hr Hlen Hmax.
    rewrite parse_V2_feed by (try assumption; lia).
    do 3 eexists. split; [reflexivity|].
    split; [destruct (k =? _); auto|].
    split; [now rewrite Hlen|]. apply payload_bytes_stored.
  - intros s pkt f cl ch ll lh rest Hr Hbig.
    now rewrite parse_V2_feed_too_big.
Qed.

Lemma jumbo_boundary_witness :
  (exists ck,
     emitted (feed initial_state [])
       (send_V1 (feed initial_state []) 1 (repeat 0 254)
                (Z.of_nat (length (repeat 0 254))))
     = [SYNC; chr "M"; chr "<"; Z.of_nat (length (repeat 0 254)); 1]
       ++ repeat 0 254 ++ [ck])
  /\ (exists lo hi ck,
        emitted (feed initial_state [])
          (send_V1 (feed initial_state []) 1 (repeat 0 255)
                   (Z.of_nat (length (repeat 0 255))))
        = [SYNC; chr "M"; chr "<"; 255; 1; lo; hi] ++ repeat 0 255 ++ [ck]
        /\ le16toh lo hi = Z.of_nat (length (repeat 0 255)))
  /\ (exists ret s' r,
        parse_V1 (feed initial_state (255 :: 1 :: 255 :: 3 :: repeat 0 1023 ++ 0 :: []))
                 blank_packet = (ret, s', r)
        /\ (ret = MSP_OK \/ ret = MSP_RX_CHECKSUM_MISMATCH)
        /\ payload_size r = le16toh 255 3
        /\ payload_bytes (mdev s') r = repeat 0 1023)
  /\ fst (fst (parse_V1 (feed initial_state (255 :: 1 :: 0 :: 4 :: [])) blank_packet))
     = MSP_OUT_OF_MEMORY
  /\ fst (fst (parse_V2 (feed initial_state (0 :: 1 :: 0 :: 0 :: 4 :: [])) blank_packet))
     = MSP_OUT_OF_MEMORY.
Proof.
  destruct jumbo_boundary as (Hplain & Hjumbo & _ & Haccept & Hreject1 & _ & Hreject2).
  split; [|split; [|split; [|split]]].
  - apply Hplain. vm_compute; discriminate.
  - apply Hjumbo. vm_compute. split; [discriminate | reflexivity].
  - apply Haccept.
    + vm_compute; discriminate.
    + discriminate.
    + vm_compute; reflexivity.
    + vm_compute; discriminate.
  - apply Hreject1.
    + vm_compute; discriminate.
    + discriminate.
    + vm_compute; discriminate.
  - apply Hreject2.
    + vm_compute; discriminate.
    + vm_compute; discriminate.
Defined.

(** ** NACK *)

(** C7: whatever the input, when the output has drained, the sync search
    succeeds, the two header bytes arrive with a known version character and
    the parser of that version returns [MSP_OK] (checksum valid), then
    [parse_packet] returns [MSP_RX_CLIENT_NACK] if the direction byte is '!'
    and [MSP_OK] otherwise, with the decoded packet in both cases, and for
    the NACK the transaction layer raises [msplink.NACK] carrying version,
    direction, flag (None for V1), command, payload and checksum of that
    packet.  For a plain V1 frame and a V2 frame with matching checksum,
    whole on the line of a device that allows two read calls, the packet is
    the one the frame carries: with direction '!' the result is
    [MSP_RX_CLIENT_NACK] and [msplink.NACK] carries the command, the payload
    bytes and the checksum byte of the frame; with another direction the
    result is [MSP_OK] with the same packet.  In particular
    [24 4D 21 00 6C 6C] parses as a V1 packet and surfaces as NACK, from
    [parse_packet] and from [get]. *)
Theorem nack_after_successful_parse :
  (forall s pkt s1 s2 s3 v d s4 r,
     msplink_waituntilsent s = (MSP_OK, s1) ->
     get_sync s1 = (MSP_OK, s2) ->
     msplink_read s2 2 = (2, [v; d], s3) ->
     (v = MSP_V1
      /\ parse_V1 s3 (set_direction (set_version pkt v) d) = (MSP_OK, s4, r))
     \/ (v = MSP_V2
         /\ parse_V2 s3 (set_direction (set_version pkt v) d) = (MSP_OK, s4, r)) ->
     version r = v /\ direction r = d
     /\ (d = MSP_DIR_ERROR ->
           parse_packet s pkt = (MSP_RX_CLIENT_NACK, s4, r)
           /\ throwPacketError (mdev s4) MSP_RX_CLIENT_NACK r
              = Some (ErrObject MspExc_NACK
                        (PyPacket v MSP_DIR_ERROR
                           (if v =? MSP_V2 then Some (flag r) else None)
                           (function r) (payload_bytes (mdev s4) r) (checksum r))))
     /\ (d <> MSP_DIR_ERROR -> parse_packet s pkt = (MSP_OK, s4, r)))
  /\ (forall s pkt d c (p rest : list Z),
        2 <= read_retries (mdev s) ->
        c <> 255 -> Z.of_nat (length p) <= 254 ->
        let k := checksum_xor p (length p)
                   (checksum_xor [Z.of_nat (length p); c] 2 0) in
        let r := parse_packet
                   (feed s (SYNC :: MSP_V1 :: d :: Z.of_nat (length p) :: c
                            :: p ++ k :: rest)) pkt in
        snd r = MspPacket MSP_V1 d 0 c (Z.of_nat (length p)) PtrDevBuf k
        /\ payload_bytes (mdev (snd (fst r))) (snd r) = p
        /\ (d = MSP_DIR_ERROR ->
              fst (fst r) = MSP_RX_CLIENT_NACK
              /\ throwPacketError (mdev (snd (fst r))) (fst (fst r)) (snd r)
                 = Some (ErrObject MspExc_NACK
                           (PyPacket MSP_V1 MSP_DIR_ERROR None c p k)))
        /\ (d <> MSP_DIR_ERROR -> fst (fst r) = MSP_OK))
  /\ (forall s pkt d f cl ch ll lh (p rest : list Z),
        2 <= read_retries (mdev s) ->
        le16toh ll lh = Z.of_nat (length p) -> Z.of_nat (length p) <= 1023 ->
        let k := checksum_crc8_dvb_s2 p (length p)
                   (checksum_crc8_dvb_s2 [f; cl; ch; ll; lh] 5 0) in
        let r := parse_packet
                   (feed s (SYNC :: MSP_V2 :: d :: f :: cl :: ch :: ll :: lh
                            :: p ++ k :: rest)) pkt in
        snd r = MspPacket MSP_V2 d f (le16toh cl ch) (Z.of_nat (length p)) PtrDevBuf k
        /\ payload_bytes (mdev (snd (fst r))) (snd r) = p
        /\ (d = MSP_DIR_ERROR ->
              fst (fst r) = MSP_RX_CLIENT_NACK
              /\ throwPacketError (mdev (snd (fst r))) (fst (fst r)) (snd r)
                 = Some (ErrObject MspExc_NACK
                           (PyPacket MSP_V2 MSP_DIR_ERROR (Some f) (le16toh cl ch) p k)))
        /\ (d <> MSP_DIR_ERROR -> fst (fst r) = MSP_OK))
  /\ (let r := parse_packet (feed initial_state [0x24; 0x4D; 0x21; 0x00; 0x6C; 0x6C])
                            blank_packet in
      fst (fst r) = MSP_RX_CLIENT_NACK
      /\ snd r = MspPacket MSP_V1 MSP_DIR_ERROR 0 0x6C 0 PtrDevBuf 0x6C
      /\ left_in_queue r = [])
  /\ (let opened :=
        State (set_device_open PyInit_msplink 1)
              (World [] [RdArrive [0x24; 0x4D; 0x21; 0x00; 0x6C; 0x6C]] [] [] [] 0) in
      fst (fst (pyMsplinkGet opened blank_packet (Some (GetArgs 0x6C 0))))
      = Py_NULL (Some (ErrObject MspExc_NACK
                         (PyPacket MSP_V1 MSP_DIR_ERROR None 0x6C [] 0x6C)))).
Proof.
  split; [|split; [|split; [|split]]].
  - intros s pkt s1 s2 s3 v d s4 r Hw Hs Hrd Hp.
    assert (Hkeep : version r = v /\ direction r = d).
    { destruct Hp as [[-> Hp] | [-> Hp]].
      - pose proof (parse_V1_keeps_header s3
                      (set_direction (set_version pkt MSP_V1) d)) as H.
        rewrite Hp in H. exact H.
      - pose proof (parse_V2_keeps_header s3
                      (set_direction (set_version pkt MSP_V2) d)) as H.
        rewrite Hp in H. exact H. }
    destruct Hkeep as [Hv Hd].
    assert (Hpp : parse_packet s pkt
                  = if d =? MSP_DIR_ERROR then (MSP_RX_CLIENT_NACK, s4, r)
                    else (MSP_OK, s4, r)).
    { unfold parse_packet. rewrite Hw. change (MSP_OK <? 0) with false. cbv iota.
      rewrite Hs. change (MSP_OK <? 0) with false. cbv iota.
      rewrite Hrd. change (2 <? 0) with false. cbv iota. pkt_simpl.
      destruct Hp as [[-> Hp] | [-> Hp]].
      - change (MSP_V1 =? MSP_V1) with true. cbv iota. rewrite Hp.
        change (MSP_OK <? 0) with false. cbv iota. rewrite Hd. reflexivity.
      - change (MSP_V2 =? MSP_V1) with false.
        change (MSP_V2 =? MSP_V2) with true. cbv iota. rewrite Hp.
        change (MSP_OK <? 0) with false. cbv iota. rewrite Hd. reflexivity. }
    split; [exact Hv|]. split; [exact Hd|]. split.
    + intros Hnack. rewrite Hpp, Hnack. split; [reflexivity|].
      unfold throwPacketError, packResponse. rewrite Hv, Hd, Hnack.
      change (MSP_RX_CLIENT_NACK =? MSP_OK) with false.
      change (MSP_RX_CLIENT_NACK =? MSP_RX_CHECKSUM_MISMATCH) with false.
      change (MSP_RX_CLIENT_NACK =? MSP_RX_CLIENT_NACK) with true. cbv iota.
      destruct Hp as [[-> _] | [-> _]]; reflexivity.
    + intros Hne. rewrite Hpp. zfalse (d =? MSP_DIR_ERROR). reflexivity.
  - intros s pkt d c p rest Hr Hc Hn k r. subst r.
    rewrite parse_packet_feed_V1 by assumption.
    fold k. rewrite Z.eqb_refl, verdict_ok. pkt_simpl. cbn [fst snd].
    split; [reflexivity|]. split; [apply payload_bytes_stored|]. split.
    + intros ->. change (MSP_DIR_ERROR =? MSP_DIR_ERROR) with true. cbv iota.
      split; [reflexivity|].
      unfold throwPacketError, packResponse. pkt_simpl.
      rewrite payload_bytes_stored. reflexivity.
    + intros Hd. zfalse (d =? MSP_DIR_ERROR). reflexivity.
  - intros s pkt d f cl ch ll lh p rest Hr Hl Hn k r. subst r.
    rewrite parse_packet_feed_V2 by assumption.
    fold k. rewrite Z.eqb_refl, verdict_ok. pkt_simpl. cbn [fst snd].
    split; [reflexivity|]. split; [apply payload_bytes_stored|]. split.
    + intros ->. change (MSP_DIR_ERROR =? MSP_DIR_ERROR) with true. cbv iota.
      split; [reflexivity|].
      unfold throwPacketError, packResponse. pkt_simpl.
      rewrite payload_bytes_stored. reflexivity.
    + intros Hd. zfalse (d =? MSP_DIR_ERROR). reflexivity.
  - vm_compute. repeat split.
  - vm_compute. reflexivity.
Qed.

Lemma nack_after_successful_parse_witness :
  let r := parse_packet
             (feed initial_state
                   (SYNC :: MSP_V1 :: MSP_DIR_ERROR :: Z.of_nat (length [7; 9]) :: 108
                    :: [7; 9] ++ 96 :: [])) blank_packet in
  snd r = MspPacket MSP_V1 MSP_DIR_ERROR 0 108 2 PtrDevBuf 96
  /\ payload_bytes (mdev (snd (fst r))) (snd r) = [7; 9]
  /\ (MSP_DIR_ERROR = MSP_DIR_ERROR ->
        fst (fst r) = MSP_RX_CLIENT_NACK
        /\ throwPacketError (mdev (snd (fst r))) (fst (fst r)) (snd r)
           = Some (ErrObject MspExc_NACK
                     (PyPacket MSP_V1 MSP_DIR_ERROR None 108 [7; 9] 96)))
  /\ (MSP_DIR_ERROR <> MSP_DIR_ERROR -> fst (fst r) = MSP_OK).
Proof.
  apply (proj1 (proj2 nack_after_successful_parse)
           initial_state blank_packet MSP_DIR_ERROR 108 [7; 9] []).
  - vm_compute; discriminate.
  - discriminate.
  - vm_compute; discriminate.
Defined.

(** ** Chaining through the seed *)

(** C8: for all byte sequences [a], [b] and every seed [s], the checksum of
    [a ++ b] from [s] is the checksum of [b] from the checksum of [a] from
    [s], for [checksum_xor] and for [checksum_crc8_dvb_s2]; hence the value
    on a fixed input does not depend on how the input is cut into chunks
    chained through the seed. *)
Theorem checksum_seed_chaining :
  (forall (a b : list Z) (s : Z),
     checksum_xor (a ++ b) (length (a ++ b)) s
     = checksum_xor b (length b) (checksum_xor a (length a) s)
     /\ checksum_crc8_dvb_s2 (a ++ b) (length (a ++ b)) s
        = checksum_crc8_dvb_s2 b (length b)
            (checksum_crc8_dvb_s2 a (length a) s))
  /\ (forall (chunks : list (list Z)) (s : Z),
        fold_left (fun acc c => checksum_xor c (length c) acc) chunks s
        = checksum_xor (concat chunks) (length (concat chunks)) s
        /\ fold_left (fun acc c => checksum_crc8_dvb_s2 c (length c) acc) chunks s
           = checksum_crc8_dvb_s2 (concat chunks) (length (concat chunks)) s).
Proof.
  split.
  - intros a b s. split; [apply checksum_xor_app | apply checksum_crc8_dvb_s2_app].
  - induction chunks as [|c chunks IH]; intro s; [split; reflexivity|].
    cbn [fold_left concat].
    rewrite checksum_xor_app, checksum_crc8_dvb_s2_app.
    destruct (IH (checksum_xor c (length c) s)) as [Hx _].
    destruct (IH (checksum_crc8_dvb_s2 c (length c) s)) as [_ Hc].
    now split.
Qed.

(** ** The header of a tunneled packet *)

(** C9: [parse_V2] never writes the version or the direction field; so for
    a V2 frame received inside a V1 frame with command byte 255 (plain or
    JUMBO), the packet [parse_packet] hands back has version character 'M'
    and the direction of the V1 wrapper header, and flag, command, payload
    size, payload and checksum of the inner V2 frame. *)
Theorem tunneled_packet_fields :
  (forall s pkt,
     version (snd (parse_V2 s pkt)) = version pkt
     /\ direction (snd (parse_V2 s pkt)) = direction pkt)
  /\ (forall s pkt d size f cl ch ll lh (p : list Z) k tail,
        2 <= read_retries (mdev s) ->
        size <> 255 ->
        le16toh ll lh = Z.of_nat (length p) -> Z.of_nat (length p) <= 1023 ->
        let r := parse_packet
                   (feed s (SYNC :: MSP_V1 :: d :: size :: 255
                            :: f :: cl :: ch :: ll :: lh :: p ++ k :: tail)) pkt in
        snd r = MspPacket MSP_V1 d f (le16toh cl ch) (le16toh ll lh) PtrDevBuf k
        /\ payload_bytes (mdev (snd (fst r))) (snd r) = p)
  /\ (forall s pkt d jl jh f cl ch ll lh (p : list Z) k tail,
        2 <= read_retries (mdev s) ->
        le16toh ll lh = Z.of_nat (length p) -> Z.of_nat (length p) <= 1023 ->
        let r := parse_packet
                   (feed s (SYNC :: MSP_V1 :: d :: 255 :: 255 :: jl :: jh
                            :: f :: cl :: ch :: ll :: lh :: p ++ k :: tail)) pkt in
        snd r = MspPacket MSP_V1 d f (le16toh cl ch) (le16toh ll lh) PtrDevBuf k
        /\ payload_bytes (mdev (snd (fst r))) (snd r) = p).
Proof.
  split; [|split].
  - apply parse_V2_keeps_header.
  - intros s pkt d size f cl ch ll lh p k tail Hr Hsize Hlen Hmax r. subst r.
    rewrite parse_packet_feed_tunnel by assumption.
    destruct (verdict_parts
                (if k =? checksum_crc8_dvb_s2 p (length p)
                           (checksum_crc8_dvb_s2 [f; cl; ch; ll; lh] 5 0)
                 then MSP_OK else MSP_RX_CHECKSUM_MISMATCH)
                (feed (store_buf (p ++ [k]) s) tail)
                (MspPacket MSP_V1 d f (le16toh cl ch) (Z.of_nat (length p))
                           PtrDevBuf k)) as [Hs Hp].
    rewrite Hs, Hp, Hlen. split; [reflexivity | apply payload_bytes_stored].
  - intros s pkt d jl jh f cl ch ll lh p k tail Hr Hlen Hmax r. subst r.
    rewrite parse_packet_feed_jumbo_tunnel by assumption.
    destruct (verdict_parts
                (if k =? checksum_crc8_dvb_s2 p (length p)
                           (checksum_crc8_dvb_s2 [f; cl; ch; ll; lh] 5 0)
                 then MSP_OK else MSP_RX_CHECKSUM_MISMATCH)
                (feed (store_buf (p ++ [k]) s) tail)
                (MspPacket MSP_V1 d f (le16toh cl ch) (Z.of_nat (length p))
                           PtrDevBuf k)) as [Hs Hp].
    rewrite Hs, Hp, Hlen. split; [reflexivity | apply payload_bytes_stored].
Qed.

Lemma tunneled_packet_fields_witness :
  let r := parse_packet
             (feed initial_state
                   (SYNC :: MSP_V1 :: MSP_DIR_TOHOST :: 10 :: 255
                    :: 0 :: 64 :: 31 :: 4 :: 0 :: [1; 2; 3; 4] ++ 92 :: [153]))
             blank_packet in
  snd r = MspPacket MSP_V1 MSP_DIR_TOHOST 0 (le16toh 64 31) (le16toh 4 0) PtrDevBuf 92
  /\ payload_bytes (mdev (snd (fst r))) (snd r) = [1; 2; 3; 4].
Proof.
  apply (proj1 (proj2 tunneled_packet_fields)).
  - vm_compute; discriminate.
  - discriminate.
  - reflexivity.
  - vm_compute; discriminate.
Defined.

(** ** The device handle *)

(** C10 (as amended): the invariant "[device_open = 1] implies [mspversion]
    is 1 or 2 and [read_retries >= 1]" holds after module initialization and
    is preserved by open, close, get and set; open sets [device_open] only
    after validating both fields; a rejected open leaves [device_open] as it
    was, which is 0 for every rejection but that of an open on a device that
    is already open, which leaves the handle untouched with [device_open] at
    1; and while the device is open the [default:] branches of the version
    switches of get and set are not reached. *)
Theorem handle_invariant_preserved :
  handle_invariant PyInit_msplink
  /\ (forall s a m,
        handle_invariant (mdev s) ->
        handle_invariant (mdev (snd (pyMsplinkOpen s a m))))
  /\ (forall s, handle_invariant (mdev (snd (pyMsplinkClose s))))
  /\ (forall s resp a,
        handle_invariant (mdev s) ->
        handle_invariant (mdev (snd (fst (pyMsplinkGet s resp a)))))
  /\ (forall s resp a,
        handle_invariant (mdev s) ->
        handle_invariant (mdev (snd (fst (pyMsplinkSet s resp a)))))
  /\ (forall s a m,
        device_open (mdev s) = 0 ->
        device_open (mdev (snd (pyMsplinkOpen s a m))) = 1 ->
        fst (pyMsplinkOpen s a m) = Py_None
        /\ (mspversion (mdev (snd (pyMsplinkOpen s a m))) = 1
            \/ mspversion (mdev (snd (pyMsplinkOpen s a m))) = 2)
        /\ 1 <= read_retries (mdev (snd (pyMsplinkOpen s a m))))
  /\ (forall s a m,
        rejected (fst (pyMsplinkOpen s a m)) ->
        device_open (mdev (snd (pyMsplinkOpen s a m))) = device_open (mdev s)
        /\ (fst (pyMsplinkOpen s a m) <> already_open ->
            device_open (mdev (snd (pyMsplinkOpen s a m))) = 0)
        /\ (device_open (mdev s) <> 0 ->
            pyMsplinkOpen s a m = (already_open, s)))
  /\ (forall s resp a,
        handle_invariant (mdev s) -> device_open (mdev s) = 1 ->
        fst (fst (pyMsplinkGet s resp a)) <> bug_in_get)
  /\ (forall s resp a,
        handle_invariant (mdev s) -> device_open (mdev s) = 1 ->
        fst (fst (pyMsplinkSet s resp a)) <> bug_in_set).
Proof.
  repeat match goal with |- _ /\ _ => split end.
  - intros H. discriminate H.
  - intros s a m Hi.
    destruct (Z.eq_dec (device_open (mdev s)) 0) as [Ho|Ho].
    + destruct (pyMsplinkOpen_closed s a m Ho) as [[_ Hc] | (_ & _ & Hv & Hr)].
      * intros H. rewrite Hc in H. discriminate H.
      * intros _. split; assumption.
    + now rewrite pyMsplinkOpen_guard.
  - intros s H. rewrite pyMsplinkClose_closes in H. discriminate H.
  - intros s resp a. apply handle_invariant_cfg, cfg_pyMsplinkGet.
  - intros s resp a. apply handle_invariant_cfg, cfg_pyMsplinkSet.
  - intros s a m Ho H1.
    destruct (pyMsplinkOpen_closed s a m Ho) as [[_ Hc] | (Hn & _ & Hv & Hr)].
    + rewrite Hc in H1. discriminate H1.
    + repeat split; assumption.
  - intros s a m Hrej.
    destruct (Z.eq_dec (device_open (mdev s)) 0) as [Ho|Ho].
    + destruct (pyMsplinkOpen_closed s a m Ho) as [[_ Hc] | (Hn & _)].
      * split; [congruence|]. split; [intros _; exact Hc | intros H; contradiction].
      * rewrite Hn in Hrej. destruct Hrej.
    + rewrite pyMsplinkOpen_guard by exact Ho. cbn [fst snd].
      split; [reflexivity|]. split; [intros H; now contradiction H | reflexivity].
  - intros s resp a. apply pyMsplinkGet_not_bug.
  - intros s resp a. apply pyMsplinkSet_not_bug.
Qed.

Lemma handle_invariant_preserved_witness :
  (let r := pyMsplinkOpen initial_state
              (OpenArgs (Given "/dev/ttyACM0"%string) (Given 4) (Given 2)) true in
   fst r = Py_None
   /\ (mspversion (mdev (snd r)) = 1 \/ mspversion (mdev (snd r)) = 2)
   /\ 1 <= read_retries (mdev (snd r)))
  /\ fst (fst (pyMsplinkGet (State (set_device_open PyInit_msplink 1) quiet_world)
                            blank_packet (Some (GetArgs 108 0))))
     <> bug_in_get.
Proof.
  destruct handle_invariant_preserved
    as (_ & _ & _ & _ & _ & Hopen & _ & Hget & _).
  split.
  - apply Hopen; reflexivity.
  - apply Hget.
    + intros _. split; [left; reflexivity | vm_compute; discriminate].
    + reflexivity.
Defined.

(** C10 (as stated) fails: an open on a device that is already open is
    rejected ("An msplink connection is already open") and leaves
    [device_open] at 1, not at 0. *)
Lemma rejected_open_on_open_device :
  let opened := State (set_device_open PyInit_msplink 1) quiet_world in
  let r := pyMsplinkOpen opened (OpenArgs (Given "/dev/ttyACM0"%string) Absent Absent) true in
  rejected (fst r) /\ device_open (mdev (snd r)) = 1
  /\ device_open (mdev (snd r)) <> 0.
Proof. vm_compute. repeat split. discriminate. Qed.

(** * Beyond the claims *)

(** X1: the retry loop when the bytes are complete before the last allowed
    call: the line stays silent for [k] read calls, the [n > 0] bytes come in
    with call [k + 1], and the device allows at least [k + 2] calls; then
    [msplink_read] returns [n] with the bytes stored, after one more read
    call of zero bytes. *)
Theorem msplink_read_delivery_before_last_call d k bs ws cs tx e :
  Z.of_nat (k + 2) <= read_retries d ->
  bs <> [] ->
  msplink_read
    (State d (World [] (repeat (RdArrive []) k ++ [RdArrive bs]) ws cs tx e))
    (Z.of_nat (length bs))
  = (Z.of_nat (length bs), bs, State d (World [] [] ws cs tx e)).
Proof.
  intros Hr Hbs. unfold msplink_read. cbn [mdev].
  assert (Hn : exists j, Z.to_nat (read_retries d) = (k + S (S j))%nat).
  { exists (Z.to_nat (read_retries d) - k - 2)%nat. lia. }
  destruct Hn as [j ->].
  assert (Hpos : 0 < Z.of_nat (length bs))
    by (destruct bs; [congruence | simpl length; lia]).
  rewrite read_loop_idle by exact Hpos.
  cbn [read_loop]. unfold Sys.read. cbn [os reads rxq app writes ctls txlog errno].
  rewrite Nat2Z.id, firstn_all, skipn_all.
  zfalse (Z.of_nat (length bs) <? 0).
  zfalse (Z.of_nat (length bs) =? 0).
  rewrite Z.sub_diag. unfold with_os. cbn [mdev os reads rxq writes ctls txlog errno].
  change (Z.to_nat 0) with 0%nat. cbn [firstn skipn length Z.of_nat].
  change (0 <? 0) with false. change (0 =? 0) with true. cbv iota.
  now rewrite app_nil_r.
Qed.

Lemma msplink_read_delivery_before_last_call_witness :
  msplink_read
    (State PyInit_msplink
           (World [] (repeat (RdArrive []) 1 ++ [RdArrive [36; 77]]) [] [] [] 0))
    (Z.of_nat (length [36; 77]))
  = (Z.of_nat (length [36; 77]), [36; 77],
     State PyInit_msplink (World [] [] [] [] [] 0)).
Proof.
  apply (@msplink_read_delivery_before_last_call PyInit_msplink 1 [36; 77] [] [] [] 0).
  - vm_compute; discriminate.
  - discriminate.
Defined.

(** X2: a V1 JUMBO request of [send_V1] (8-bit command other than 255,
    payload of 255 to 1023 bytes), fed to the packet parser of a device that
    allows at least two read calls, parses with [MSP_OK] when the payload
    length is 255 modulo 256 and is answered with [MSP_RX_CHECKSUM_MISMATCH]
    for every other length. *)
Theorem jumbo_round_trip_verdict tx rx pkt cmd (p : list Z) :
  2 <= read_retries (mdev rx) ->
  is_u8 cmd -> cmd <> 255 ->
  255 <= Z.of_nat (length p) <= 1023 ->
  fst (fst (parse_packet
              (feed rx (emitted (feed tx [])
                          (send_V1 (feed tx []) cmd p (Z.of_nat (length p)))))
              pkt))
  = (if Z.of_nat (length p) mod 256 =? 255
     then MSP_OK else MSP_RX_CHECKSUM_MISMATCH).
Proof.
  intros Hr Hcmd Hc255 Hlen.
  rewrite send_V1_feed_jumbo by lia. rewrite emitted_logged. cbn [app].
  rewrite parse_packet_feed_sync by exact Hr.
  change (chr "M") with MSP_V1.
  rewrite after_sync_feed_V1 by exact Hr.
  assert (Hn : le16toh (le16_lo (Z.of_nat (length p))) (le16_hi (Z.of_nat (length p)))
               = Z.of_nat (length p))
    by (apply le16_roundtrip; unfold is_u16; lia).
  rewrite parse_V1_feed_jumbo by (try assumption; lia).
  cbn [checksum_xor].
  rewrite (checksum_xor_seed p (length p) (Z.lxor (Z.lxor (u8 _) _) _)).
  rewrite (checksum_xor_seed p (length p)
             (Z.lxor (Z.lxor (Z.lxor (Z.lxor 0 255) cmd) _) _)).
  rewrite u8_lxor by exact Hcmd. unfold le16_lo.
  change (Z.lxor 0 255) with 255.
  destruct (Z.eqb_spec (Z.of_nat (length p) mod 256) 255) as [E|E].
  - rewrite E, Z.eqb_refl. reflexivity.
  - match goal with |- context [?a =? ?b] => destruct (Z.eqb_spec a b) as [H|H] end.
    + do 4 apply lxor_cancel_r in H. contradiction.
    + reflexivity.
Qed.

Lemma jumbo_round_trip_verdict_witness :
  fst (fst (parse_packet
              (feed initial_state
                    (emitted (feed initial_state [])
                       (send_V1 (feed initial_state []) 1 (repeat 0 300)
                                (Z.of_nat (length (repeat 0 300))))))
              blank_packet))
  = (if Z.of_nat (length (repeat 0 300)) mod 256 =? 255
     then MSP_OK else MSP_RX_CHECKSUM_MISMATCH).
Proof.
  apply jumbo_round_trip_verdict.
  - vm_compute; discriminate.
  - unfold is_u8; lia.
  - discriminate.
  - vm_compute. split; discriminate.
Defined.

(** The flush sees the queue only to empty it. *)
Lemma clearRxBuffer_with_rxq s q :
  msplink_clearRxBuffer (with_rxq s q) = msplink_clearRxBuffer s
  \/ (fst (msplink_clearRxBuffer (with_rxq s q)) = MSP_SYSCALL_FAIL
      /\ fst (msplink_clearRxBuffer s) = MSP_SYSCALL_FAIL
      /\ mdev (snd (msplink_clearRxBuffer (with_rxq s q)))
         = mdev (snd (msplink_clearRxBuffer s))).
Proof.
  destruct s as [d [q0 rd wr ct tx e]].
  unfold msplink_clearRxBuffer, Sys.tcflush, Sys.call, with_rxq.
  cbn [os ctls rxq reads writes txlog errno mdev].
  destruct ct as [|[v|e'] r].
  - left. reflexivity.
  - destruct (v =? 0) eqn:E.
    + left. cbn. rewrite E. reflexivity.
    + right. cbn. rewrite E. cbn. repeat split.
  - right. cbn. repeat split.
Qed.

(** X3: flush before request: the bytes queued in the input when [get] or
    [set] is called have no part in what the call returns, neither in the
    Python result nor in the response packet. *)
Theorem flush_before_request s resp q :
  (forall a,
     fst (fst (pyMsplinkGet (with_rxq s q) resp a)) = fst (fst (pyMsplinkGet s resp a))
     /\ snd (pyMsplinkGet (with_rxq s q) resp a) = snd (pyMsplinkGet s resp a))
  /\ (forall a,
        fst (fst (pyMsplinkSet (with_rxq s q) resp a)) = fst (fst (pyMsplinkSet s resp a))
        /\ snd (pyMsplinkSet (with_rxq s q) resp a) = snd (pyMsplinkSet s resp a)).
Proof.
  split; intros a.
  - unfold pyMsplinkGet. change (mdev (with_rxq s q)) with (mdev s).
    destruct (device_open (mdev s) =? 0); [split; reflexivity|].
    destruct a as [a|]; [|split; reflexivity].
    destruct (clearRxBuffer_with_rxq s q) as [-> | (H1 & H2 & H3)];
      [split; reflexivity|].
    destruct (msplink_clearRxBuffer (with_rxq s q)) as [r1 s1].
    destruct (msplink_clearRxBuffer s) as [r2 s2].
    cbn [fst snd] in H1, H2, H3. subst r1 r2.
    change (MSP_SYSCALL_FAIL <? 0) with true. cbv iota. cbn [fst snd].
    rewrite H3. split; reflexivity.
  - unfold pyMsplinkSet. change (mdev (with_rxq s q)) with (mdev s).
    destruct (device_open (mdev s) =? 0); [split; reflexivity|].
    destruct a as [a|[|]]; [|split; reflexivity|split; reflexivity].
    destruct (negb (set_contiguous a)); [split; reflexivity|].
    destruct (clearRxBuffer_with_rxq s q) as [-> | (H1 & H2 & H3)];
      [split; reflexivity|].
    destruct (msplink_clearRxBuffer (with_rxq s q)) as [r1 s1].
    destruct (msplink_clearRxBuffer s) as [r2 s2].
    cbn [fst snd] in H1, H2, H3. subst r1 r2.
    change (MSP_SYSCALL_FAIL <? 0) with true. cbv iota. cbn [fst snd].
    rewrite H3. split; reflexivity.
Qed.

(** X4: packet attachment on a failed checksum: a plain V1 frame whose last
    byte is not the XOR of size, command and payload is answered with
    [MSP_RX_CHECKSUM_MISMATCH], and the transaction layer raises
    [msplink.BadChecksum] carrying version, direction, command, payload and
    checksum as received when the direction byte is below 0x80; for a
    direction byte from 0x80 on, [packResponse] fails on it and
    UnicodeDecodeError is raised in place of [msplink.BadChecksum]. *)
Theorem bad_checksum_attaches_packet s pkt d size cmd (p : list Z) k rest :
  2 <= read_retries (mdev s) ->
  size <> 255 -> cmd <> 255 ->
  size = Z.of_nat (length p) -> Z.of_nat (length p) <= 1023 ->
  k <> checksum_xor p (length p) (checksum_xor [size; cmd] 2 0) ->
  let r := parse_packet (feed s (SYNC :: MSP_V1 :: d :: size :: cmd :: p ++ k :: rest))
                        pkt in
  fst (fst r) = MSP_RX_CHECKSUM_MISMATCH
  /\ (d < 128 ->
      throwPacketError (mdev (snd (fst r))) (fst (fst r)) (snd r)
      = Some (ErrObject MspExc_BadChecksum (PyPacket MSP_V1 d None cmd p k)))
  /\ (128 <= d ->
      throwPacketError (mdev (snd (fst r))) (fst (fst r)) (snd r)
      = Some (ErrDecode d)).
Proof.
  intros Hr Hsize Hcmd Hlen Hmax Hk r. subst r.
  rewrite parse_packet_feed_sync, after_sync_feed_V1 by exact Hr.
  rewrite parse_V1_feed by assumption.
  zfalse (k =? checksum_xor p (length p) (checksum_xor [size; cmd] 2 0)).
  unfold verdict. change (MSP_RX_CHECKSUM_MISMATCH <? 0) with true. cbv iota.
  cbn [fst snd]. split; [reflexivity|].
  unfold throwPacketError.
  change (MSP_RX_CHECKSUM_MISMATCH =? MSP_OK) with false.
  change (MSP_RX_CHECKSUM_MISMATCH =? MSP_RX_CHECKSUM_MISMATCH) with true. cbv iota.
  unfold packResponse, utf8_char. pkt_simpl.
  change (MSP_V1 <? 128) with true. cbn [negb].
  change (MSP_V1 =? chr "X") with false. cbv iota.
  subst size. rewrite payload_bytes_stored.
  split; intros Hd.
  - ztrue (d <? 128). reflexivity.
  - zfalse (d <? 128). reflexivity.
Qed.

Lemma bad_checksum_attaches_packet_witness :
  (let r := parse_packet
              (feed initial_state
                    (SYNC :: MSP_V1 :: MSP_DIR_TOHOST :: 2 :: 108 :: [7; 9] ++ 0 :: []))
              blank_packet in
   fst (fst r) = MSP_RX_CHECKSUM_MISMATCH
   /\ throwPacketError (mdev (snd (fst r))) (fst (fst r)) (snd r)
      = Some (ErrObject MspExc_BadChecksum
                (PyPacket MSP_V1 MSP_DIR_TOHOST None 108 [7; 9] 0)))
  /\ (let r := parse_packet
                 (feed initial_state
                       (SYNC :: MSP_V1 :: 190 :: 2 :: 108 :: [7; 9] ++ 0 :: []))
                 blank_packet in
      fst (fst r) = MSP_RX_CHECKSUM_MISMATCH
      /\ throwPacketError (mdev (snd (fst r))) (fst (fst r)) (snd r)
         = Some (ErrDecode 190)).
Proof.
  assert (Hr : 2 <= read_retries (mdev initial_state)) by (vm_compute; discriminate).
  assert (Hs : 2 <> 255) by discriminate.
  assert (Hc : 108 <> 255) by discriminate.
  assert (Hl : 2 = Z.of_nat (length [7; 9])) by reflexivity.
  assert (Hm : Z.of_nat (length [7; 9]) <= 1023) by (vm_compute; discriminate).
  assert (Hk : 0 <> checksum_xor [7; 9] (length [7; 9]) (checksum_xor [2; 108] 2 0))
    by (vm_compute; discriminate).
  split.
  - destruct (@bad_checksum_attaches_packet initial_state blank_packet MSP_DIR_TOHOST
                2 108 [7; 9] 0 [] Hr Hs Hc Hl Hm Hk) as (H1 & H2 & _).
    split; [exact H1 | apply H2; reflexivity].
  - destruct (@bad_checksum_attaches_packet initial_state blank_packet 190
                2 108 [7; 9] 0 [] Hr Hs Hc Hl Hm Hk) as (H1 & _ & H3).
    split; [exact H1 | apply H3; discriminate].
Defined.

(** The encodings of the documented scenarios: V1 command 108 with no
    payload is [24 4D 3C 00 6C 6C]; V1 command 200 with the payload
    [DC 05 DC 05 DC 05 DC 05] is [24 4D 3C 08 C8], the payload and the XOR of
    08, C8 and the payload; V2 flag 0, command 1F40 with no payload is
    [24 58 3C 00 40 1F 00 00] and the CRC8/DVB-S2 of [00 40 1F 00 00]. *)
Example encoder_scenarios :
  emitted (feed initial_state []) (send_V1 (feed initial_state []) 108 [] 0)
  = [0x24; 0x4D; 0x3C; 0x00; 0x6C; 0x6C]
  /\ emitted (feed initial_state [])
       (send_V1 (feed initial_state []) 200
                [0xDC; 0x05; 0xDC; 0x05; 0xDC; 0x05; 0xDC; 0x05] 8)
     = [0x24; 0x4D; 0x3C; 0x08; 0xC8;
        0xDC; 0x05; 0xDC; 0x05; 0xDC; 0x05; 0xDC; 0x05;
        checksum_xor [0x08; 0xC8; 0xDC; 0x05; 0xDC; 0x05; 0xDC; 0x05; 0xDC; 0x05] 10 0]
  /\ emitted (feed initial_state []) (send_V2 (feed initial_state []) 0 0x1F40 [] 0)
     = [0x24; 0x58; 0x3C; 0x00; 0x40; 0x1F; 0x00; 0x00;
        checksum_crc8_dvb_s2 [0x00; 0x40; 0x1F; 0x00; 0x00] 5 0].
Proof. vm_compute. repeat split. Qed.

(** X6: what Python sees of a tunneled packet: [packResponse] gives the flag
    only when the version character is 'X', so a V2 frame received inside a
    V1 frame, with a direction byte below 0x80, reaches Python with flag
    [None], while the packet record holds the flag of the inner frame; for a
    direction byte from 0x80 on, [packResponse] fails with
    UnicodeDecodeError and no packet reaches Python. *)
Theorem tunneled_packet_python_flag s pkt d size f cl ch ll lh (p : list Z) k tail :
  2 <= read_retries (mdev s) ->
  size <> 255 ->
  le16toh ll lh = Z.of_nat (length p) -> Z.of_nat (length p) <= 1023 ->
  let r := parse_packet
             (feed s (SYNC :: MSP_V1 :: d :: size :: 255
                      :: f :: cl :: ch :: ll :: lh :: p ++ k :: tail)) pkt in
  flag (snd r) = f
  /\ (d < 128 ->
      packResponse (mdev (snd (fst r))) (snd r)
      = inl (PyPacket MSP_V1 d None (le16toh cl ch) p k))
  /\ (128 <= d ->
      packResponse (mdev (snd (fst r))) (snd r) = inr (ErrDecode d)).
Proof.
  intros Hr Hsize Hlen Hmax r. subst r.
  rewrite parse_packet_feed_tunnel by assumption.
  destruct (verdict_parts
              (if k =? checksum_crc8_dvb_s2 p (length p)
                         (checksum_crc8_dvb_s2 [f; cl; ch; ll; lh] 5 0)
               then MSP_OK else MSP_RX_CHECKSUM_MISMATCH)
              (feed (store_buf (p ++ [k]) s) tail)
              (MspPacket MSP_V1 d f (le16toh cl ch) (Z.of_nat (length p))
                         PtrDevBuf k)) as [Hs Hp].
  rewrite Hs, Hp. split; [reflexivity|].
  unfold packResponse, utf8_char. pkt_simpl.
  change (MSP_V1 <? 128) with true. cbn [negb].
  change (MSP_V1 =? chr "X") with false. cbv iota.
  rewrite payload_bytes_stored.
  split; intros Hd.
  - ztrue (d <? 128). reflexivity.
  - zfalse (d <? 128). reflexivity.
Qed.

Lemma tunneled_packet_python_flag_witness :
  (let r := parse_packet
              (feed initial_state
                    (SYNC :: MSP_V1 :: MSP_DIR_TOHOST :: 10 :: 255
                     :: 7 :: 64 :: 31 :: 4 :: 0 :: [1; 2; 3; 4] ++ 0 :: [153]))
              blank_packet in
   flag (snd r) = 7
   /\ packResponse (mdev (snd (fst r))) (snd r)
      = inl (PyPacket MSP_V1 MSP_DIR_TOHOST None (le16toh 64 31) [1; 2; 3; 4] 0))
  /\ (let r := parse_packet
                 (feed initial_state
                       (SYNC :: MSP_V1 :: 190 :: 10 :: 255
                        :: 7 :: 64 :: 31 :: 4 :: 0 :: [1; 2; 3; 4] ++ 0 :: [153]))
                 blank_packet in
      packResponse (mdev (snd (fst r))) (snd r) = inr (ErrDecode 190)).
Proof.
  assert (Hr : 2 <= read_retries (mdev initial_state)) by (vm_compute; discriminate).
  assert (Hs : 10 <> 255) by discriminate.
  assert (Hl : le16toh 4 0 = Z.of_nat (length [1; 2; 3; 4])) by reflexivity.
  assert (Hm : Z.of_nat (length [1; 2; 3; 4]) <= 1023) by (vm_compute; discriminate).
  split.
  - destruct (@tunneled_packet_python_flag initial_state blank_packet MSP_DIR_TOHOST
                10 7 64 31 4 0 [1; 2; 3; 4] 0 [153] Hr Hs Hl Hm) as (H1 & H2 & _).
    split; [exact H1 | apply H2; reflexivity].
  - destruct (@tunneled_packet_python_flag initial_state blank_packet 190
                10 7 64 31 4 0 [1; 2; 3; 4] 0 [153] Hr Hs Hl Hm) as (_ & _ & H3).
    apply H3. discriminate.
Defined.

(** ** The checksums *)

Lemma all_bytes_spec b : is_u8 b -> In b all_bytes.
Proof.
  intros [H0 H1]. unfold all_bytes. apply in_map_iff.
  exists (Z.to_nat b). split; [lia|]. apply in_seq. lia.
Qed.

Lemma lut_entry b : is_u8 b -> nth (Z.to_nat b) CRC8_DVB_S2_LUT 0 = crc8_byte b.
Proof.
  intros Hb.
  assert (H : forallb (fun b => nth (Z.to_nat b) CRC8_DVB_S2_LUT 0 =? crc8_byte b)
                      all_bytes = true) by (vm_compute; reflexivity).
  rewrite forallb_forall in H. apply Z.eqb_eq, H, all_bytes_spec, Hb.
Qed.

Lemma lut_entry_u8 i : is_u8 (nth i CRC8_DVB_S2_LUT 0).
Proof.
  assert (H : forallb (fun x => (0 <=? x) && (x <? 256)) CRC8_DVB_S2_LUT = true)
    by (vm_compute; reflexivity).
  rewrite forallb_forall in H.
  destruct (Nat.lt_ge_cases i (length CRC8_DVB_S2_LUT)) as [Hi|Hi].
  - specialize (H _ (nth_In _ 0 Hi)). apply andb_true_iff in H.
    destruct H as [Ha Hb]. apply Z.leb_le in Ha. apply Z.ltb_lt in Hb.
    split; assumption.
  - rewrite nth_overflow by exact Hi. unfold is_u8; lia.
Qed.

Lemma lut_injective a b :
  is_u8 a -> is_u8 b ->
  nth (Z.to_nat a) CRC8_DVB_S2_LUT 0 = nth (Z.to_nat b) CRC8_DVB_S2_LUT 0 -> a = b.
Proof.
  intros Ha Hb.
  assert (H : forallb (fun a => forallb (fun b =>
                 negb (nth (Z.to_nat a) CRC8_DVB_S2_LUT 0
                       =? nth (Z.to_nat b) CRC8_DVB_S2_LUT 0) || (a =? b))
                 all_bytes) all_bytes = true) by (vm_compute; reflexivity).
  rewrite forallb_forall in H. specialize (H a (all_bytes_spec Ha)).
  rewrite forallb_forall in H. specialize (H b (all_bytes_spec Hb)).
  intros E. rewrite E, Z.eqb_refl in H. cbn in H. now apply Z.eqb_eq.
Qed.

Lemma checksum_xor_u8 data : forall n s,
  Forall is_u8 data -> is_u8 s -> is_u8 (checksum_xor data n s).
Proof.
  induction data as [|b data IH]; intros [|n] s Hd Hs; simpl; try exact Hs.
  inversion Hd; subst. apply IH; [assumption|]. now apply lxor_is_u8.
Qed.

Lemma checksum_crc8_dvb_s2_u8 data : forall n s,
  is_u8 s -> is_u8 (checksum_crc8_dvb_s2 data n s).
Proof.
  induction data as [|b data IH]; intros [|n] s Hs; simpl; try exact Hs.
  apply IH, lut_entry_u8.
Qed.

(** X7: the table is the CRC-8 of polynomial 0xD5: on bytes, from a byte
    seed, the table-driven [checksum_crc8_dvb_s2] computes what the
    bit-by-bit division by 0xD5 computes. *)
Theorem crc8_table_is_polynomial_D5 (data : list Z) (crc : Z) :
  Forall is_u8 data -> is_u8 crc ->
  checksum_crc8_dvb_s2 data (length data) crc = crc8_dvb_s2_bitwise data crc.
Proof.
  revert crc. induction data as [|b data IH]; intros crc Hd Hc; [reflexivity|].
  inversion Hd as [|b' d' Hb Hd']; subst. cbn [length checksum_crc8_dvb_s2 crc8_dvb_s2_bitwise].
  assert (Hx : is_u8 (Z.lxor crc b)) by now apply lxor_is_u8.
  rewrite (lut_entry Hx). apply IH; [exact Hd'|].
  rewrite <- (lut_entry Hx). apply lut_entry_u8.
Qed.

Lemma crc8_table_is_polynomial_D5_witness :
  checksum_crc8_dvb_s2 [0; 64; 31; 0; 0] (length [0; 64; 31; 0; 0]) 0
  = crc8_dvb_s2_bitwise [0; 64; 31; 0; 0] 0.
Proof.
  apply crc8_table_is_polynomial_D5.
  - repeat constructor; unfold is_u8; lia.
  - unfold is_u8; lia.
Defined.

(** X8: a frame followed by its own checksum byte has checksum zero: for
    both functions, over any data and from any seed, running the checksum
    over the data and then over the checksum byte it produced gives 0. *)
Theorem checksum_residue_zero (data : list Z) (s : Z) :
  checksum_xor (data ++ [checksum_xor data (length data) s])
               (length (data ++ [checksum_xor data (length data) s])) s = 0
  /\ checksum_crc8_dvb_s2 (data ++ [checksum_crc8_dvb_s2 data (length data) s])
       (length (data ++ [checksum_crc8_dvb_s2 data (length data) s])) s = 0.
Proof.
  split.
  - rewrite checksum_xor_app. cbn. apply Z.lxor_nilpotent.
  - rewrite checksum_crc8_dvb_s2_app. cbn. rewrite Z.lxor_nilpotent. reflexivity.
Qed.
Lemma checksum_crc8_step_injective (a b : Z) data : forall n,
  Forall is_u8 data -> is_u8 a -> is_u8 b ->
  checksum_crc8_dvb_s2 data n a = checksum_crc8_dvb_s2 data n b -> a = b.
Proof.
  revert a b. induction data as [|x data IH]; intros a b [|n] Hd Ha Hb E;
    simpl in E; try exact E.
  inversion Hd; subst.
  apply IH in E; try assumption; try apply lut_entry_u8.
  apply lut_injective in E; try now apply lxor_is_u8.
  now apply lxor_cancel_r in E.
Qed.

Lemma checksum_xor_step_injective (a b : Z) data : forall n,
  checksum_xor data n a = checksum_xor data n b -> a = b.
Proof.
  intros n E. rewrite (checksum_xor_seed data n a), (checksum_xor_seed data n b) in E.
  now apply lxor_cancel_r in E.
Qed.

(** X9: both checksums detect every corruption of a single byte: two byte
    sequences that differ in exactly one position have different checksums,
    from the same byte seed. *)
Theorem single_byte_corruption_detected (pre post : list Z) (a b s : Z) :
  Forall is_u8 pre -> Forall is_u8 post -> is_u8 a -> is_u8 b -> is_u8 s ->
  a <> b ->
  checksum_xor (pre ++ a :: post) (length (pre ++ a :: post)) s
  <> checksum_xor (pre ++ b :: post) (length (pre ++ b :: post)) s
  /\ checksum_crc8_dvb_s2 (pre ++ a :: post) (length (pre ++ a :: post)) s
     <> checksum_crc8_dvb_s2 (pre ++ b :: post) (length (pre ++ b :: post)) s.
Proof.
  intros Hpre Hpost Ha Hb Hs Hab. split; intros E.
  - rewrite !checksum_xor_app in E. cbn [length checksum_xor] in E.
    apply checksum_xor_step_injective in E.
    apply Hab. symmetry in E. rewrite Z.lxor_comm, (Z.lxor_comm _ a) in E.
    apply lxor_cancel_r in E. congruence.
  - rewrite !checksum_crc8_dvb_s2_app in E. cbn [length checksum_crc8_dvb_s2] in E.
    assert (Hc : is_u8 (checksum_crc8_dvb_s2 pre (length pre) s))
      by now apply checksum_crc8_dvb_s2_u8.
    apply checksum_crc8_step_injective in E;
      try assumption; try apply lut_entry_u8.
    apply lut_injective in E; try now apply lxor_is_u8.
    rewrite Z.lxor_comm, (Z.lxor_comm _ b) in E.
    apply lxor_cancel_r in E. congruence.
Qed.

Lemma single_byte_corruption_detected_witness :
  checksum_xor ([8; 200] ++ 220 :: [5]) (length ([8; 200] ++ 220 :: [5])) 0
  <> checksum_xor ([8; 200] ++ 221 :: [5]) (length ([8; 200] ++ 221 :: [5])) 0
  /\ checksum_crc8_dvb_s2 ([8; 200] ++ 220 :: [5]) (length ([8; 200] ++ 220 :: [5])) 0
     <> checksum_crc8_dvb_s2 ([8; 200] ++ 221 :: [5]) (length ([8; 200] ++ 221 :: [5])) 0.
Proof.
  apply single_byte_corruption_detected;
    try (repeat constructor; unfold is_u8; lia); try (unfold is_u8; lia).
Defined.

(** ** The encoders under any behaviour of the line *)

(** One [msplink_write] of a whole chunk: all of it went out, or a proper
    prefix did, or the call failed and nothing did. *)
Lemma msplink_write_outcome s (c : list Z) :
  let r := msplink_write s c (Z.of_nat (length c)) in
  (fst r = MSP_OK /\ txlog (os (snd r)) = txlog (os s) ++ c)
  \/ (fst r = MSP_TX_FAIL
      /\ exists k, (k < length c)%nat
                   /\ txlog (os (snd r)) = txlog (os s) ++ firstn k c)
  \/ (fst r = MSP_SYSCALL_FAIL /\ txlog (os (snd r)) = txlog (os s)
      /\ errornum (mdev (snd r)) = errno (os (snd r))).
Proof.
  unfold msplink_write, Sys.write. rewrite Nat2Z.id, firstn_all.
  destruct (writes (os s)) as [|[k|e] ws].
  - left. cbn. zfalse (Z.of_nat (length c) <? 0). rewrite Z.eqb_refl. cbn.
    split; reflexivity.
  - cbn [fst snd]. zfalse (Z.of_nat (length (firstn (Z.to_nat k) c)) <? 0).
    destruct (Z.of_nat (length (firstn (Z.to_nat k) c)) =? Z.of_nat (length c)) eqn:E;
      cbn [negb fst snd with_os os txlog].
    + left. split; [reflexivity|]. apply Z.eqb_eq in E.
      rewrite length_firstn in E.
      rewrite firstn_all2 by lia. reflexivity.
    + right; left. split; [reflexivity|]. apply Z.eqb_neq in E.
      rewrite length_firstn in E.
      exists (Z.to_nat k). split; [lia | reflexivity].
  - right; right. cbn. repeat split.
Qed.

Lemma write_all_outcome chunks : forall s,
  last chunks [] <> [] ->
  let r := write_all s chunks in
  exists sent rest,
    txlog (os (snd r)) = txlog (os s) ++ sent
    /\ concat chunks = sent ++ rest
    /\ ((fst r = MSP_OK /\ rest = [])
        \/ ((fst r = MSP_TX_FAIL \/ fst r = MSP_SYSCALL_FAIL) /\ rest <> [])).
Proof.
  induction chunks as [|c cs IH]; intros s Hlast; [now contradiction Hlast|].
  cbn [write_all].
  pose proof (msplink_write_outcome s c) as Hw. cbv zeta in Hw.
  destruct (msplink_write s c (Z.of_nat (length c))) as [ret s1].
  cbn [fst snd] in Hw.
  destruct Hw as [[-> Hlog] | [[-> (k & Hk & Hlog)] | [-> (Hlog & _)]]].
  - change (MSP_OK <? 0) with false. cbv iota.
    destruct cs as [|c' cs'].
    + cbn [write_all fst snd concat]. exists c, []. rewrite !app_nil_r.
      repeat split; [exact Hlog | left; split; reflexivity].
    + assert (Hl : last (c' :: cs') [] <> []) by exact Hlast.
      destruct (IH s1 Hl) as (sent & rest & H1 & H2 & H3).
      exists (c ++ sent), rest.
      change (concat (c :: c' :: cs')) with (c ++ concat (c' :: cs')).
      rewrite H1, Hlog, H2, !app_assoc. repeat split. exact H3.
  - change (MSP_TX_FAIL <? 0) with true. cbv iota. cbn [fst snd concat].
    exists (firstn k c), (skipn k c ++ concat cs).
    rewrite app_assoc, firstn_skipn. repeat split; [exact Hlog|].
    right. split; [left; reflexivity|].
    intros E. apply app_eq_nil in E. destruct E as [E _].
    apply (f_equal (@length Z)) in E. rewrite length_skipn in E. simpl in E. lia.
  - change (MSP_SYSCALL_FAIL <? 0) with true. cbv iota. cbn [fst snd concat].
    exists [], (c ++ concat cs). rewrite app_nil_r. repeat split; [exact Hlog|].
    right. split; [right; reflexivity|].
    intros E. apply app_eq_nil in E. destruct E as [Ec Ecs].
    destruct cs as [|c' cs']; [subst c; now apply Hlast|].
    apply Hlast. clear - Ecs.
    revert c' Ecs. induction cs' as [|x xs IHx]; intros c' E.
    + cbn in E. rewrite app_nil_r in E. exact E.
    + cbn [concat] in E. apply app_eq_nil in E. destruct E as [_ E].
      cbn [last]. apply IHx. exact E.
Qed.

Lemma msplink_write_code s c len :
  fst (msplink_write s c len) <= 0.
Proof.
  unfold msplink_write. destruct (Sys.write _ _ _) as [ret w].
  destruct (ret <? 0); [cbn; unfold MSP_SYSCALL_FAIL; lia|].
  destruct (negb _); cbn; unfold MSP_TX_FAIL, MSP_OK; lia.
Qed.

Lemma write_all_code chunks : forall s, fst (write_all s chunks) <= 0.
Proof.
  induction chunks as [|c cs IH]; intros s; cbn [write_all].
  - cbn. unfold MSP_OK; lia.
  - destruct (msplink_write _ _ _) as [ret s1] eqn:E.
    destruct (ret <? 0) eqn:L; [apply Z.ltb_lt in L; cbn; lia | apply IH].
Qed.

Lemma send_V2_write_all s f cmd (p : list Z) :
  send_V2 s f cmd p (Z.of_nat (length p))
  = write_all s
      [[SYNC; chr "X"; chr "<"; f; le16_lo cmd; le16_hi cmd;
        le16_lo (Z.of_nat (length p)); le16_hi (Z.of_nat (length p))];
       p;
       [checksum_crc8_dvb_s2 p (length p)
          (checksum_crc8_dvb_s2
             [f; le16_lo cmd; le16_hi cmd;
              le16_lo (Z.of_nat (length p)); le16_hi (Z.of_nat (length p))] 5 0)]].
Proof.
  unfold send_V2. cbn [write_all length]. change (Z.of_nat 8) with 8.
  destruct (msplink_write s _ 8) as [r1 s1].
  destruct (r1 <? 0); [reflexivity|].
  destruct (msplink_write s1 p _) as [r2 s2].
  destruct (r2 <? 0); [reflexivity|].
  rewrite Nat2Z.id. cbn [skipn]. change (Z.of_nat 1) with 1.
  match goal with |- context [msplink_write s2 ?c 1] =>
    pose proof (msplink_write_code s2 c 1) as Hc;
    destruct (msplink_write s2 c 1) as [r3 s3] end.
  cbn [fst] in Hc.
  destruct (r3 <? 0) eqn:L; [reflexivity|].
  apply Z.ltb_ge in L. replace r3 with MSP_OK by (unfold MSP_OK; lia). reflexivity.
Qed.

Lemma send_V1_write_all s cmd (p : list Z) :
  send_V1 s cmd p (Z.of_nat (length p))
  = write_all s
      (if Z.of_nat (length p) >? 254 then
         [[SYNC; chr "M"; chr "<"; 255; cmd];
          [le16_lo (Z.of_nat (length p)); le16_hi (Z.of_nat (length p))];
          p;
          [checksum_xor p (length p)
             (Z.lxor (Z.lxor (u8 (Z.lxor (Z.of_nat (length p)) cmd))
                             (le16_lo (Z.of_nat (length p))))
                     (le16_hi (Z.of_nat (length p))))]]
       else
         [[SYNC; chr "M"; chr "<"; Z.of_nat (length p); cmd];
          p;
          [checksum_xor p (length p) (u8 (Z.lxor (Z.of_nat (length p)) cmd))]]).
Proof.
  assert (Htail : forall s0 ck,
            send_V1_tail s0 p (Z.of_nat (length p)) ck
            = write_all s0 [p; [checksum_xor p (length p) ck]]).
  { intros s0 ck. unfold send_V1_tail. cbn [write_all length].
    destruct (msplink_write s0 p _) as [r2 s2].
    destruct (r2 <? 0); [reflexivity|].
    rewrite Nat2Z.id. change (Z.of_nat 1) with 1.
    match goal with |- context [msplink_write s2 ?c 1] =>
      pose proof (msplink_write_code s2 c 1) as Hc;
      destruct (msplink_write s2 c 1) as [r3 s3] end.
    cbn [fst] in Hc.
    destruct (r3 <? 0) eqn:L; [reflexivity|].
    apply Z.ltb_ge in L. replace r3 with MSP_OK by (unfold MSP_OK; lia). reflexivity. }
  unfold send_V1.
  destruct (Z.of_nat (length p) >? 254).
  - cbn [write_all length]. change (Z.of_nat 5) with 5. change (Z.of_nat 2) with 2.
    destruct (msplink_write s _ 5) as [r1 s1].
    destruct (r1 <? 0); [reflexivity|].
    destruct (msplink_write s1 _ 2) as [r2 s2].
    destruct (r2 <? 0); [reflexivity|].
    cbn [nth]. rewrite Htail. reflexivity.
  - cbn [write_all length]. change (Z.of_nat 5) with 5.
    destruct (msplink_write s _ 5) as [r1 s1].
    destruct (r1 <? 0); [reflexivity|].
    rewrite Htail. reflexivity.
Qed.

(** X5: the encoders under any behaviour of [write]: whatever the line
    accepts, what [send_V1] or [send_V2] put on it is a prefix of the frame;
    they return [MSP_OK] exactly when the whole frame went out, and
    otherwise [MSP_TX_FAIL] or [MSP_SYSCALL_FAIL] with part of the frame
    missing: after a short or failed write nothing more is written. *)
Theorem encoders_emit_prefix_of_frame :
  (forall s cmd (p : list Z),
     let r := send_V1 s cmd p (Z.of_nat (length p)) in
     exists rest,
       frame_V1 cmd p = emitted s r ++ rest
       /\ ((fst r = MSP_OK /\ rest = [])
           \/ ((fst r = MSP_TX_FAIL \/ fst r = MSP_SYSCALL_FAIL) /\ rest <> [])))
  /\ (forall s f cmd (p : list Z),
        let r := send_V2 s f cmd p (Z.of_nat (length p)) in
        exists rest,
          frame_V2 f cmd p = emitted s r ++ rest
          /\ ((fst r = MSP_OK /\ rest = [])
              \/ ((fst r = MSP_TX_FAIL \/ fst r = MSP_SYSCALL_FAIL) /\ rest <> []))).
Proof.
  split.
  - intros s cmd p r. subst r. rewrite send_V1_write_all. unfold frame_V1.
    destruct (Z.of_nat (length p) >? 254).
    + match goal with |- context [write_all s ?cs] =>
        destruct (write_all_outcome cs s) as (sent & rest & H1 & H2 & H3) end;
        [cbn; discriminate|].
      exists rest. unfold emitted. rewrite H1, skipn_length_app.
      split; [|exact H3]. rewrite <- H2. cbn. rewrite ?app_nil_r. reflexivity.
    + match goal with |- context [write_all s ?cs] =>
        destruct (write_all_outcome cs s) as (sent & rest & H1 & H2 & H3) end;
        [cbn; discriminate|].
      exists rest. unfold emitted. rewrite H1, skipn_length_app.
      split; [|exact H3]. rewrite <- H2. cbn. rewrite ?app_nil_r. reflexivity.
  - intros s f cmd p r. subst r. rewrite send_V2_write_all. unfold frame_V2.
    match goal with |- context [write_all s ?cs] =>
      destruct (write_all_outcome cs s) as (sent & rest & H1 & H2 & H3) end;
      [cbn; discriminate|].
    exists rest. unfold emitted. rewrite H1, skipn_length_app.
    split; [|exact H3]. rewrite <- H2. cbn. rewrite ?app_nil_r. reflexivity.
Qed.

(** ** The transport on a line that runs dry *)

Lemma read_loop_starved i : forall s len rem acc,
  0 < rem ->
  read_loop i len rem acc (feed s []) = (MSP_RX_FAIL, acc, feed s []).
Proof.
  induction i as [|i IH]; intros s len rem acc Hrem; [reflexivity|].
  cbn [read_loop]. unfold Sys.read. cbn [feed os reads rxq writes ctls txlog errno].
  rewrite firstn_nil, skipn_nil. cbn [length Z.of_nat].
  change (0 <? 0) with false. cbv iota. zfalse (rem =? 0).
  rewrite Z.sub_0_r, app_nil_r.
  change (with_os (feed s []) _) with (feed s []).
  now apply IH.
Qed.

(** Fewer bytes queued than asked for: all of them are taken, and the read
    fails once the retries are spent. *)
Lemma msplink_read_short s (q : list Z) len :
  1 <= read_retries (mdev s) ->
  Z.of_nat (length q) < len ->
  msplink_read (feed s q) len = (MSP_RX_FAIL, q, feed s []).
Proof.
  intros Hr Hlen. unfold msplink_read. rewrite mdev_feed.
  destruct (Z.to_nat (read_retries (mdev s))) as [|i] eqn:E; [lia|].
  cbn [read_loop]. unfold Sys.read. cbn [feed os reads rxq writes ctls txlog errno].
  rewrite firstn_all2, skipn_all2 by lia.
  zfalse (Z.of_nat (length q) <? 0). zfalse (len =? 0).
  change (with_os (feed s q) _) with (feed s []).
  rewrite read_loop_starved by lia. reflexivity.
Qed.

(** X10: a version character that is neither 'M' nor 'X' (device with
    read_retries at least 2, the bytes queued): after the sync byte and the
    two header bytes [parse_packet] returns [MSP_LIB_INTERNAL_ERROR] without
    reading further, the packet holding the two bytes, and the transaction
    layer raises [msplink.Exception] with the text that asks the user to
    report a bug of the library. *)
Theorem unknown_version_is_internal_error s pkt v d (rest : list Z) :
  2 <= read_retries (mdev s) ->
  v <> MSP_V1 -> v <> MSP_V2 ->
  let r := parse_packet (feed s (SYNC :: v :: d :: rest)) pkt in
  r = (MSP_LIB_INTERNAL_ERROR, feed s rest,
       MspPacket v d (flag pkt) (function pkt) (payload_size pkt)
                 (payload pkt) (checksum pkt))
  /\ throwPacketError (mdev (snd (fst r))) (fst (fst r)) (snd r)
     = Some (ErrString MspExc_Exception
               "You found an msplink bug. Please consider reporting it with example code on github!" []).
Proof.
  intros Hr Hv1 Hv2 r. subst r.
  rewrite parse_packet_feed_sync by exact Hr. unfold after_sync.
  change (v :: d :: rest) with ([v; d] ++ rest).
  rewrite (msplink_read_feed s [v; d] rest Hr) by reflexivity.
  cbv beta iota zeta. change (2 <? 0) with false. cbv iota. pkt_simpl.
  zfalse (v =? MSP_V1). zfalse (v =? MSP_V2).
  change (MSP_LIB_INTERNAL_ERROR <? 0) with true. cbv iota.
  split; reflexivity.
Qed.

Lemma unknown_version_is_internal_error_witness :
  let r := parse_packet (feed initial_state (SYNC :: 65 :: 62 :: [0; 108; 108]))
                        blank_packet in
  r = (MSP_LIB_INTERNAL_ERROR, feed initial_state [0; 108; 108],
       MspPacket 65 62 (flag blank_packet) (function blank_packet)
                 (payload_size blank_packet) (payload blank_packet)
                 (checksum blank_packet))
  /\ throwPacketError (mdev (snd (fst r))) (fst (fst r)) (snd r)
     = Some (ErrString MspExc_Exception
               "You found an msplink bug. Please consider reporting it with example code on github!" []).
Proof.
  apply unknown_version_is_internal_error.
  - vm_compute; discriminate.
  - discriminate.
  - discriminate.
Defined.

(** X11: a frame cut short (device with read_retries at least 2): when fewer
    bytes follow a plain V1 header or a V2 header than the payload size it
    declares, at most 1023, plus the checksum byte, the bytes there are are
    consumed, and [parse_packet] returns [MSP_RX_FAIL], which the
    transaction layer raises as [msplink.NoResponse]. *)
Theorem truncated_frame_is_no_response :
  (forall s pkt d size cmd (q : list Z),
     2 <= read_retries (mdev s) ->
     size <> 255 -> cmd <> 255 -> size <= 1023 ->
     Z.of_nat (length q) < size + 1 ->
     let r := parse_packet (feed s (SYNC :: MSP_V1 :: d :: size :: cmd :: q)) pkt in
     fst (fst r) = MSP_RX_FAIL /\ left_in_queue r = []
     /\ throwPacketError (mdev (snd (fst r))) (fst (fst r)) (snd r)
        = Some (ErrString MspExc_NoResponse
                  "Failed to read expected number of bytes from input" []))
  /\ (forall s pkt d f cl ch ll lh (q : list Z),
        2 <= read_retries (mdev s) ->
        le16toh ll lh <= 1023 ->
        Z.of_nat (length q) < le16toh ll lh + 1 ->
        let r := parse_packet
                   (feed s (SYNC :: MSP_V2 :: d :: f :: cl :: ch :: ll :: lh :: q)) pkt in
        fst (fst r) = MSP_RX_FAIL /\ left_in_queue r = []
        /\ throwPacketError (mdev (snd (fst r))) (fst (fst r)) (snd r)
           = Some (ErrString MspExc_NoResponse
                     "Failed to read expected number of bytes from input" [])).
Proof.
  split.
  - intros s pkt d size cmd q Hr Hsize Hcmd Hmax Hq r. subst r.
    rewrite parse_packet_feed_sync, after_sync_feed_V1 by exact Hr.
    rewrite parse_V1_feed_header by assumption.
    unfold parse_V1_tail. pkt_simpl. zfalse (cmd =? 255).
    unfold READ_BUFFER_SIZE. zfalse (size >? 1024 - 1).
    rewrite msplink_read_short by lia.
    cbv beta iota zeta. change (MSP_RX_FAIL <? 0) with true. cbv iota.
    unfold verdict. change (MSP_RX_FAIL <? 0) with true. cbv iota.
    repeat split.
  - intros s pkt d f cl ch ll lh q Hr Hmax Hq r. subst r.
    rewrite parse_packet_feed_sync, after_sync_feed_V2 by exact Hr.
    unfold parse_V2.
    change (f :: cl :: ch :: ll :: lh :: q) with ([f; cl; ch; ll; lh] ++ q).
    rewrite (msplink_read_feed s [f; cl; ch; ll; lh] q Hr) by reflexivity.
    cbv beta iota zeta. change (5 <? 0) with false. cbv iota. pkt_simpl.
    unfold READ_BUFFER_SIZE. zfalse (le16toh ll lh >? 1024 - 1).
    rewrite msplink_read_short by lia.
    cbv beta iota zeta. change (MSP_RX_FAIL <? 0) with true. cbv iota.
    unfold verdict. change (MSP_RX_FAIL <? 0) with true. cbv iota.
    repeat split.
Qed.

Lemma truncated_frame_is_no_response_witness :
  let r := parse_packet (feed initial_state (SYNC :: MSP_V1 :: 62 :: 4 :: 108 :: [1; 2]))
                        blank_packet in
  fst (fst r) = MSP_RX_FAIL /\ left_in_queue r = []
  /\ throwPacketError (mdev (snd (fst r))) (fst (fst r)) (snd r)
     = Some (ErrString MspExc_NoResponse
               "Failed to read expected number of bytes from input" []).
Proof.
  apply (proj1 truncated_frame_is_no_response).
  - vm_compute; discriminate.
  - discriminate.
  - discriminate.
  - vm_compute; discriminate.
  - vm_compute; reflexivity.
Defined.

(** X12: a silent line: when nothing arrives, the sync search stops after the
    first [msplink_read], that is after [read_retries] read calls and not
    after 50 times as many, and [parse_packet] returns
    [MSP_RX_SYNC_NOT_FOUND]. *)
Theorem silent_line_gives_up_after_one_read d r ev ws tx e pkt :
  read_retries d = Z.of_nat r ->
  parse_packet (State d (World [] (repeat (RdArrive []) r ++ ev) ws [] tx e)) pkt
  = (MSP_RX_SYNC_NOT_FOUND, State d (World [] ev ws [] tx e), pkt).
Proof.
  intros Hr. unfold parse_packet.
  change (msplink_waituntilsent _)
    with (MSP_OK, State d (World [] (repeat (RdArrive []) r ++ ev) ws [] tx e)).
  cbv beta iota. change (MSP_OK <? 0) with false. cbv iota.
  unfold get_sync, MAX_SYNC_SEARCH_BYTES.
  change 50%nat with (S 49). generalize 49%nat. intros i.
  cbn [get_sync_loop].
  unfold msplink_read. cbn [mdev]. rewrite Hr, Nat2Z.id.
  replace r with (r + 0)%nat at 1 by lia.
  rewrite read_loop_idle by lia. cbn [read_loop].
  change (MSP_RX_FAIL =? MSP_RX_FAIL) with true. cbv iota.
  change (MSP_RX_SYNC_NOT_FOUND <? 0) with true. cbv iota. reflexivity.
Qed.

Lemma silent_line_gives_up_after_one_read_witness :
  parse_packet
    (State PyInit_msplink
           (World [] (repeat (RdArrive []) 3 ++ [RdArrive [36; 77; 62; 0; 108; 108]])
                  [] [] [] 0)) blank_packet
  = (MSP_RX_SYNC_NOT_FOUND,
     State PyInit_msplink
           (World [] [RdArrive [36; 77; 62; 0; 108; 108]] [] [] [] 0),
     blank_packet).
Proof.
  apply silent_line_gives_up_after_one_read. reflexivity.
Defined.

(** ** The transaction layer on a line that accepts every write *)

Lemma logged_nil s : logged s [] = s.
Proof. destruct s as [d [q rd wr ct tx e]]. unfold logged. cbn. now rewrite app_nil_r. Qed.

Lemma msplink_write_accepting s (c : list Z) :
  writes (os s) = [] ->
  msplink_write s c (Z.of_nat (length c)) = (MSP_OK, logged s c).
Proof.
  intros Hw. unfold msplink_write, Sys.write. rewrite Hw, Nat2Z.id, firstn_all.
  zfalse (Z.of_nat (length c) <? 0). rewrite Z.eqb_refl. cbn [negb].
  unfold logged, with_os. now rewrite Hw.
Qed.

Lemma write_all_accepting chunks : forall s,
  writes (os s) = [] ->
  write_all s chunks = (MSP_OK, logged s (concat chunks)).
Proof.
  induction chunks as [|c cs IH]; intros s Hw; cbn [write_all concat].
  - now rewrite logged_nil.
  - rewrite msplink_write_accepting by exact Hw.
    change (MSP_OK <? 0) with false. cbv iota.
    rewrite IH by exact Hw. now rewrite logged_logged.
Qed.

Lemma send_V1_accepting s cmd (p : list Z) :
  writes (os s) = [] ->
  send_V1 s cmd p (Z.of_nat (length p)) = (MSP_OK, logged s (frame_V1 cmd p)).
Proof.
  intros Hw. rewrite send_V1_write_all, write_all_accepting by exact Hw.
  unfold frame_V1. destruct (Z.of_nat (length p) >? 254);
    cbn [concat app]; rewrite ?app_nil_r; reflexivity.
Qed.

Lemma send_V2_accepting s f cmd (p : list Z) :
  writes (os s) = [] ->
  send_V2 s f cmd p (Z.of_nat (length p)) = (MSP_OK, logged s (frame_V2 f cmd p)).
Proof.
  intros Hw. rewrite send_V2_write_all, write_all_accepting by exact Hw.
  unfold frame_V2. cbn [concat app]. rewrite ?app_nil_r. reflexivity.
Qed.

(** The encoders look at the first [payload_len] bytes of the buffer only. *)
Lemma msplink_write_firstn s (p : list Z) len :
  msplink_write s p len = msplink_write s (firstn (Z.to_nat len) p) len.
Proof.
  unfold msplink_write, Sys.write. now rewrite firstn_firstn, Nat.min_id.
Qed.

Lemma checksum_xor_firstn (p : list Z) : forall n ck,
  checksum_xor p n ck = checksum_xor (firstn n p) n ck.
Proof.
  induction p as [|b p IH]; intros [|n] ck; try reflexivity.
  cbn [firstn checksum_xor]. apply IH.
Qed.

Lemma checksum_crc8_dvb_s2_firstn (p : list Z) : forall n ck,
  checksum_crc8_dvb_s2 p n ck = checksum_crc8_dvb_s2 (firstn n p) n ck.
Proof.
  induction p as [|b p IH]; intros [|n] ck; try reflexivity.
  cbn [firstn checksum_crc8_dvb_s2]. apply IH.
Qed.

Lemma send_V1_tail_firstn s (p : list Z) len ck :
  send_V1_tail s p len ck = send_V1_tail s (firstn (Z.to_nat len) p) len ck.
Proof.
  unfold send_V1_tail. rewrite (msplink_write_firstn s p len).
  destruct (msplink_write s (firstn (Z.to_nat len) p) len) as [r s1].
  destruct (r <? 0); [reflexivity|].
  now rewrite <- checksum_xor_firstn.
Qed.

Lemma send_V1_firstn s cmd (p : list Z) len :
  send_V1 s cmd p len = send_V1 s cmd (firstn (Z.to_nat len) p) len.
Proof.
  unfold send_V1.
  destruct (msplink_write s _ 5) as [r1 s1].
  destruct (r1 <? 0); [reflexivity|].
  destruct (len >? 254); [|apply send_V1_tail_firstn].
  destruct (msplink_write s1 _ 2) as [r2 s2].
  destruct (r2 <? 0); [reflexivity|].
  apply send_V1_tail_firstn.
Qed.

Lemma send_V2_firstn s f cmd (p : list Z) len :
  send_V2 s f cmd p len = send_V2 s f cmd (firstn (Z.to_nat len) p) len.
Proof.
  unfold send_V2.
  destruct (msplink_write s _ 8) as [r1 s1].
  destruct (r1 <? 0); [reflexivity|].
  rewrite (msplink_write_firstn s1 p len).
  destruct (msplink_write s1 (firstn (Z.to_nat len) p) len) as [r2 s2].
  destruct (r2 <? 0); [reflexivity|].
  now rewrite <- checksum_crc8_dvb_s2_firstn.
Qed.

Lemma sent_payload_length (p : list Z) :
  u16 (Z.of_nat (length p)) = Z.of_nat (length (sent_payload p)).
Proof.
  unfold sent_payload. rewrite length_firstn.
  assert (H : 0 <= u16 (Z.of_nat (length p)) <= Z.of_nat (length p)).
  { unfold u16. split; [apply Z.mod_pos_bound; lia|].
    apply Z.mod_le; lia. }
  lia.
Qed.

Lemma sent_payload_short (p : list Z) :
  Z.of_nat (length p) <= 65535 -> sent_payload p = p.
Proof.
  intros H. unfold sent_payload, u16. rewrite Z.mod_small by lia.
  rewrite Nat2Z.id. apply firstn_all.
Qed.

Lemma clearRxBuffer_quiet s :
  ctls (os s) = [] ->
  msplink_clearRxBuffer s = (MSP_OK, with_rxq s []).
Proof.
  intros Hc. unfold msplink_clearRxBuffer, Sys.tcflush, Sys.call. rewrite Hc.
  cbn. unfold with_rxq, with_os. now rewrite Hc.
Qed.

(** The request of [set], as the version switch emits it on a line that
    accepts every write. *)
Lemma set_request_accepting s cmd f (p : list Z) :
  writes (os s) = [] ->
  (mspversion (mdev s) = 1 /\ cmd <= 255) \/ mspversion (mdev s) = 2 ->
  (if mspversion (mdev s) =? 1 then send_V1 s (u8 cmd) p (u16 (Z.of_nat (length p)))
   else send_V2 s f cmd p (u16 (Z.of_nat (length p))))
  = (MSP_OK, logged s (request_frame (mdev s) f cmd (sent_payload p))).
Proof.
  intros Hw Hv. unfold request_frame.
  destruct Hv as [[-> _] | ->].
  - change (1 =? 1) with true. cbv iota.
    rewrite send_V1_firstn. fold (sent_payload p).
    rewrite sent_payload_length. now apply send_V1_accepting.
  - change (2 =? 1) with false. cbv iota.
    rewrite send_V2_firstn. fold (sent_payload p).
    rewrite sent_payload_length. now apply send_V2_accepting.
Qed.

(** X13: [set] without acknowledgement, on an open device (command at most
    255 on a version 1 device) and a line that accepts every write and fails
    no call: the input queue is flushed, the request frame goes out, nothing
    is read and None is returned.  The frame carries the first
    (length mod 65536) bytes of the buffer: a payload of 65536 bytes or more
    is cut without an error. *)
Theorem set_without_ack s resp cmd f (p : list Z) :
  device_open (mdev s) <> 0 ->
  (mspversion (mdev s) = 1 /\ cmd <= 255) \/ mspversion (mdev s) = 2 ->
  writes (os s) = [] -> ctls (os s) = [] ->
  pyMsplinkSet s resp (SetCall (SetArgs cmd p true f false))
  = (Py_None,
     logged (with_rxq s []) (request_frame (mdev s) f cmd (sent_payload p)),
     resp)
  /\ (Z.of_nat (length p) <= 65535 -> sent_payload p = p)
  /\ (65535 < Z.of_nat (length p) ->
      (length (sent_payload p) < length p)%nat).
Proof.
  intros Ho Hv Hw Hc. split; [|split].
  - unfold pyMsplinkSet. zfalse (device_open (mdev s) =? 0).
    cbn [set_contiguous negb set_cmd set_payload_view set_flag_arg wait_for_ack].
    rewrite clearRxBuffer_quiet by exact Hc.
    change (MSP_OK <? 0) with false. cbv iota.
    change (mdev (with_rxq s [])) with (mdev s).
    pose proof (@set_request_accepting (with_rxq s []) cmd f p Hw Hv) as Hs.
    change (mdev (with_rxq s [])) with (mdev s) in Hs.
    destruct Hv as [[Hv Hcmd] | Hv]; rewrite Hv in *.
    + change (1 =? 1) with true in *. cbv iota in *.
      zfalse (cmd >? 255). rewrite Hs.
      change (MSP_OK <? 0) with false. cbv iota. reflexivity.
    + change (2 =? 1) with false in *. change (2 =? 2) with true. cbv iota in *.
      rewrite Hs. change (MSP_OK <? 0) with false. cbv iota. reflexivity.
  - apply sent_payload_short.
  - intros Hlong. pose proof (sent_payload_length p) as Hl.
    unfold u16 in Hl.
    pose proof (Z.mod_pos_bound (Z.of_nat (length p)) 65536). lia.
Qed.

Lemma set_without_ack_witness :
  pyMsplinkSet open_state blank_packet
    (SetCall (SetArgs 200 [220; 5; 220; 5] true 0 false))
  = (Py_None,
     logged (with_rxq open_state [])
            (request_frame (mdev open_state) 0 200 (sent_payload [220; 5; 220; 5])),
     blank_packet).
Proof.
  apply (@set_without_ack open_state blank_packet 200 0 [220; 5; 220; 5]).
  - discriminate.
  - left. split; [reflexivity | discriminate].
  - reflexivity.
  - reflexivity.
Defined.

(** ** A line that answers *)

Lemma parse_packet_answering d tx e pkt rest :
  2 <= read_retries d ->
  parse_packet (State d (World [] [RdArrive (SYNC :: rest)] [] [] tx e)) pkt
  = after_sync (State d (World rest [] [] [] tx e)) pkt.
Proof.
  intros Hr. rewrite parse_packet_stages.
  change (msplink_waituntilsent _)
    with (MSP_OK, State d (World [] [RdArrive (SYNC :: rest)] [] [] tx e)).
  cbv beta iota. change (MSP_OK <? 0) with false. cbv iota.
  unfold get_sync, MAX_SYNC_SEARCH_BYTES.
  change 50%nat with (S 49). generalize 49%nat. intros i.
  cbn [get_sync_loop]. unfold msplink_read. cbn [mdev].
  destruct (Z.to_nat (read_retries d)) as [|[|k]] eqn:E; try lia.
  cbn [read_loop]. unfold Sys.read.
  cbn [os reads rxq writes ctls txlog errno app with_os mdev].
  change (Z.to_nat 1) with 1%nat. cbn [firstn skipn length Z.of_nat].
  change (Z.of_nat 1 <? 0) with false. change (1 =? 0) with false. cbv iota.
  change (Z.of_nat 1) with 1. change (1 - 1) with 0.
  change (Z.to_nat 0) with 0%nat. cbn [firstn skipn length Z.of_nat app].
  change (0 <? 0) with false. change (0 =? 0) with true. cbv iota.
  change (1 =? MSP_RX_FAIL) with false. change (1 <? 0) with false. cbv iota.
  cbn [nth]. rewrite Z.eqb_refl. change (MSP_OK <? 0) with false. cbv iota.
  reflexivity.
Qed.

Lemma get_answering s resp cmd f rest :
  device_open (mdev s) <> 0 ->
  (mspversion (mdev s) = 1 /\ cmd <= 255) \/ mspversion (mdev s) = 2 ->
  2 <= read_retries (mdev s) ->
  pyMsplinkGet (answering s (SYNC :: rest)) resp (Some (GetArgs cmd f))
  = deliver (after_sync (feed (logged s (request_frame (mdev s) f cmd [])) rest) resp).
Proof.
  intros Ho Hv Hr. unfold pyMsplinkGet.
  change (mdev (answering s (SYNC :: rest))) with (mdev s).
  zfalse (device_open (mdev s) =? 0).
  rewrite clearRxBuffer_quiet by reflexivity.
  change (MSP_OK <? 0) with false. cbv iota.
  change (mdev (with_rxq _ [])) with (mdev s). cbn [get_cmd get_flag_arg].
  set (s1 := with_rxq (answering s (SYNC :: rest)) []).
  assert (Hw : writes (os s1) = []) by reflexivity.
  assert (H1 : send_V1 s1 (u8 cmd) [] 0 = (MSP_OK, logged s1 (frame_V1 (u8 cmd) [])))
    by (apply (@send_V1_accepting s1 (u8 cmd) [] Hw)).
  assert (H2 : send_V2 s1 f cmd [] 0 = (MSP_OK, logged s1 (frame_V2 f cmd [])))
    by (apply (@send_V2_accepting s1 f cmd [] Hw)).
  unfold request_frame.
  destruct Hv as [[Hv Hcmd] | Hv]; rewrite Hv.
  - change (1 =? 1) with true. cbv iota. zfalse (cmd >? 255). rewrite H1.
    change (MSP_OK <? 0) with false. cbv iota.
    unfold s1, logged, with_rxq, answering.
    cbn [os mdev rxq reads writes ctls txlog errno].
    rewrite parse_packet_answering by exact Hr. reflexivity.
  - change (2 =? 1) with false. change (2 =? 2) with true. cbv iota. rewrite H2.
    change (MSP_OK <? 0) with false. cbv iota.
    unfold s1, logged, with_rxq, answering.
    cbn [os mdev rxq reads writes ctls txlog errno].
    rewrite parse_packet_answering by exact Hr. reflexivity.
Qed.

Lemma set_answering s resp cmd f (p : list Z) rest :
  device_open (mdev s) <> 0 ->
  (mspversion (mdev s) = 1 /\ cmd <= 255) \/ mspversion (mdev s) = 2 ->
  2 <= read_retries (mdev s) ->
  pyMsplinkSet (answering s (SYNC :: rest)) resp (SetCall (SetArgs cmd p true f true))
  = deliver (after_sync
               (feed (logged s (request_frame (mdev s) f cmd (sent_payload p))) rest)
               resp).
Proof.
  intros Ho Hv Hr. unfold pyMsplinkSet.
  change (mdev (answering s (SYNC :: rest))) with (mdev s).
  zfalse (device_open (mdev s) =? 0).
  cbn [set_contiguous negb set_cmd set_payload_view set_flag_arg wait_for_ack].
  rewrite clearRxBuffer_quiet by reflexivity.
  change (MSP_OK <? 0) with false. cbv iota.
  change (mdev (with_rxq _ [])) with (mdev s).
  set (s1 := with_rxq (answering s (SYNC :: rest)) []).
  assert (Hw : writes (os s1) = []) by reflexivity.
  pose proof (@set_request_accepting s1 cmd f p Hw Hv) as Hs.
  change (mdev s1) with (mdev s) in Hs.
  destruct Hv as [[Hv Hcmd] | Hv]; rewrite Hv in *.
  - change (1 =? 1) with true in *. cbv iota in *. zfalse (cmd >? 255). rewrite Hs.
    change (MSP_OK <? 0) with false. cbv iota.
    unfold s1, logged, with_rxq, answering.
    cbn [os mdev rxq reads writes ctls txlog errno].
    rewrite parse_packet_answering by exact Hr. reflexivity.
  - change (2 =? 1) with false in *. change (2 =? 2) with true. cbv iota in *.
    rewrite Hs. change (MSP_OK <? 0) with false. cbv iota.
    unfold s1, logged, with_rxq, answering.
    cbn [os mdev rxq reads writes ctls txlog errno].
    rewrite parse_packet_answering by exact Hr. reflexivity.
Qed.

Lemma deliver_verdict_ok s pkt :
  utf8_char (version pkt) = true ->
  deliver (verdict (MSP_OK, s, pkt))
  = (reply_result (direction pkt)
       (PyPacket (version pkt) (direction pkt)
          (if version pkt =? chr "X" then Some (flag pkt) else None)
          (function pkt) (payload_bytes (mdev s) pkt) (checksum pkt)),
     s, pkt).
Proof.
  intros Hv. rewrite verdict_ok. unfold deliver, reply_result.
  destruct (direction pkt =? MSP_DIR_ERROR) eqn:E.
  - apply Z.eqb_eq in E.
    change (MSP_RX_CLIENT_NACK <? 0) with true. cbv iota.
    unfold throwPacketError, packResponse. rewrite Hv, E.
    reflexivity.
  - change (MSP_OK <? 0) with false. cbv iota.
    unfold return_packet, packResponse. rewrite Hv. cbn [negb].
    destruct (utf8_char (direction pkt)); reflexivity.
Qed.

Lemma deliver_reply_V1 s resp d c (p : list Z) :
  2 <= read_retries (mdev s) ->
  c <> 255 -> Z.of_nat (length p) <= 254 ->
  deliver (after_sync (feed s (tl (reply_V1 d c p))) resp)
  = (reply_result d (PyPacket MSP_V1 d None c p (last (reply_V1 d c p) 0)),
     feed (store_buf (p ++ [last (reply_V1 d c p) 0]) s) [],
     MspPacket MSP_V1 d 0 c (Z.of_nat (length p)) PtrDevBuf (last (reply_V1 d c p) 0)).
Proof.
  intros Hr Hc Hn. unfold reply_V1.
  rewrite app_assoc, last_last. cbn [app tl].
  rewrite after_sync_feed_V1 by exact Hr.
  rewrite <- (app_nil_r (p ++ [_])), <- app_assoc. cbn [app].
  rewrite parse_V1_feed by (try assumption; try reflexivity; lia).
  rewrite Z.eqb_refl. pkt_simpl.
  rewrite deliver_verdict_ok by reflexivity.
  pkt_simpl. rewrite payload_bytes_stored.
  change (MSP_V1 =? chr "X") with false. cbv iota. reflexivity.
Qed.

Lemma deliver_reply_V2 s resp d f c (p : list Z) :
  2 <= read_retries (mdev s) ->
  is_u16 c -> Z.of_nat (length p) <= 1023 ->
  deliver (after_sync (feed s (tl (reply_V2 d f c p))) resp)
  = (reply_result d (PyPacket MSP_V2 d (Some f) c p (last (reply_V2 d f c p) 0)),
     feed (store_buf (p ++ [last (reply_V2 d f c p) 0]) s) [],
     MspPacket MSP_V2 d f c (Z.of_nat (length p)) PtrDevBuf (last (reply_V2 d f c p) 0)).
Proof.
  intros Hr Hc Hn. unfold reply_V2. cbv zeta.
  rewrite app_assoc, last_last. cbn [app tl].
  rewrite after_sync_feed_V2 by exact Hr.
  rewrite <- (app_nil_r (p ++ [_])), <- app_assoc. cbn [app].
  assert (Hl : le16toh (le16_lo (Z.of_nat (length p))) (le16_hi (Z.of_nat (length p)))
               = Z.of_nat (length p))
    by (apply le16_roundtrip; unfold is_u16; lia).
  rewrite parse_V2_feed by (try assumption; lia).
  rewrite Z.eqb_refl. pkt_simpl.
  rewrite deliver_verdict_ok by reflexivity.
  pkt_simpl. rewrite payload_bytes_stored.
  change (MSP_V2 =? chr "X") with true. cbv iota.
  rewrite (le16_roundtrip Hc). reflexivity.
Qed.

(** X14: a whole transaction.  On an open device (read_retries at least 2,
    command at most 255 on a version 1 device) and a line that takes every
    write and answers with a well-formed frame, [get], and [set] waiting for
    the acknowledgement, flush what was queued, emit the request frame and
    hand the reply to Python: version, direction, flag (None for V1),
    command, payload and checksum byte of the reply, as the result, or
    attached to msplink.NACK when the direction byte is '!'; when the
    direction byte is 0x80 or above, [packResponse] fails on it and
    UnicodeDecodeError is raised instead.  Nothing of the reply is compared
    with the request: its version and command may differ from those asked
    for, and every other direction byte below 0x80 is accepted. *)
Theorem transaction_returns_reply s resp cmd f (p : list Z) :
  device_open (mdev s) <> 0 ->
  (mspversion (mdev s) = 1 /\ cmd <= 255) \/ mspversion (mdev s) = 2 ->
  2 <= read_retries (mdev s) ->
  (forall d c q,
     c <> 255 -> Z.of_nat (length q) <= 254 ->
     let packet := PyPacket MSP_V1 d None c q (last (reply_V1 d c q) 0) in
     let g := pyMsplinkGet (answering s (reply_V1 d c q)) resp (Some (GetArgs cmd f)) in
     let t := pyMsplinkSet (answering s (reply_V1 d c q)) resp
                (SetCall (SetArgs cmd p true f true)) in
     fst (fst g) = reply_result d packet
     /\ os (snd (fst g))
        = World [] [] [] []
            (txlog (os s) ++ request_frame (mdev s) f cmd []) (errno (os s))
     /\ fst (fst t) = reply_result d packet
     /\ os (snd (fst t))
        = World [] [] [] []
            (txlog (os s) ++ request_frame (mdev s) f cmd (sent_payload p))
            (errno (os s)))
  /\ (forall d fl c q,
        is_u16 c -> Z.of_nat (length q) <= 1023 ->
        let packet := PyPacket MSP_V2 d (Some fl) c q (last (reply_V2 d fl c q) 0) in
        let g := pyMsplinkGet (answering s (reply_V2 d fl c q)) resp
                   (Some (GetArgs cmd f)) in
        let t := pyMsplinkSet (answering s (reply_V2 d fl c q)) resp
                   (SetCall (SetArgs cmd p true f true)) in
        fst (fst g) = reply_result d packet
        /\ os (snd (fst g))
           = World [] [] [] []
               (txlog (os s) ++ request_frame (mdev s) f cmd []) (errno (os s))
        /\ fst (fst t) = reply_result d packet
        /\ os (snd (fst t))
           = World [] [] [] []
               (txlog (os s) ++ request_frame (mdev s) f cmd (sent_payload p))
               (errno (os s))).
Proof.
  intros Ho Hv Hr. split.
  - intros d c q Hc Hq packet g t. subst packet g t.
    change (reply_V1 d c q) with (SYNC :: tl (reply_V1 d c q)).
    rewrite get_answering, set_answering by assumption.
    rewrite !deliver_reply_V1 by assumption. repeat split.
  - intros d fl c q Hc Hq packet g t. subst packet g t.
    change (reply_V2 d fl c q) with (SYNC :: tl (reply_V2 d fl c q)).
    rewrite get_answering, set_answering by assumption.
    rewrite !deliver_reply_V2 by assumption. repeat split.
Qed.

Lemma transaction_returns_reply_witness :
  fst (fst (pyMsplinkGet (answering open_state (reply_V1 62 108 [1; 2; 3]))
                         blank_packet (Some (GetArgs 108 0))))
  = Py_Packet (PyPacket MSP_V1 62 None 108 [1; 2; 3] 111)
  /\ txlog (os (snd (fst (pyMsplinkGet (answering open_state (reply_V1 62 108 [1; 2; 3]))
                                       blank_packet (Some (GetArgs 108 0))))))
     = [36; 77; 60; 0; 108; 108]
  /\ fst (fst (pyMsplinkGet (answering open_state (reply_V1 190 108 [1; 2; 3]))
                            blank_packet (Some (GetArgs 108 0))))
     = Py_NULL (Some (ErrDecode 190)).
Proof.
  assert (Ho : device_open (mdev open_state) <> 0) by discriminate.
  assert (Hv : (mspversion (mdev open_state) = 1 /\ 108 <= 255)
               \/ mspversion (mdev open_state) = 2)
    by (left; split; [reflexivity | discriminate]).
  assert (Hr : 2 <= read_retries (mdev open_state)) by discriminate.
  assert (Hc : 108 <> 255) by discriminate.
  assert (Hq : Z.of_nat (length [1; 2; 3]) <= 254) by discriminate.
  destruct (proj1 (@transaction_returns_reply open_state blank_packet 108 0 [] Ho Hv Hr)
              62 108 [1; 2; 3] Hc Hq) as (H1 & H2 & _ & _).
  destruct (proj1 (@transaction_returns_reply open_state blank_packet 108 0 [] Ho Hv Hr)
              190 108 [1; 2; 3] Hc Hq) as (H3 & _ & _ & _).
  split; [|split].
  - rewrite H1. reflexivity.
  - rewrite H2. reflexivity.
  - rewrite H3. reflexivity.
Defined.

(** ** Open, close and refusals *)

(** X15: [close] closes whatever happens.  One [close] system call is made on
    the stored descriptor, open device or not, and its return value is stored
    as the new descriptor; whether it succeeds or raises OSError, the device is
    marked closed and its name released, the warning is issued exactly when
    the device was not open, and [get] and [set] then refuse without touching
    the line. *)
Theorem close_always_closes s :
  let r := pyMsplinkClose s in
  let s' := snd r in
  device_open (mdev s') = 0 /\ devname (mdev s') = None
  /\ (snd (fst r) = true <-> device_open (mdev s) = 0)
  /\ os s' = snd (Sys.call (os s))
  /\ fd (mdev s') = fst (Sys.call (os s))
  /\ (fst (fst r) = Py_None
      \/ fst (fst r) = Py_NULL (Some (ErrErrno PyExc_OSError (errno (os s')))))
  /\ (forall resp a, pyMsplinkGet s' resp a = (not_open, s', resp))
  /\ (forall resp a, pyMsplinkSet s' resp a = (not_open, s', resp)).
Proof.
  intros r s'. subst s' r. unfold pyMsplinkClose, msplink_close.
  cbn [with_dev os mdev].
  destruct (Sys.call (os s)) as [f w] eqn:E. cbn [fst snd].
  assert (Hw : (device_open (mdev s) =? 0) = true <-> device_open (mdev s) = 0)
    by apply Z.eqb_eq.
  destruct (f <? 0) eqn:L.
  - change (MSP_SYSCALL_FAIL <? 0) with true. cbv iota. cbn [fst snd].
    repeat split; try (apply Hw); try (intros; apply Hw; assumption).
    right. reflexivity.
  - change (MSP_OK <? 0) with false. cbv iota. cbn [fst snd].
    repeat split; try (apply Hw); try (intros; apply Hw; assumption).
    left. reflexivity.
Qed.

Lemma msplink_open_quiet d w :
  ctls w = [] -> msplink_open (State d w) = (MSP_OK, State (set_fd d 0) w).
Proof.
  intros Hc.
  assert (Hcall : Sys.call w = (0, w)) by (unfold Sys.call; now rewrite Hc).
  unfold msplink_open, set_interface_attribs. cbn [os mdev].
  rewrite Hcall. cbn [with_os mdev os]. rewrite !Hcall. reflexivity.
Qed.

Lemma pyMsplinkOpen_quiet d w a path d1 :
  device_open d = 0 -> ctls w = [] ->
  parse_open_args d a = (Some path, d1) ->
  mspversion d1 = 1 \/ mspversion d1 = 2 -> 1 <= read_retries d1 ->
  pyMsplinkOpen (State d w) a true
  = (Py_None,
     State (set_device_open (set_fd (set_devname d1 (Some path)) 0) 1) w).
Proof.
  intros Ho Hc Hp Hv Hr. unfold pyMsplinkOpen. cbn [mdev]. rewrite Ho, Hp.
  change (negb (0 =? 0)) with false. cbv iota. cbn [negb].
  change (mspversion (set_devname d1 (Some path))) with (mspversion d1).
  change (read_retries (set_devname d1 (Some path))) with (read_retries d1).
  replace (negb (mspversion d1 =? 1) && negb (mspversion d1 =? 2)) with false
    by (destruct Hv as [-> | ->]; reflexivity).
  zfalse (read_retries d1 <=? 0).
  unfold with_dev. cbn [os]. rewrite msplink_open_quiet by exact Hc.
  change (MSP_OK <? 0) with false. cbv iota. reflexivity.
Qed.

Lemma pyMsplinkClose_quiet d w :
  ctls w = [] ->
  pyMsplinkClose (State d w)
  = (Py_None, device_open d =? 0,
     State (set_fd (set_device_open (set_devname d None) 0) 0) w).
Proof.
  intros Hc.
  assert (Hcall : Sys.call w = (0, w)) by (unfold Sys.call; now rewrite Hc).
  unfold pyMsplinkClose, msplink_close. cbn [with_dev os mdev]. rewrite Hcall.
  change (0 <? 0) with false. cbv iota.
  change (MSP_OK <? 0) with false. cbv iota. reflexivity.
Qed.

Lemma pyMsplinkOpen_bad_version d w a path d1 :
  device_open d = 0 ->
  parse_open_args d a = (Some path, d1) ->
  mspversion d1 <> 1 -> mspversion d1 <> 2 ->
  pyMsplinkOpen (State d w) a true
  = (bad_version (mspversion d1), State (set_devname d1 (Some path)) w).
Proof.
  intros Ho Hp Hv1 Hv2. unfold pyMsplinkOpen. cbn [mdev]. rewrite Ho, Hp.
  change (negb (0 =? 0)) with false. cbv iota. cbn [negb].
  change (mspversion (set_devname d1 (Some path))) with (mspversion d1).
  replace (negb (mspversion d1 =? 1) && negb (mspversion d1 =? 2)) with true.
  - reflexivity.
  - symmetry. apply andb_true_iff. split; apply negb_true_iff, Z.eqb_neq; assumption.
Qed.

(** X16: optional arguments of [open] are sticky.  [read_retries] and
    [msp_version] are parsed straight into the device handle, so an argument
    left out keeps the value of the previous call, not the default.  After a
    successful open with [read_retries = r] and [msp_version = v] and a
    close, an open that names only the device opens with [r] and [v] again;
    and after an open rejected for its [msp_version], an open that leaves
    the version out is rejected for the same value, without any system
    call. *)
Theorem open_arguments_are_sticky :
  (forall s path path' r v,
     device_open (mdev s) = 0 -> ctls (os s) = [] ->
     v = 1 \/ v = 2 -> 1 <= r ->
     let o1 := pyMsplinkOpen s (OpenArgs (Given path) (Given r) (Given v)) true in
     let c := pyMsplinkClose (snd o1) in
     let o2 := pyMsplinkOpen (snd c) (OpenArgs (Given path') Absent Absent) true in
     fst o1 = Py_None /\ fst (fst c) = Py_None /\ fst o2 = Py_None
     /\ cfg (mdev (snd o2)) = (1, v, r))
  /\ (forall s path path' rr rr' v,
        device_open (mdev s) = 0 ->
        v <> 1 -> v <> 2 -> rr <> Rejected -> rr' <> Rejected ->
        let o1 := pyMsplinkOpen s (OpenArgs (Given path) rr (Given v)) true in
        let o2 := pyMsplinkOpen (snd o1) (OpenArgs (Given path') rr' Absent) true in
        fst o1 = bad_version v /\ fst o2 = bad_version v
        /\ os (snd o2) = os s).
Proof.
  split.
  - intros [d w] path path' r v Ho Hc Hv Hr o1 c o2. subst o1 c o2.
    cbn [mdev os] in Ho, Hc.
    rewrite (@pyMsplinkOpen_quiet d w
               (OpenArgs (Given path) (Given r) (Given v)) path
               (set_mspversion (set_read_retries d r) v) Ho Hc eq_refl Hv Hr).
    cbn [fst snd]. rewrite pyMsplinkClose_quiet by exact Hc. cbn [fst snd].
    match goal with |- context [pyMsplinkOpen (State ?d2 w) ?a true] =>
      rewrite (@pyMsplinkOpen_quiet d2 w a path' d2 eq_refl Hc eq_refl Hv Hr) end.
    repeat split.
  - intros [d w] path path' rr rr' v Ho Hv1 Hv2 Hrr Hrr' o1 o2. subst o1 o2.
    cbn [mdev] in Ho.
    assert (H1 : exists d1,
               parse_open_args d (OpenArgs (Given path) rr (Given v)) = (Some path, d1)
               /\ device_open d1 = 0 /\ mspversion d1 = v).
    { destruct rr as [|x|]; [| |now contradiction Hrr];
        eexists; (split; [reflexivity|]); (split; [exact Ho | reflexivity]). }
    destruct H1 as (d1 & Hp1 & Ho1 & Hm1).
    rewrite (@pyMsplinkOpen_bad_version d w _ path d1 Ho Hp1)
      by (rewrite Hm1; assumption).
    cbn [fst snd]. rewrite Hm1.
    assert (H2 : exists d2,
               parse_open_args (set_devname d1 (Some path))
                 (OpenArgs (Given path') rr' Absent) = (Some path', d2)
               /\ mspversion d2 = v).
    { destruct rr' as [|x|]; [| |now contradiction Hrr'];
        eexists; (split; [reflexivity|]); exact Hm1. }
    destruct H2 as (d2 & Hp2 & Hm2).
    rewrite (@pyMsplinkOpen_bad_version (set_devname d1 (Some path)) w _ path' d2 Ho1 Hp2)
      by (rewrite Hm2; assumption).
    rewrite Hm2. repeat split.
Qed.

Lemma open_arguments_are_sticky_witness :
  let o1 := pyMsplinkOpen initial_state
              (OpenArgs (Given "/dev/ttyACM0"%string) (Given 5) (Given 2)) true in
  let c := pyMsplinkClose (snd o1) in
  let o2 := pyMsplinkOpen (snd c)
              (OpenArgs (Given "/dev/ttyACM1"%string) Absent Absent) true in
  fst o1 = Py_None /\ fst (fst c) = Py_None /\ fst o2 = Py_None
  /\ cfg (mdev (snd o2)) = (1, 2, 5).
Proof.
  apply (proj1 open_arguments_are_sticky initial_state
           "/dev/ttyACM0"%string "/dev/ttyACM1"%string 5 2).
  - reflexivity.
  - reflexivity.
  - right. reflexivity.
  - discriminate.
Defined.
(** The flush: the queue is emptied, or the call fails and [errornum] holds
    its errno; nothing is read or written either way. *)
Lemma clearRxBuffer_outcome s :
  let r := msplink_clearRxBuffer s in
  txlog (os (snd r)) = txlog (os s)
  /\ reads (os (snd r)) = reads (os s)
  /\ writes (os (snd r)) = writes (os s)
  /\ ((fst r = MSP_OK /\ mdev (snd r) = mdev s /\ rxq (os (snd r)) = [])
      \/ (fst r = MSP_SYSCALL_FAIL
          /\ errornum (mdev (snd r)) = errno (os (snd r)))).
Proof.
  unfold msplink_clearRxBuffer, Sys.tcflush, Sys.call.
  destruct s as [d [q rd wr ct tx e]]. cbn [mdev os ctls].
  destruct ct as [|[v|e'] ct].
  - cbn. do 3 (split; [reflexivity|]). left. repeat split.
  - cbn [rxq reads writes ctls txlog errno].
    destruct (v =? 0) eqn:E; cbn; rewrite ?E; cbn.
    + do 3 (split; [reflexivity|]). left. repeat split.
    + do 3 (split; [reflexivity|]). right. repeat split.
  - cbn. do 3 (split; [reflexivity|]). right. repeat split.
Qed.

(** X18: a command above 255 on a version 1 device: [get] and [set] raise
    ValueError, or OSError when the flush fails; no byte is written and no
    read is made, but the check comes after the flush, which has emptied the
    input queue when it did not fail. *)
Theorem v1_command_too_big s resp cmd f (p : list Z) w :
  device_open (mdev s) <> 0 -> mspversion (mdev s) = 1 -> 255 < cmd ->
  let g := pyMsplinkGet s resp (Some (GetArgs cmd f)) in
  let t := pyMsplinkSet s resp (SetCall (SetArgs cmd p true f w)) in
  g = t
  /\ snd g = resp
  /\ txlog (os (snd (fst g))) = txlog (os s)
  /\ reads (os (snd (fst g))) = reads (os s)
  /\ writes (os (snd (fst g))) = writes (os s)
  /\ ((fst (fst g) = command_too_big /\ rxq (os (snd (fst g))) = [])
      \/ fst (fst g) = Py_NULL (Some (ErrErrno PyExc_OSError (errno (os (snd (fst g))))))).
Proof.
  intros Ho Hv Hc g t. subst g t. unfold pyMsplinkGet, pyMsplinkSet.
  zfalse (device_open (mdev s) =? 0).
  cbn [set_contiguous negb set_cmd get_cmd].
  pose proof (clearRxBuffer_outcome s) as Hf. cbv zeta in Hf.
  destruct (msplink_clearRxBuffer s) as [r1 s1]. cbn [fst snd] in Hf.
  destruct Hf as (Htx & Hrd & Hwr & [(-> & Hd & Hq) | (-> & He)]).
  - change (MSP_OK <? 0) with false. cbv iota. rewrite Hd, Hv.
    change (1 =? 1) with true. cbv iota. ztrue (cmd >? 255). cbn [fst snd].
    split; [reflexivity|]. split; [reflexivity|]. do 3 (split; [assumption|]).
    left. split; [reflexivity | exact Hq].
  - change (MSP_SYSCALL_FAIL <? 0) with true. cbv iota. cbn [fst snd].
    split; [reflexivity|]. split; [reflexivity|]. do 3 (split; [assumption|]).
    right. unfold throwError.
    change (MSP_SYSCALL_FAIL =? MSP_OK) with false.
    change (MSP_SYSCALL_FAIL =? MSP_SYSCALL_FAIL) with true. cbv iota.
    now rewrite He.
Qed.

Lemma v1_command_too_big_witness :
  let g := pyMsplinkGet (feed open_state [1; 2; 3]) blank_packet (Some (GetArgs 300 0)) in
  let t := pyMsplinkSet (feed open_state [1; 2; 3]) blank_packet
             (SetCall (SetArgs 300 [7] true 0 true)) in
  g = t
  /\ snd g = blank_packet
  /\ txlog (os (snd (fst g))) = txlog (os (feed open_state [1; 2; 3]))
  /\ reads (os (snd (fst g))) = reads (os (feed open_state [1; 2; 3]))
  /\ writes (os (snd (fst g))) = writes (os (feed open_state [1; 2; 3]))
  /\ ((fst (fst g) = command_too_big /\ rxq (os (snd (fst g))) = [])
      \/ fst (fst g) = Py_NULL (Some (ErrErrno PyExc_OSError (errno (os (snd (fst g))))))).
Proof.
  apply (@v1_command_too_big (feed open_state [1; 2; 3]) blank_packet 300 0 [7] true).
  - discriminate.
  - reflexivity.
  - reflexivity.
Defined.







(** X17: a device that opens but cannot be configured.  When [open] succeeds
    with descriptor [f] and one of the four calls of [set_interface_attribs]
    fails with errno [e], [msplink.open] raises OSError with [e] and makes no
    further system call: the descriptor is not closed, it stays in the
    handle with the device name, and the device is not marked open. *)
Theorem failed_configuration_keeps_descriptor s a path d1 f k e rest :
  device_open (mdev s) = 0 ->
  parse_open_args (mdev s) a = (Some path, d1) ->
  mspversion d1 = 1 \/ mspversion d1 = 2 -> 1 <= read_retries d1 ->
  0 <= f -> (k < 4)%nat ->
  ctls (os s) = CtlOk f :: repeat (CtlOk 0) k ++ CtlFail e :: rest ->
  let r := pyMsplinkOpen s a true in
  fst r = Py_NULL (Some (ErrErrno PyExc_OSError e))
  /\ device_open (mdev (snd r)) = 0
  /\ fd (mdev (snd r)) = f
  /\ devname (mdev (snd r)) = Some path
  /\ ctls (os (snd r)) = rest.
Proof.
  intros Ho Hp Hv Hr Hf Hk Hc r. subst r.
  destruct s as [d [q rd wr ct tx e0]]. cbn [mdev os ctls] in *. subst ct.
  assert (Hd1 : device_open d1 = 0).
  { rewrite <- Ho. change d1 with (snd (Some path, d1)). rewrite <- Hp.
    apply device_open_parse_open_args. }
  assert (Hf' : (f <? 0) = false) by (apply Z.ltb_ge; exact Hf).
  unfold pyMsplinkOpen. cbn [mdev]. rewrite Ho, Hp.
  change (negb (0 =? 0)) with false. cbv iota. cbn [negb].
  change (mspversion (set_devname d1 (Some path))) with (mspversion d1).
  change (read_retries (set_devname d1 (Some path))) with (read_retries d1).
  replace (negb (mspversion d1 =? 1) && negb (mspversion d1 =? 2)) with false
    by (destruct Hv as [-> | ->]; reflexivity).
  zfalse (read_retries d1 <=? 0).
  unfold msplink_open, with_dev. cbn [os mdev].
  unfold Sys.call at 1. cbn [ctls rxq reads writes txlog errno].
  destruct k as [|[|[|[|k]]]]; try lia;
    unfold set_interface_attribs, Sys.call;
    cbn [repeat app os mdev ctls rxq reads writes txlog errno with_os];
    cbn; rewrite Hf'; cbn; rewrite Hd1; repeat split.
Qed.

Lemma failed_configuration_keeps_descriptor_witness :
  let s := State PyInit_msplink
                 (World [] [] [] [CtlOk 3; CtlOk 0; CtlOk 0; CtlFail 25; CtlOk 0] [] 0) in
  let r := pyMsplinkOpen s (OpenArgs (Given "/dev/ttyACM0"%string) Absent Absent) true in
  fst r = Py_NULL (Some (ErrErrno PyExc_OSError 25))
  /\ device_open (mdev (snd r)) = 0
  /\ fd (mdev (snd r)) = 3
  /\ devname (mdev (snd r)) = Some "/dev/ttyACM0"%string
  /\ ctls (os (snd r)) = [CtlOk 0].
Proof.
  apply (@failed_configuration_keeps_descriptor
           (State PyInit_msplink
              (World [] [] [] [CtlOk 3; CtlOk 0; CtlOk 0; CtlFail 25; CtlOk 0] [] 0))
           (OpenArgs (Given "/dev/ttyACM0"%string) Absent Absent)
           "/dev/ttyACM0"%string PyInit_msplink 3 2%nat 25 [CtlOk 0]).
  - reflexivity.
  - reflexivity.
  - left. reflexivity.
  - discriminate.
  - discriminate.
  - lia.
  - reflexivity.
Defined.

(** ** Failed system calls *)

Lemma errno_saved_save_errno s : errno_saved (save_errno s).
Proof. reflexivity. Qed.

Lemma errno_msplink_write s c len : syscall_fail_saved (msplink_write s c len).
Proof.
  unfold syscall_fail_saved, msplink_write.
  destruct (Sys.write (os s) c len) as [ret w].
  destruct (ret <? 0); [intros _; apply errno_saved_save_errno|].
  destruct (negb _); cbn [fst]; discriminate.
Qed.

Lemma errno_read_loop i : forall len rem acc s,
  (len < 0 -> rem < 0) ->
  fst (fst (read_loop i len rem acc s)) = MSP_SYSCALL_FAIL ->
  errno_saved (snd (read_loop i len rem acc s)).
Proof.
  induction i as [|i IH]; intros len rem acc s Hneg; cbn [read_loop].
  - discriminate.
  - destruct (Sys.read (os s) rem) as [[ret got] w].
    destruct (ret <? 0) eqn:L; [intros _; apply errno_saved_save_errno|].
    apply Z.ltb_ge in L.
    destruct (rem =? 0) eqn:E.
    + apply Z.eqb_eq in E. cbn [fst]. unfold MSP_SYSCALL_FAIL. lia.
    + apply IH. lia.
Qed.

Lemma errno_msplink_read s len :
  fst (fst (msplink_read s len)) = MSP_SYSCALL_FAIL ->
  errno_saved (snd (msplink_read s len)).
Proof. unfold msplink_read. apply errno_read_loop. lia. Qed.

Lemma errno_msplink_waituntilsent s : syscall_fail_saved (msplink_waituntilsent s).
Proof.
  unfold syscall_fail_saved, msplink_waituntilsent.
  destruct (Sys.call (os s)) as [r w].
  destruct (negb _); [intros _; apply errno_saved_save_errno | discriminate].
Qed.

Lemma errno_msplink_clearRxBuffer s : syscall_fail_saved (msplink_clearRxBuffer s).
Proof.
  unfold syscall_fail_saved, msplink_clearRxBuffer.
  destruct (Sys.tcflush (os s)) as [r w].
  destruct (negb _); [intros _; apply errno_saved_save_errno | discriminate].
Qed.

Lemma errno_set_interface_attribs s : syscall_fail_saved (set_interface_attribs s).
Proof.
  unfold syscall_fail_saved, set_interface_attribs.
  destruct (Sys.call (os s)) as [r1 w1].
  destruct (negb _); [intros _; apply errno_saved_save_errno|].
  destruct (Sys.call w1) as [r2 w2].
  destruct (negb _); [intros _; apply errno_saved_save_errno|].
  destruct (Sys.call w2) as [r3 w3].
  destruct (negb _); [intros _; apply errno_saved_save_errno|].
  destruct (Sys.call w3) as [r4 w4].
  destruct (negb _); [intros _; apply errno_saved_save_errno | discriminate].
Qed.

Lemma errno_msplink_open s : syscall_fail_saved (msplink_open s).
Proof.
  unfold syscall_fail_saved, msplink_open.
  destruct (Sys.call (os s)) as [f w].
  destruct (f <? 0); [intros _; apply errno_saved_save_errno|].
  destruct (set_interface_attribs _) as [r s2].
  destruct (negb _); [intros _; apply errno_saved_save_errno | discriminate].
Qed.

Lemma errno_msplink_close s : syscall_fail_saved (msplink_close s).
Proof.
  unfold syscall_fail_saved, msplink_close.
  destruct (Sys.call (os s)) as [f w].
  destruct (f <? 0); [intros _; apply errno_saved_save_errno | discriminate].
Qed.

(** One [msplink_write] of an encoder: its failure is the encoder's. *)
Ltac write_step :=
  match goal with
  | |- context [msplink_write ?s ?c ?l] =>
      let r := fresh "r" in let s' := fresh "s" in
      let H := fresh "H" in let L := fresh "L" in
      pose proof (errno_msplink_write s c l) as H;
      destruct (msplink_write s c l) as [r s'];
      destruct (r <? 0) eqn:L; [exact H|]; clear H
  end.

Lemma errno_send_V1_tail s p len ck : syscall_fail_saved (send_V1_tail s p len ck).
Proof.
  unfold send_V1_tail. do 2 write_step. unfold syscall_fail_saved. discriminate.
Qed.

Lemma errno_send_V1 s cmd p len : syscall_fail_saved (send_V1 s cmd p len).
Proof.
  unfold send_V1. write_step.
  destruct (len >? 254); [write_step|]; apply errno_send_V1_tail.
Qed.

Lemma errno_send_V2 s f cmd p len : syscall_fail_saved (send_V2 s f cmd p len).
Proof.
  unfold send_V2. do 3 write_step. unfold syscall_fail_saved. discriminate.
Qed.

Lemma errno_saved_store_buf d s : errno_saved s -> errno_saved (store_buf d s).
Proof. exact (fun H => H). Qed.

(** One [msplink_read] of a parser: its failure is the parser's. *)
Ltac read_step :=
  match goal with
  | |- context [msplink_read ?s ?l] =>
      let r := fresh "r" in let b := fresh "b" in let s' := fresh "s" in
      let H := fresh "H" in let L := fresh "L" in
      pose proof (@errno_msplink_read s l) as H;
      destruct (msplink_read s l) as [[r b] s'];
      cbn [fst snd] in H;
      destruct (r <? 0) eqn:L;
      [unfold parse_fail_saved; cbn [fst snd]; intros E;
       try apply errno_saved_store_buf; exact (H E)|];
      clear H
  end.

Lemma errno_get_sync_loop i : forall s, syscall_fail_saved (get_sync_loop i s).
Proof.
  induction i as [|i IH]; intros s; cbn [get_sync_loop].
  - unfold syscall_fail_saved. discriminate.
  - pose proof (@errno_msplink_read s 1) as H.
    destruct (msplink_read s 1) as [[r b] s']. cbn [fst snd] in H.
    destruct (r =? MSP_RX_FAIL); [unfold syscall_fail_saved; discriminate|].
    destruct (r <? 0); [exact H|].
    destruct (_ =? SYNC); [unfold syscall_fail_saved; discriminate | apply IH].
Qed.

Lemma errno_parse_V2 s pkt : parse_fail_saved (parse_V2 s pkt).
Proof.
  unfold parse_V2. read_step.
  destruct (_ >? _); [unfold parse_fail_saved; discriminate|].
  read_step.
  destruct (negb _); unfold parse_fail_saved; discriminate.
Qed.

Lemma errno_parse_V1_tail s pkt calc : parse_fail_saved (parse_V1_tail s pkt calc).
Proof.
  unfold parse_V1_tail. destruct (function pkt =? 255).
  - pose proof (errno_parse_V2 s pkt) as H.
    destruct (parse_V2 s pkt) as [[r s1] pkt1].
    destruct (r <? 0); [exact H | unfold parse_fail_saved; discriminate].
  - destruct (_ >? _); [unfold parse_fail_saved; discriminate|].
    read_step.
    destruct (negb _); unfold parse_fail_saved; discriminate.
Qed.

Lemma errno_parse_V1 s pkt : parse_fail_saved (parse_V1 s pkt).
Proof.
  unfold parse_V1. read_step.
  destruct (_ =? 255); [read_step|]; apply errno_parse_V1_tail.
Qed.

Lemma errno_parse_packet s pkt : parse_fail_saved (parse_packet s pkt).
Proof.
  unfold parse_packet.
  pose proof (errno_msplink_waituntilsent s) as H1.
  destruct (msplink_waituntilsent s) as [r1 s1].
  destruct (r1 <? 0); [exact H1|]. clear H1.
  unfold get_sync. pose proof (errno_get_sync_loop MAX_SYNC_SEARCH_BYTES s1) as H2.
  destruct (get_sync_loop MAX_SYNC_SEARCH_BYTES s1) as [r2 s2].
  destruct (r2 <? 0); [exact H2|]. clear H2.
  read_step.
  match goal with |- context [set_direction ?p ?d] => generalize (set_direction p d) end.
  intros pkt1.
  assert (H3 : parse_fail_saved
                 (if version pkt1 =? MSP_V1 then parse_V1 s0 pkt1
                  else if version pkt1 =? MSP_V2 then parse_V2 s0 pkt1
                  else (MSP_LIB_INTERNAL_ERROR, s0, pkt1))).
  { destruct (_ =? MSP_V1); [apply errno_parse_V1|].
    destruct (_ =? MSP_V2); [apply errno_parse_V2|].
    unfold parse_fail_saved; discriminate. }
  destruct (if version pkt1 =? MSP_V1 then _ else _) as [[r4 s4] pkt4].
  destruct (r4 <? 0); [exact H3|].
  destruct (_ =? MSP_DIR_ERROR); unfold parse_fail_saved; discriminate.
Qed.

Lemma throwError_errno d ret ty e :
  throwError d ret = Some (ErrErrno ty e) ->
  ret = MSP_SYSCALL_FAIL /\ ty = PyExc_OSError /\ e = errornum d.
Proof.
  unfold throwError. destruct (ret =? MSP_OK); [discriminate|].
  destruct (ret =? MSP_SYSCALL_FAIL) eqn:E.
  - apply Z.eqb_eq in E. intros H. injection H as <- <-. repeat split. exact E.
  - repeat match goal with |- context [if ?c then _ else _] => destruct c end;
      discriminate.
Qed.

Lemma throwPacketError_errno d ret pkt ty e :
  throwPacketError d ret pkt = Some (ErrErrno ty e) ->
  ret = MSP_SYSCALL_FAIL /\ ty = PyExc_OSError /\ e = errornum d.
Proof.
  unfold throwPacketError. destruct (ret =? MSP_OK); [discriminate|].
  destruct (packResponse d pkt) as [p|e'] eqn:E.
  - destruct (ret =? MSP_RX_CHECKSUM_MISMATCH); [discriminate|].
    destruct (ret =? MSP_RX_CLIENT_NACK); [discriminate|].
    apply throwError_errno.
  - destruct (packResponse_error _ _ E) as [b ->].
    destruct (ret =? MSP_RX_CHECKSUM_MISMATCH); [discriminate|].
    destruct (ret =? MSP_RX_CLIENT_NACK); [discriminate|].
    apply throwError_errno.
Qed.

Lemma return_packet_not_errno d rx ty e :
  return_packet d rx <> Py_NULL (Some (ErrErrno ty e)).
Proof.
  unfold return_packet. destruct (packResponse d rx) as [p|e'] eqn:E; [discriminate|].
  destruct (packResponse_error _ _ E) as [b ->]. discriminate.
Qed.

(** The exception raised from a return code of the library. *)
Lemma oserror_of_code (r : Z * state) ty e :
  syscall_fail_saved r ->
  Py_NULL (throwError (mdev (snd r)) (fst r)) = Py_NULL (Some (ErrErrno ty e)) ->
  ty = PyExc_OSError /\ e = errno (os (snd r)).
Proof.
  intros Hs H. injection H as H. apply throwError_errno in H.
  destruct H as (Hr & -> & ->). split; [reflexivity | exact (Hs Hr)].
Qed.

Lemma oserror_of_parse (r : Z * state * mspPacket_t) ty e :
  parse_fail_saved r ->
  Py_NULL (throwPacketError (mdev (snd (fst r))) (fst (fst r)) (snd r))
  = Py_NULL (Some (ErrErrno ty e)) ->
  ty = PyExc_OSError /\ e = errno (os (snd (fst r))).
Proof.
  intros Hs H. injection H as H. apply throwPacketError_errno in H.
  destruct H as (Hr & -> & ->). split; [reflexivity | exact (Hs Hr)].
Qed.

(** X20: the errno of OSError.  Whenever [open], [close], [get] or [set] raise
    an exception built from an errno, it is OSError and its errno is the
    value [errno] holds when the entry point returns, as the failed system
    call left it, for every state of the module and every behaviour of the
    line. *)
Theorem oserror_carries_errno :
  (forall s a m ty e,
     fst (pyMsplinkOpen s a m) = Py_NULL (Some (ErrErrno ty e)) ->
     ty = PyExc_OSError /\ e = errno (os (snd (pyMsplinkOpen s a m))))
  /\ (forall s ty e,
        fst (fst (pyMsplinkClose s)) = Py_NULL (Some (ErrErrno ty e)) ->
        ty = PyExc_OSError /\ e = errno (os (snd (pyMsplinkClose s))))
  /\ (forall s resp a ty e,
        fst (fst (pyMsplinkGet s resp a)) = Py_NULL (Some (ErrErrno ty e)) ->
        ty = PyExc_OSError /\ e = errno (os (snd (fst (pyMsplinkGet s resp a)))))
  /\ (forall s resp a ty e,
        fst (fst (pyMsplinkSet s resp a)) = Py_NULL (Some (ErrErrno ty e)) ->
        ty = PyExc_OSError /\ e = errno (os (snd (fst (pyMsplinkSet s resp a))))).
Proof.
  split; [|split; [|split]].
  - intros s a m ty e. unfold pyMsplinkOpen.
    destruct (negb _); [discriminate|].
    destruct (parse_open_args _ _) as [[path|] d1]; [|discriminate].
    destruct (negb m); [discriminate|].
    destruct (_ && _); [discriminate|].
    destruct (_ <=? 0); [discriminate|].
    match goal with |- context [msplink_open ?x] =>
      pose proof (errno_msplink_open x) as H; destruct (msplink_open x) as [ret s3] end.
    destruct (ret <? 0); [|discriminate].
    cbn [fst snd]. apply (@oserror_of_code (ret, s3)). exact H.
  - intros s ty e. unfold pyMsplinkClose.
    match goal with |- context [msplink_close ?x] =>
      pose proof (errno_msplink_close x) as H; destruct (msplink_close x) as [ret s2] end.
    destruct (ret <? 0); [|discriminate].
    cbn [fst snd]. apply (@oserror_of_code (ret, s2)). exact H.
  - intros s resp a ty e. unfold pyMsplinkGet.
    destruct (_ =? 0); [discriminate|].
    destruct a as [a|]; [|discriminate].
    pose proof (errno_msplink_clearRxBuffer s) as H1.
    destruct (msplink_clearRxBuffer s) as [r1 s1].
    destruct (r1 <? 0); [cbn [fst snd]; now apply (@oserror_of_code (r1, s1))|].
    clear H1. destruct (mspversion (mdev s1) =? 1).
    + destruct (_ >? 255); [discriminate|].
      match goal with |- context [send_V1 ?x ?c ?p ?l] =>
        pose proof (errno_send_V1 x c p l) as H2;
        destruct (send_V1 x c p l) as [r2 s2] end.
      destruct (r2 <? 0); [cbn [fst snd]; now apply (@oserror_of_code (r2, s2))|].
      pose proof (errno_parse_packet s2 resp) as H3.
      destruct (parse_packet s2 resp) as [[r3 s3] rp].
      destruct (r3 <? 0);
        [|cbn [fst]; intros H; now destruct (return_packet_not_errno _ _ H)].
      cbn [fst snd]. now apply (@oserror_of_parse (r3, s3, rp)).
    + destruct (mspversion (mdev s1) =? 2); [|discriminate].
      match goal with |- context [send_V2 ?x ?f ?c ?p ?l] =>
        pose proof (errno_send_V2 x f c p l) as H2;
        destruct (send_V2 x f c p l) as [r2 s2] end.
      destruct (r2 <? 0); [cbn [fst snd]; now apply (@oserror_of_code (r2, s2))|].
      pose proof (errno_parse_packet s2 resp) as H3.
      destruct (parse_packet s2 resp) as [[r3 s3] rp].
      destruct (r3 <? 0);
        [|cbn [fst]; intros H; now destruct (return_packet_not_errno _ _ H)].
      cbn [fst snd]. now apply (@oserror_of_parse (r3, s3, rp)).
  - intros s resp a ty e. unfold pyMsplinkSet.
    destruct (_ =? 0); [discriminate|].
    destruct a as [a|[|]]; [|discriminate|discriminate].
    destruct (negb _); [discriminate|].
    pose proof (errno_msplink_clearRxBuffer s) as H1.
    destruct (msplink_clearRxBuffer s) as [r1 s1].
    destruct (r1 <? 0); [cbn [fst snd]; now apply (@oserror_of_code (r1, s1))|].
    clear H1. destruct (mspversion (mdev s1) =? 1).
    + destruct (_ >? 255); [discriminate|].
      match goal with |- context [send_V1 ?x ?c ?p ?l] =>
        pose proof (errno_send_V1 x c p l) as H2;
        destruct (send_V1 x c p l) as [r2 s2] end.
      destruct (r2 <? 0); [cbn [fst snd]; now apply (@oserror_of_code (r2, s2))|].
      destruct (wait_for_ack a); [|discriminate].
      pose proof (errno_parse_packet s2 resp) as H3.
      destruct (parse_packet s2 resp) as [[r3 s3] rp].
      destruct (r3 <? 0);
        [|cbn [fst]; intros H; now destruct (return_packet_not_errno _ _ H)].
      cbn [fst snd]. now apply (@oserror_of_parse (r3, s3, rp)).
    + destruct (mspversion (mdev s1) =? 2); [|discriminate].
      match goal with |- context [send_V2 ?x ?f ?c ?p ?l] =>
        pose proof (errno_send_V2 x f c p l) as H2;
        destruct (send_V2 x f c p l) as [r2 s2] end.
      destruct (r2 <? 0); [cbn [fst snd]; now apply (@oserror_of_code (r2, s2))|].
      destruct (wait_for_ack a); [|discriminate].
      pose proof (errno_parse_packet s2 resp) as H3.
      destruct (parse_packet s2 resp) as [[r3 s3] rp].
      destruct (r3 <? 0);
        [|cbn [fst]; intros H; now destruct (return_packet_not_errno _ _ H)].
      cbn [fst snd]. now apply (@oserror_of_parse (r3, s3, rp)).
Qed.

Lemma oserror_carries_errno_witness :
  let s := State (set_device_open PyInit_msplink 1)
                 (World [] [RdFault 5] [] [] [] 0) in
  PyExc_OSError = PyExc_OSError
  /\ 5 = errno (os (snd (fst (pyMsplinkGet s blank_packet (Some (GetArgs 108 0)))))).
Proof.
  apply (proj1 (proj2 (proj2 oserror_carries_errno))
           (State (set_device_open PyInit_msplink 1) (World [] [RdFault 5] [] [] [] 0))
           blank_packet (Some (GetArgs 108 0)) PyExc_OSError 5).
  reflexivity.
Defined.

(** ** The receive buffer *)

Lemma sys_read_length w count :
  let '(ret, got, w') := Sys.read w count in
  (length got <= Z.to_nat count)%nat
  /\ (ret = -1 \/ ret = Z.of_nat (length got)).
Proof.
  unfold Sys.read. destruct (reads w) as [|[bs|e] rd].
  - split; [apply firstn_le_length | now right].
  - split; [apply firstn_le_length | now right].
  - split; [cbn; lia | now left].
Qed.

Lemma read_loop_length i : forall len rem acc s,
  (length (snd (fst (read_loop i len rem acc s))) <= length acc + Z.to_nat rem)%nat.
Proof.
  induction i as [|i IH]; intros len rem acc s; cbn [read_loop].
  - cbn. lia.
  - pose proof (sys_read_length (os s) rem) as H.
    destruct (Sys.read (os s) rem) as [[ret got] w]. destruct H as [Hl Hr].
    destruct (ret <? 0) eqn:L; [cbn; lia|].
    apply Z.ltb_ge in L.
    destruct (rem =? 0).
    + cbn [fst snd]. rewrite length_app. lia.
    + etransitivity; [apply IH|]. rewrite length_app. lia.
Qed.

Lemma msplink_read_length s len :
  (length (snd (fst (msplink_read s len))) <= Z.to_nat len)%nat.
Proof. unfold msplink_read. apply (read_loop_length _ len len [] s). Qed.

Lemma buf_read_loop i : forall len rem acc s,
  buf (mdev (snd (read_loop i len rem acc s))) = buf (mdev s).
Proof.
  induction i as [|i IH]; intros len rem acc s; cbn [read_loop]; [reflexivity|].
  destruct (Sys.read (os s) rem) as [[ret got] w].
  destruct (ret <? 0); [reflexivity|].
  destruct (rem =? 0); [reflexivity|].
  rewrite IH. reflexivity.
Qed.

Lemma buf_msplink_read s len : buf (mdev (snd (msplink_read s len))) = buf (mdev s).
Proof. apply buf_read_loop. Qed.

Lemma buf_msplink_write s c len : buf (mdev (snd (msplink_write s c len))) = buf (mdev s).
Proof.
  unfold msplink_write. destruct (Sys.write _ _ _) as [ret w].
  destruct (ret <? 0); [reflexivity|]. destruct (negb _); reflexivity.
Qed.

Lemma buf_msplink_waituntilsent s :
  buf (mdev (snd (msplink_waituntilsent s))) = buf (mdev s).
Proof.
  unfold msplink_waituntilsent. destruct (Sys.call _) as [r w].
  destruct (negb _); reflexivity.
Qed.

Lemma buf_msplink_clearRxBuffer s :
  buf (mdev (snd (msplink_clearRxBuffer s))) = buf (mdev s).
Proof.
  unfold msplink_clearRxBuffer. destruct (Sys.tcflush _) as [r w].
  destruct (negb _); reflexivity.
Qed.

Lemma buf_get_sync_loop i : forall s,
  buf (mdev (snd (get_sync_loop i s))) = buf (mdev s).
Proof.
  induction i as [|i IH]; intros s; cbn [get_sync_loop]; [reflexivity|].
  pose proof (buf_msplink_read s 1) as H.
  destruct (msplink_read s 1) as [[r b] s1]. cbn [snd] in H.
  destruct (r =? MSP_RX_FAIL); [exact H|].
  destruct (r <? 0); [exact H|].
  destruct (_ =? SYNC); [exact H|]. now rewrite IH.
Qed.

Ltac buf_write_step :=
  match goal with
  | |- context [msplink_write ?s ?c ?l] =>
      let r := fresh "r" in let s' := fresh "s" in let H := fresh "H" in
      pose proof (buf_msplink_write s c l) as H;
      destruct (msplink_write s c l) as [r s']; cbn [snd] in H;
      destruct (r <? 0); [exact H|]; rewrite <- H; clear H
  end.

Lemma buf_send_V1 s cmd p len : buf (mdev (snd (send_V1 s cmd p len))) = buf (mdev s).
Proof.
  unfold send_V1, send_V1_tail. buf_write_step.
  destruct (len >? 254); [buf_write_step|]; do 2 buf_write_step; reflexivity.
Qed.

Lemma buf_send_V2 s f cmd p len : buf (mdev (snd (send_V2 s f cmd p len))) = buf (mdev s).
Proof. unfold send_V2. do 3 buf_write_step. reflexivity. Qed.

(** Storing at most as many bytes as the buffer holds keeps its size. *)
Lemma buf_intact_store_buf data s :
  (length data <= length (buf (mdev s)))%nat ->
  length (buf (mdev (store_buf data s))) = length (buf (mdev s)).
Proof.
  intros H. rewrite buf_store_buf, length_app, length_skipn. lia.
Qed.

(** The read of payload and checksum byte into the buffer, behind the size
    check of the parsers. *)
Lemma buf_intact_body s size :
  buf_intact s ->
  (size >? READ_BUFFER_SIZE - 1) = false ->
  let '(ret, got, s1) := msplink_read s (size + 1) in
  buf_intact (store_buf got s1).
Proof.
  intros Hb Hs. rewrite Z.gtb_ltb in Hs. apply Z.ltb_ge in Hs.
  pose proof (msplink_read_length s (size + 1)) as Hl.
  pose proof (buf_msplink_read s (size + 1)) as He.
  destruct (msplink_read s (size + 1)) as [[ret got] s1]. cbn [fst snd] in Hl, He.
  unfold buf_intact in *. unfold READ_BUFFER_SIZE in *.
  rewrite buf_intact_store_buf; rewrite He; [exact Hb | lia].
Qed.

Ltac buf_read_step :=
  match goal with
  | Hb : buf_intact ?s |- context [msplink_read ?s ?l] =>
      let r := fresh "r" in let b := fresh "b" in let s' := fresh "s" in
      let H := fresh "H" in
      pose proof (buf_msplink_read s l) as H;
      destruct (msplink_read s l) as [[r b] s']; cbn [snd] in H;
      assert (buf_intact s') by (unfold buf_intact in *; now rewrite H);
      clear H; destruct (r <? 0); [assumption|]
  end.

Lemma buf_intact_parse_V2 s pkt :
  buf_intact s -> buf_intact (snd (fst (parse_V2 s pkt))).
Proof.
  intros Hb. unfold parse_V2. buf_read_step.
  destruct (_ >? _) eqn:G; [assumption|].
  match goal with H : buf_intact ?s1 |- context [msplink_read ?s1 (?n + 1)] =>
    pose proof (@buf_intact_body s1 n H G) as Hbody;
    destruct (msplink_read s1 (n + 1)) as [[r2 got] s2] end.
  destruct (r2 <? 0); [assumption|].
  destruct (negb _); assumption.
Qed.

Lemma buf_intact_parse_V1_tail s pkt calc :
  buf_intact s -> buf_intact (snd (fst (parse_V1_tail s pkt calc))).
Proof.
  intros Hb. unfold parse_V1_tail. destruct (function pkt =? 255).
  - pose proof (buf_intact_parse_V2 pkt Hb) as H.
    destruct (parse_V2 s pkt) as [[r s1] p1]. destruct (r <? 0); exact H.
  - destruct (_ >? _) eqn:G; [assumption|].
    pose proof (@buf_intact_body s (payload_size pkt) Hb G) as Hbody.
    destruct (msplink_read s (payload_size pkt + 1)) as [[r2 got] s2].
    destruct (r2 <? 0); [assumption|].
    destruct (negb _); assumption.
Qed.

Lemma buf_intact_parse_V1 s pkt :
  buf_intact s -> buf_intact (snd (fst (parse_V1 s pkt))).
Proof.
  intros Hb. unfold parse_V1. buf_read_step.
  destruct (_ =? 255); [buf_read_step|]; now apply buf_intact_parse_V1_tail.
Qed.

Lemma buf_intact_parse_packet s pkt :
  buf_intact s -> buf_intact (snd (fst (parse_packet s pkt))).
Proof.
  intros Hb. unfold parse_packet.
  pose proof (buf_msplink_waituntilsent s) as H1.
  destruct (msplink_waituntilsent s) as [r1 s1]. cbn [snd] in H1.
  assert (Hb1 : buf_intact s1) by (unfold buf_intact in *; now rewrite H1).
  destruct (r1 <? 0); [exact Hb1|].
  unfold get_sync. pose proof (buf_get_sync_loop MAX_SYNC_SEARCH_BYTES s1) as H2.
  destruct (get_sync_loop MAX_SYNC_SEARCH_BYTES s1) as [r2 s2]. cbn [snd] in H2.
  assert (Hb2 : buf_intact s2) by (unfold buf_intact in *; now rewrite H2).
  destruct (r2 <? 0); [exact Hb2|].
  clear Hb Hb1 H1 H2. buf_read_step.
  match goal with |- context [set_direction ?p ?d] => generalize (set_direction p d) end.
  intros pkt1.
  assert (H3 : buf_intact
                 (snd (fst (if version pkt1 =? MSP_V1 then parse_V1 s0 pkt1
                            else if version pkt1 =? MSP_V2 then parse_V2 s0 pkt1
                            else (MSP_LIB_INTERNAL_ERROR, s0, pkt1))))).
  { destruct (_ =? MSP_V1); [now apply buf_intact_parse_V1|].
    destruct (_ =? MSP_V2); [now apply buf_intact_parse_V2 | assumption]. }
  destruct (if version pkt1 =? MSP_V1 then _ else _) as [[r4 s4] pkt4].
  destruct (r4 <? 0); [exact H3|].
  destruct (_ =? MSP_DIR_ERROR); exact H3.
Qed.

(** ** The payload handed to Python *)

Lemma read_loop_code i : forall len rem acc s,
  (len < 0 -> rem < 0) ->
  let ret := fst (fst (read_loop i len rem acc s)) in
  ret = MSP_RX_FAIL \/ ret = MSP_SYSCALL_FAIL \/ (ret = len /\ 0 <= len).
Proof.
  induction i as [|i IH]; intros len rem acc s Hneg; cbn [read_loop].
  - now left.
  - destruct (Sys.read (os s) rem) as [[ret got] w].
    destruct (ret <? 0) eqn:L; [right; now left|].
    apply Z.ltb_ge in L.
    destruct (rem =? 0) eqn:E.
    + apply Z.eqb_eq in E. right; right. cbn [fst]. split; [reflexivity | lia].
    + apply IH. lia.
Qed.

Lemma msplink_read_code s len :
  let ret := fst (fst (msplink_read s len)) in
  ret = MSP_RX_FAIL \/ ret = MSP_SYSCALL_FAIL \/ (ret = len /\ 0 <= len).
Proof. unfold msplink_read. apply read_loop_code. lia. Qed.

Lemma msplink_read_not_shown s len :
  (fst (fst (msplink_read s len)) <? 0) = true ->
  ~ packet_shown (fst (fst (msplink_read s len))).
Proof.
  intros L. apply Z.ltb_lt in L.
  destruct (msplink_read_code s len) as [E | [E | [E Hl]]];
    unfold packet_shown; rewrite ?E in *;
    unfold MSP_RX_FAIL, MSP_SYSCALL_FAIL, MSP_RX_CHECKSUM_MISMATCH, MSP_RX_CLIENT_NACK in *;
    lia.
Qed.

Ltac sized_read_step :=
  match goal with
  | |- context [msplink_read ?s ?l] =>
      let r := fresh "r" in let b := fresh "b" in let s' := fresh "s" in
      let H := fresh "H" in let L := fresh "L" in
      pose proof (@msplink_read_not_shown s l) as H;
      destruct (msplink_read s l) as [[r b] s']; cbn [fst snd] in H;
      destruct (r <? 0) eqn:L;
      [unfold sized; cbn [fst snd]; intros E; now destruct (H eq_refl)|];
      clear H L
  end.

Lemma not_shown_code ret s pkt :
  ret = MSP_OUT_OF_MEMORY \/ ret = MSP_LIB_INTERNAL_ERROR
  \/ ret = MSP_RX_SYNC_NOT_FOUND \/ ret = MSP_SYSCALL_FAIL ->
  sized (ret, s, pkt).
Proof.
  intros H [E | [E | E]]; cbn [fst] in E; exfalso;
    destruct H as [-> | [-> | [-> | ->]]];
    unfold MSP_OUT_OF_MEMORY, MSP_LIB_INTERNAL_ERROR, MSP_RX_SYNC_NOT_FOUND,
           MSP_SYSCALL_FAIL, MSP_RX_CHECKSUM_MISMATCH, MSP_RX_CLIENT_NACK in *;
    lia.
Qed.

Lemma sized_parse_V2 s pkt : sized (parse_V2 s pkt).
Proof.
  unfold parse_V2. sized_read_step.
  destruct (_ >? _) eqn:G; [apply not_shown_code; now left|].
  rewrite Z.gtb_ltb in G. apply Z.ltb_ge in G.
  sized_read_step.
  destruct (negb _); unfold sized; cbn [fst snd]; intros _; pkt_simpl; exact G.
Qed.

Lemma sized_parse_V1_tail s pkt calc : sized (parse_V1_tail s pkt calc).
Proof.
  unfold parse_V1_tail. destruct (function pkt =? 255).
  - pose proof (sized_parse_V2 s pkt) as H.
    destruct (parse_V2 s pkt) as [[r s1] p1].
    destruct (r <? 0) eqn:L; [exact H|].
    apply Z.ltb_ge in L. intros _. apply H. left. exact L.
  - destruct (_ >? _) eqn:G; [apply not_shown_code; now left|].
    rewrite Z.gtb_ltb in G. apply Z.ltb_ge in G.
    sized_read_step.
    destruct (negb _); unfold sized; cbn [fst snd]; intros _; pkt_simpl; exact G.
Qed.

Lemma sized_parse_V1 s pkt : sized (parse_V1 s pkt).
Proof.
  unfold parse_V1. sized_read_step.
  destruct (_ =? 255); [sized_read_step|]; apply sized_parse_V1_tail.
Qed.

Lemma get_sync_loop_code i : forall s,
  let ret := fst (get_sync_loop i s) in
  ret = MSP_OK \/ ret = MSP_RX_SYNC_NOT_FOUND \/ ret = MSP_SYSCALL_FAIL.
Proof.
  induction i as [|i IH]; intros s; cbn [get_sync_loop].
  - right; now left.
  - pose proof (msplink_read_code s 1) as H.
    destruct (msplink_read s 1) as [[r b] s1]. cbn [fst] in H.
    destruct (r =? MSP_RX_FAIL) eqn:E; [right; now left|].
    apply Z.eqb_neq in E.
    destruct (r <? 0) eqn:L.
    + apply Z.ltb_lt in L. cbn [fst]. right; right.
      destruct H as [H | [H | [H _]]]; [contradiction | exact H | lia].
    + destruct (_ =? SYNC); [now left | apply IH].
Qed.

Lemma sized_parse_packet s pkt : sized (parse_packet s pkt).
Proof.
  unfold parse_packet, msplink_waituntilsent.
  destruct (Sys.call (os s)) as [r0 w0].
  destruct (negb _).
  { change (MSP_SYSCALL_FAIL <? 0) with true. cbv iota.
    apply not_shown_code. now do 3 right. }
  change (MSP_OK <? 0) with false. cbv iota.
  unfold get_sync.
  pose proof (get_sync_loop_code MAX_SYNC_SEARCH_BYTES (with_os s w0)) as H2.
  destruct (get_sync_loop MAX_SYNC_SEARCH_BYTES (with_os s w0)) as [r2 s2].
  cbn [fst] in H2.
  destruct (r2 <? 0) eqn:L2.
  { apply not_shown_code. destruct H2 as [-> | [-> | ->]];
      [discriminate L2 | right; right; now left | now do 3 right]. }
  clear H2 L2. sized_read_step.
  match goal with |- context [set_direction ?p ?d] => generalize (set_direction p d) end.
  intros pkt1.
  assert (H3 : sized (if version pkt1 =? MSP_V1 then parse_V1 s0 pkt1
                      else if version pkt1 =? MSP_V2 then parse_V2 s0 pkt1
                      else (MSP_LIB_INTERNAL_ERROR, s0, pkt1))).
  { destruct (_ =? MSP_V1); [apply sized_parse_V1|].
    destruct (_ =? MSP_V2); [apply sized_parse_V2|].
    apply not_shown_code. right; now left. }
  destruct (if version pkt1 =? MSP_V1 then _ else _) as [[r4 s4] pkt4].
  destruct (r4 <? 0) eqn:L4; [exact H3|].
  apply Z.ltb_ge in L4.
  destruct (_ =? MSP_DIR_ERROR); intros _; apply H3; left; exact L4.
Qed.

Lemma payload_bytes_length d rx :
  payload_size rx <= READ_BUFFER_SIZE - 1 ->
  Z.of_nat (length (payload_bytes d rx)) <= READ_BUFFER_SIZE - 1.
Proof.
  intros H. unfold payload_bytes, READ_BUFFER_SIZE in *.
  destruct (payload rx); [cbn; lia|].
  rewrite length_firstn. lia.
Qed.

Lemma throwError_carried d ret : carried (Py_NULL (throwError d ret)) = None.
Proof.
  unfold throwError.
  repeat match goal with |- context [if ?c then _ else _] => destruct c end;
    reflexivity.
Qed.

(** The payload [packResponse] copies. *)
Lemma packResponse_payload d rx p :
  packResponse d rx = inl p -> py_payload p = payload_bytes d rx.
Proof.
  unfold packResponse.
  destruct (negb (utf8_char (version rx))); [discriminate|].
  destruct (negb (utf8_char (direction rx))); [discriminate|].
  intros H. injection H as <-. reflexivity.
Qed.

(** What [deliver] carries was parsed behind the size check. *)
Lemma deliver_carried r p :
  sized r -> carried (fst (fst (deliver r))) = Some p ->
  Z.of_nat (length (py_payload p)) <= READ_BUFFER_SIZE - 1.
Proof.
  destruct r as [[ret s3] rp]. unfold sized, deliver. cbn [fst snd]. intros Hs.
  destruct (ret <? 0) eqn:L; cbn [fst].
  - unfold throwPacketError. destruct (ret =? MSP_OK); [discriminate|].
    destruct (ret =? MSP_RX_CHECKSUM_MISMATCH) eqn:E1.
    + apply Z.eqb_eq in E1.
      destruct (packResponse (mdev s3) rp) as [q|e] eqn:E.
      * cbn [carried]. intros H. injection H as <-.
        rewrite (packResponse_payload _ _ E).
        apply payload_bytes_length, Hs. right; now left.
      * destruct (packResponse_error _ _ E) as [x ->]. discriminate.
    + destruct (ret =? MSP_RX_CLIENT_NACK) eqn:E2.
      * apply Z.eqb_eq in E2.
        destruct (packResponse (mdev s3) rp) as [q|e] eqn:E.
        -- cbn [carried]. intros H. injection H as <-.
           rewrite (packResponse_payload _ _ E).
           apply payload_bytes_length, Hs. now do 2 right.
        -- destruct (packResponse_error _ _ E) as [x ->]. discriminate.
      * now rewrite throwError_carried.
  - apply Z.ltb_ge in L. unfold return_packet.
    destruct (packResponse (mdev s3) rp) as [q|e] eqn:E.
    + cbn [carried]. intros H. injection H as <-.
      rewrite (packResponse_payload _ _ E).
      apply payload_bytes_length, Hs. now left.
    + destruct (packResponse_error _ _ E) as [x ->]. discriminate.
Qed.

Lemma buf_intact_eq s s' : buf (mdev s') = buf (mdev s) -> buf_intact s -> buf_intact s'.
Proof. unfold buf_intact. now intros ->. Qed.

Lemma buf_intact_get s resp a :
  buf_intact s -> buf_intact (snd (fst (pyMsplinkGet s resp a))).
Proof.
  intros Hb. unfold pyMsplinkGet.
  destruct (_ =? 0); [exact Hb|].
  destruct a as [a|]; [|exact Hb].
  pose proof (buf_msplink_clearRxBuffer s) as H1.
  destruct (msplink_clearRxBuffer s) as [r1 s1]. cbn [snd] in H1.
  apply (@buf_intact_eq _ _ H1) in Hb. clear H1.
  destruct (r1 <? 0); [exact Hb|].
  destruct (mspversion (mdev s1) =? 1).
  - destruct (_ >? 255); [exact Hb|].
    match goal with |- context [send_V1 ?x ?c ?p ?l] =>
      pose proof (buf_send_V1 x c p l) as H2;
      destruct (send_V1 x c p l) as [r2 s2] end.
    cbn [snd] in H2. apply (@buf_intact_eq _ _ H2) in Hb.
    destruct (r2 <? 0); [exact Hb|].
    pose proof (buf_intact_parse_packet resp Hb) as H3.
    destruct (parse_packet s2 resp) as [[r3 s3] rp].
    destruct (r3 <? 0); exact H3.
  - destruct (mspversion (mdev s1) =? 2); [|exact Hb].
    match goal with |- context [send_V2 ?x ?f ?c ?p ?l] =>
      pose proof (buf_send_V2 x f c p l) as H2;
      destruct (send_V2 x f c p l) as [r2 s2] end.
    cbn [snd] in H2. apply (@buf_intact_eq _ _ H2) in Hb.
    destruct (r2 <? 0); [exact Hb|].
    pose proof (buf_intact_parse_packet resp Hb) as H3.
    destruct (parse_packet s2 resp) as [[r3 s3] rp].
    destruct (r3 <? 0); exact H3.
Qed.

Lemma buf_intact_set s resp a :
  buf_intact s -> buf_intact (snd (fst (pyMsplinkSet s resp a))).
Proof.
  intros Hb. unfold pyMsplinkSet.
  destruct (_ =? 0); [exact Hb|].
  destruct a as [a|[|]]; [|exact Hb|exact Hb].
  destruct (negb _); [exact Hb|].
  pose proof (buf_msplink_clearRxBuffer s) as H1.
  destruct (msplink_clearRxBuffer s) as [r1 s1]. cbn [snd] in H1.
  apply (@buf_intact_eq _ _ H1) in Hb. clear H1.
  destruct (r1 <? 0); [exact Hb|].
  destruct (mspversion (mdev s1) =? 1).
  - destruct (_ >? 255); [exact Hb|].
    match goal with |- context [send_V1 ?x ?c ?p ?l] =>
      pose proof (buf_send_V1 x c p l) as H2;
      destruct (send_V1 x c p l) as [r2 s2] end.
    cbn [snd] in H2. apply (@buf_intact_eq _ _ H2) in Hb.
    destruct (r2 <? 0); [exact Hb|].
    destruct (wait_for_ack a); [|exact Hb].
    pose proof (buf_intact_parse_packet resp Hb) as H3.
    destruct (parse_packet s2 resp) as [[r3 s3] rp].
    destruct (r3 <? 0); exact H3.
  - destruct (mspversion (mdev s1) =? 2); [|exact Hb].
    match goal with |- context [send_V2 ?x ?f ?c ?p ?l] =>
      pose proof (buf_send_V2 x f c p l) as H2;
      destruct (send_V2 x f c p l) as [r2 s2] end.
    cbn [snd] in H2. apply (@buf_intact_eq _ _ H2) in Hb.
    destruct (r2 <? 0); [exact Hb|].
    destruct (wait_for_ack a); [|exact Hb].
    pose proof (buf_intact_parse_packet resp Hb) as H3.
    destruct (parse_packet s2 resp) as [[r3 s3] rp].
    destruct (r3 <? 0); exact H3.
Qed.

(** X21: the receive buffer is never overrun.  Whatever arrives on the line
    and however the reads split it, [parse_packet], and with it [get] and
    [set], store at most READ_BUFFER_SIZE bytes at [mdev->buf]: the buffer
    keeps its declared size, a frame that declares 1024 bytes or more being
    refused before its body is read. *)
Theorem receive_buffer_never_overflows s :
  buf_intact s ->
  (forall pkt, buf_intact (snd (fst (parse_packet s pkt))))
  /\ (forall resp a, buf_intact (snd (fst (pyMsplinkGet s resp a))))
  /\ (forall resp a, buf_intact (snd (fst (pyMsplinkSet s resp a)))).
Proof.
  intros Hb. split; [|split].
  - intros pkt. now apply buf_intact_parse_packet.
  - intros resp a. now apply buf_intact_get.
  - intros resp a. now apply buf_intact_set.
Qed.

Lemma receive_buffer_never_overflows_witness :
  (forall pkt, buf_intact (snd (fst (parse_packet initial_state pkt))))
  /\ (forall resp a, buf_intact (snd (fst (pyMsplinkGet initial_state resp a))))
  /\ (forall resp a, buf_intact (snd (fst (pyMsplinkSet initial_state resp a)))).
Proof.
  apply (@receive_buffer_never_overflows initial_state). reflexivity.
Defined.
(** X22: every packet handed to Python, as the result of [get] or [set] or
    attached to msplink.BadChecksum or msplink.NACK, has a payload of at most
    READ_BUFFER_SIZE - 1 = 1023 bytes, for every state of the module,
    contents of the response packet and behaviour of the line. *)
Theorem python_payload_is_bounded :
  (forall s resp a p,
     carried (fst (fst (pyMsplinkGet s resp a))) = Some p ->
     Z.of_nat (length (py_payload p)) <= READ_BUFFER_SIZE - 1)
  /\ (forall s resp a p,
        carried (fst (fst (pyMsplinkSet s resp a))) = Some p ->
        Z.of_nat (length (py_payload p)) <= READ_BUFFER_SIZE - 1).
Proof.
  split.
  - intros s resp a p. unfold pyMsplinkGet.
    destruct (_ =? 0); [discriminate|].
    destruct a as [a|]; [|discriminate].
    destruct (msplink_clearRxBuffer s) as [r1 s1].
    destruct (r1 <? 0); [cbn [fst]; now rewrite throwError_carried|].
    destruct (mspversion (mdev s1) =? 1).
    + destruct (_ >? 255); [discriminate|].
      destruct (send_V1 _ _ _ _) as [r2 s2].
      destruct (r2 <? 0); [cbn [fst]; now rewrite throwError_carried|].
      apply (@deliver_carried (parse_packet s2 resp)), sized_parse_packet.
    + destruct (mspversion (mdev s1) =? 2); [|discriminate].
      destruct (send_V2 _ _ _ _ _) as [r2 s2].
      destruct (r2 <? 0); [cbn [fst]; now rewrite throwError_carried|].
      apply (@deliver_carried (parse_packet s2 resp)), sized_parse_packet.
  - intros s resp a p. unfold pyMsplinkSet.
    destruct (_ =? 0); [discriminate|].
    destruct a as [a|[|]]; [|discriminate|discriminate].
    destruct (negb _); [discriminate|].
    destruct (msplink_clearRxBuffer s) as [r1 s1].
    destruct (r1 <? 0); [cbn [fst]; now rewrite throwError_carried|].
    destruct (mspversion (mdev s1) =? 1).
    + destruct (_ >? 255); [discriminate|].
      destruct (send_V1 _ _ _ _) as [r2 s2].
      destruct (r2 <? 0); [cbn [fst]; now rewrite throwError_carried|].
      destruct (wait_for_ack a); [|discriminate].
      apply (@deliver_carried (parse_packet s2 resp)), sized_parse_packet.
    + destruct (mspversion (mdev s1) =? 2); [|discriminate].
      destruct (send_V2 _ _ _ _ _) as [r2 s2].
      destruct (r2 <? 0); [cbn [fst]; now rewrite throwError_carried|].
      destruct (wait_for_ack a); [|discriminate].
      apply (@deliver_carried (parse_packet s2 resp)), sized_parse_packet.
Qed.

Lemma python_payload_is_bounded_witness :
  Z.of_nat (length (py_payload (PyPacket MSP_V1 62 None 108 [1; 2; 3] 111)))
  <= READ_BUFFER_SIZE - 1.
Proof.
  apply (proj1 python_payload_is_bounded
           (answering open_state (reply_V1 62 108 [1; 2; 3]))
           blank_packet (Some (GetArgs 108 0))).
  reflexivity.
Defined.
